(** * pypicache: the on-disk package store ([pypicache/disk.py])

    A shallow embedding of [DiskPackageStore] and of the part of the Python
    runtime it runs on, followed by the properties of the store.

    Conventions of the embedding.
    - Python 2 semantics: [str] is a byte string.  Names and paths are
      [string] (one [ascii] per byte), file contents are [list byte].
    - [str.lower] is the C-locale one: only [A-Z] change.
    - The file system is POSIX: [/] separates components, names are
      case-sensitive, [.] and [..] are resolved against the directory
      tree.  There are no symbolic links and no permissions, so a
      directory can always be listed and a regular file always be read.
    - An exception is a value: a call returns [Return v] or [Raise e].
      A call that changes the file system returns the new file system
      together with its outcome, also when it raises.
    - [get_file] and [list_files] call themselves and each other; they take
      the number of nested calls they may make and answer [None] when that
      is not enough.  A call that is [None] at every depth never returns
      (CPython ends it with "maximum recursion depth exceeded").
    - A generator is the list of what it yields: listing has no effect on
      the file system and the consumers below only read from the front.
    - Logging is left out.
    - The calls of the runtime are modelled on paths without a NUL byte and
      within the length limits of the file system, and [glob.glob] on a
      storage root without [*], [?] and [[] (see [has_nul], [NAME_MAX],
      [PATH_MAX] and [plain_root] below, which properties take as
      hypotheses).
    - [pypicache/pypi.py] talks to a remote index.  The network is a
      function from a URI to what [requests.get] gives for it, and a call
      takes and returns the list of the URIs requested. *)

From Stdlib Require Import Ascii String NArith Lia List Bool.
From Stdlib.Strings Require Import Byte.
From stdpp Require Import base option gmap strings list fin_maps sorting pretty.

Local Open Scope string_scope.
Local Open Scope list_scope.
Local Open Scope stdpp_scope.

Abbreviation bytes := (list byte).

(** ** Byte strings *)

Definition lower_char (c : ascii) : ascii :=
  let n := N_of_ascii c in
  if ((65 <=? n) && (n <=? 90))%N then ascii_of_N (n + 32) else c.

(** [s.lower()] *)
Fixpoint lower (s : string) : string :=
  match s with
  | EmptyString => EmptyString
  | String c s' => String (lower_char c) (lower s')
  end.

Definition is_slash (c : ascii) : bool := Ascii.eqb c "/".

(** [s.startswith('/')] and [s.endswith('/')] *)
Definition starts_with_slash (s : string) : bool :=
  match s with
  | String c _ => is_slash c
  | EmptyString => false
  end.

Fixpoint ends_with_slash (s : string) : bool :=
  match s with
  | EmptyString => false
  | String c EmptyString => is_slash c
  | String _ s' => ends_with_slash s'
  end.

Fixpoint has_slash (s : string) : bool :=
  match s with
  | EmptyString => false
  | String c s' => is_slash c || has_slash s'
  end.

(** [s == '/' * len(s)] *)
Fixpoint all_slashes (s : string) : bool :=
  match s with
  | EmptyString => true
  | String c s' => is_slash c && all_slashes s'
  end.

(** [s.rstrip('/')] *)
Fixpoint rstrip_slash (s : string) : string :=
  match s with
  | EmptyString => EmptyString
  | String c s' =>
      match rstrip_slash s' with
      | EmptyString => if is_slash c then EmptyString else String c EmptyString
      | r => String c r
      end
  end.

(** [(p[:i], p[i:])] for [i = p.rfind('/') + 1] *)
Fixpoint rsplit_slash (p : string) : string * string :=
  match p with
  | EmptyString => (EmptyString, EmptyString)
  | String c r =>
      let '(h, t) := rsplit_slash r in
      if has_slash r then (String c h, t)
      else if is_slash c then (String c EmptyString, r)
      else (EmptyString, String c r)
  end.

(** [p.split('/')] *)
Fixpoint components (p : string) : list string :=
  match p with
  | EmptyString => [EmptyString]
  | String c r =>
      if is_slash c then EmptyString :: components r
      else match components r with
           | h :: t => String c h :: t
           | [] => [String c EmptyString]
           end
  end.

(** ** [posixpath] *)

Module posixpath.

(** [os.path.join(a, b)] *)
Definition join (a b : string) : string :=
  if starts_with_slash b then b
  else if String.eqb a "" || ends_with_slash a then a +:+ b
  else a +:+ "/" +:+ b.

(** [os.path.split(p)] *)
Definition split (p : string) : string * string :=
  let '(head, tail) := rsplit_slash p in
  (if negb (String.eqb head "") && negb (all_slashes head)
   then rstrip_slash head else head,
   tail).

Definition dirname (p : string) : string := fst (split p).

Definition basename (p : string) : string := snd (rsplit_slash p).

End posixpath.

(** ** The file system *)

(** A location is the list of names from an entry up to the root: its head
    is the entry's own name, its tail the location of the directory that
    holds it, and [[]] is the root directory. *)
Abbreviation location := (list string).

Inductive node : Type :=
  | File (data : bytes)
  | Dir.

Record filesystem : Type := mkfs {
  nodes : gmap location node;
  cwd : location
}.

(** The errors of the system calls.  [ENOENT] stands for every error but
    [EEXIST]: the store only tells these two apart. *)
Inductive errno : Type := EEXIST | ENOENT.

(** What is at a location; the root is a directory. *)
Definition node_at (m : gmap location node) (l : location) : option node :=
  match l with
  | [] => Some Dir
  | _ => m !! l
  end.

Definition is_dir (m : gmap location node) (l : location) : bool :=
  match node_at m l with
  | Some Dir => true
  | _ => false
  end.

Definition present (m : gmap location node) (l : location) : bool :=
  match node_at m l with
  | Some _ => true
  | None => false
  end.

(** One component of a path, taken from the directory [cur]. *)
Definition step (cur : location) (c : string) : location :=
  if String.eqb c "" || String.eqb c "." then cur
  else if String.eqb c ".." then tail cur
  else c :: cur.

(** Path resolution: every component is looked up in a directory. *)
Fixpoint walk_path (m : gmap location node) (cur : location)
    (comps : list string) : option location :=
  match comps with
  | [] => Some cur
  | c :: rest => if is_dir m cur then walk_path m (step cur c) rest else None
  end.

Definition resolve (fs : filesystem) (p : string) : option location :=
  if String.eqb p "" then None
  else walk_path (nodes fs) (if starts_with_slash p then [] else cwd fs)
         (components p).

(** A name that a directory entry can have. *)
Definition valid_name (n : string) : bool :=
  negb (String.eqb n "") && negb (String.eqb n ".")
  && negb (String.eqb n "..") && negb (has_slash n).

Definition child_of (l : location) (k : location) : option string :=
  match k with
  | n :: l' => if bool_decide (l' = l) && valid_name n then Some n else None
  | [] => None
  end.

(** The entries of the directory at [l], in the order the file system
    hands them out. *)
Definition children (m : gmap location node) (l : location) : list string :=
  omap (fun kv => child_of l (fst kv)) (map_to_list m).

(** Whether a byte string has a NUL byte.  CPython refuses such a path
    with [TypeError] before it asks the file system. *)
Fixpoint has_nul (s : string) : bool :=
  match s with
  | EmptyString => false
  | String c rest => Ascii.eqb c "000" || has_nul rest
  end.

(** The longest name of a directory entry, and the length that a path
    stays under (Linux). *)
Definition NAME_MAX : nat := 255.
Definition PATH_MAX : nat := 4096.

(** The calls below give what the runtime gives for a path without a NUL
    byte whose components are not longer than [NAME_MAX] and whose length
    is under [PATH_MAX]; they do not refuse other paths. *)
Module os.

(** [os.path.exists], [os.path.isdir], [os.path.isfile] *)
Definition path_exists (fs : filesystem) (p : string) : bool :=
  match resolve fs p with
  | Some l => present (nodes fs) l
  | None => false
  end.

Definition isdir (fs : filesystem) (p : string) : bool :=
  match resolve fs p with
  | Some l => is_dir (nodes fs) l
  | None => false
  end.

Definition isfile (fs : filesystem) (p : string) : bool :=
  match resolve fs p with
  | Some l => match node_at (nodes fs) l with
              | Some (File _) => true
              | _ => false
              end
  | None => false
  end.

(** [open(p, "rb").read()]; [None] is [IOError]. *)
Definition read (fs : filesystem) (p : string) : option bytes :=
  match resolve fs p with
  | Some l => match node_at (nodes fs) l with
              | Some (File data) => Some data
              | _ => None
              end
  | None => None
  end.

(** [open(p, "wb")] followed by [write(data)] and [close()]; [None] is
    [IOError], and then nothing was created. *)
Definition write (fs : filesystem) (p : string) (data : bytes)
    : option filesystem :=
  match resolve fs p with
  | Some l =>
      if is_dir (nodes fs) l then None
      else Some (mkfs (<[l := File data]> (nodes fs)) (cwd fs))
  | None => None
  end.

(** [os.listdir(p)]; [None] is [OSError]. *)
Definition listdir (fs : filesystem) (p : string) : option (list string) :=
  match resolve fs p with
  | Some l => if is_dir (nodes fs) l then Some (children (nodes fs) l) else None
  | None => None
  end.

(** [os.mkdir(p)]; trailing slashes are ignored, as POSIX has it. *)
Definition mkdir (fs : filesystem) (p : string) : filesystem * option errno :=
  match resolve fs (if all_slashes p then p else rstrip_slash p) with
  | Some l =>
      if present (nodes fs) l then (fs, Some EEXIST)
      else (mkfs (<[l := Dir]> (nodes fs)) (cwd fs), None)
  | None => (fs, Some ENOENT)
  end.

(** [os.makedirs(name)]: the recursion of the library on the head of
    [name], which is shorter than [name] at every call. *)
Fixpoint makedirs_rec (fuel : nat) (fs : filesystem) (name : string)
    : filesystem * option errno :=
  match fuel with
  | O => (fs, Some ENOENT)
  | S fuel' =>
      let '(head, tail) := posixpath.split name in
      let '(head, tail) :=
        if String.eqb tail "" then posixpath.split head else (head, tail) in
      if negb (String.eqb head "") && negb (String.eqb tail "")
         && negb (path_exists fs head)
      then
        match makedirs_rec fuel' fs head with
        | (fs1, Some ENOENT) => (fs1, Some ENOENT)
        | (fs1, _) =>
            (* be happy if someone already created the path *)
            if String.eqb tail "." then (fs1, None) else mkdir fs1 name
        end
      else mkdir fs name
  end.

Definition makedirs (fs : filesystem) (name : string)
    : filesystem * option errno :=
  makedirs_rec (S (String.length name)) fs name.

(** [os.walk(top, topdown=False)]: the triples [(root, dirs, files)], a
    directory after its sub-directories.  [depth] bounds the nesting of
    the directories of a finite file system. *)
Fixpoint walk_rec (fuel : nat) (fs : filesystem) (top : string)
    : list (string * list string * list string) :=
  match fuel with
  | O => []
  | S fuel' =>
      match listdir fs top with
      | None => []
      | Some names =>
          let dirs := List.filter (fun n => isdir fs (posixpath.join top n)) names in
          let nondirs :=
            List.filter (fun n => negb (isdir fs (posixpath.join top n))) names in
          flat_map (fun n => walk_rec fuel' fs (posixpath.join top n)) dirs
          ++ [(top, dirs, nondirs)]
      end
  end.

Definition depth (fs : filesystem) : nat :=
  map_fold (fun (k : location) (_ : node) acc => Nat.max (List.length k) acc)
    0 (nodes fs).

Definition walk (fs : filesystem) (top : string)
    : list (string * list string * list string) :=
  walk_rec (S (depth fs)) fs top.

End os.

(** ** [fnmatch], [glob] and [sorted] *)

(** [fnmatch.fnmatch(name, pat)] for a pattern of [?], [*] and literal
    characters (the store's pattern has no bracket expression). *)
Fixpoint fnmatch (pat : string) : string -> bool :=
  match pat with
  | EmptyString => fun name => String.eqb name ""
  | String c pat' =>
      if Ascii.eqb c "*" then
        fix star (name : string) : bool :=
          fnmatch pat' name
          || match name with
             | EmptyString => false
             | String _ name' => star name'
             end
      else if Ascii.eqb c "?" then
        fun name => match name with
                    | String _ name' => fnmatch pat' name'
                    | EmptyString => false
                    end
      else
        fun name => match name with
                    | String d name' => Ascii.eqb c d && fnmatch pat' name'
                    | EmptyString => false
                    end
  end.

Definition starts_with_dot (s : string) : bool :=
  match s with
  | String c _ => Ascii.eqb c "."
  | EmptyString => false
  end.

Module glob.

(** [glob.has_magic(s)]: whether [s] has one of [*], [?] and [[]. *)
Fixpoint has_magic (s : string) : bool :=
  match s with
  | EmptyString => false
  | String c rest =>
      Ascii.eqb c "*" || Ascii.eqb c "?" || Ascii.eqb c "[" || has_magic rest
  end.

(** [glob.glob1(dirname, pattern)]: the entries of a directory that match
    a pattern; a leading dot is matched by a leading dot only. *)
Definition glob1 (fs : filesystem) (dirname pattern : string) : list string :=
  let dirname := if String.eqb dirname "" then "." else dirname in
  match os.listdir fs dirname with
  | None => []
  | Some names =>
      List.filter
        (fun n => (starts_with_dot pattern || negb (starts_with_dot n))
                  && fnmatch pattern n)
        names
  end.

(** [glob.glob(pathname)] for a pathname whose last two components are
    patterns and whose directory part before them has no magic: the
    directory part is taken literally, which is what [glob.glob] does when
    [has_magic] is false of it (otherwise it expands the directory part
    too, which is not modelled: see [plain_root]). *)
Definition glob (fs : filesystem) (pathname : string) : list string :=
  let '(dirname, basename) := posixpath.split pathname in
  let '(dirname2, basename2) := posixpath.split dirname in
  flat_map (fun d => map (posixpath.join d) (glob1 fs d basename))
    (map (posixpath.join dirname2) (glob1 fs dirname2 basename2)).

End glob.

(** [sorted(l)] on a list of [str]: the order is byte by byte, a proper
    prefix first. *)
Definition sorted (l : list string) : list string := merge_sort String.le l.

(** ** [hashlib.md5] (RFC 1321) *)

Module hashlib.
Local Open Scope N_scope.

Definition mask32 (x : N) : N := N.land x 4294967295.
Definition add32 (x y : N) : N := mask32 (x + y).
Definition not32 (x : N) : N := N.lxor x 4294967295.
Definition rotl32 (x c : N) : N :=
  mask32 (N.lor (N.shiftl x c) (N.shiftr x (32 - c))).

Definition shifts : list N :=
  [7; 12; 17; 22; 7; 12; 17; 22; 7; 12; 17; 22; 7; 12; 17; 22;
   5; 9; 14; 20; 5; 9; 14; 20; 5; 9; 14; 20; 5; 9; 14; 20;
   4; 11; 16; 23; 4; 11; 16; 23; 4; 11; 16; 23; 4; 11; 16; 23;
   6; 10; 15; 21; 6; 10; 15; 21; 6; 10; 15; 21; 6; 10; 15; 21].

Definition sines : list N :=
  [3614090360; 3905402710; 606105819; 3250441966; 4118548399; 1200080426;
   2821735955; 4249261313; 1770035416; 2336552879; 4294925233; 2304563134;
   1804603682; 4254626195; 2792965006; 1236535329; 4129170786; 3225465664;
   643717713; 3921069994; 3593408605; 38016083; 3634488961; 3889429448;
   568446438; 3275163606; 4107603335; 1163531501; 2850285829; 4243563512;
   1735328473; 2368359562; 4294588738; 2272392833; 1839030562; 4259657740;
   2763975236; 1272893353; 4139469664; 3200236656; 681279174; 3936430074;
   3572445317; 76029189; 3654602809; 3873151461; 530742520; 3299628645;
   4096336452; 1126891415; 2878612391; 4237533241; 1700485571; 2399980690;
   4293915773; 2240044497; 1873313359; 4264355552; 2734768916; 1309151649;
   4149444226; 3174756917; 718787259; 3951481745].

Definition state : Type := N * N * N * N.

Definition round (M : list N) (i : N) (st : state) : state :=
  let '(A, B, C, D) := st in
  let '(F, g) :=
    if i <? 16 then (N.lor (N.land B C) (N.land (not32 B) D), i)
    else if i <? 32 then
      (N.lor (N.land D B) (N.land (not32 D) C), (5 * i + 1) mod 16)
    else if i <? 48 then (N.lxor B (N.lxor C D), (3 * i + 5) mod 16)
    else (N.lxor C (N.lor B (not32 D)), (7 * i) mod 16) in
  let F' :=
    add32 (add32 (add32 F A) (nth (N.to_nat i) sines 0)) (nth (N.to_nat g) M 0) in
  (D, add32 B (rotl32 F' (nth (N.to_nat i) shifts 0)), B, C).

Definition block (st : state) (M : list N) : state :=
  let '(a0, b0, c0, d0) := st in
  let '(A, B, C, D) :=
    fold_left (fun acc i => round M (N.of_nat i) acc) (seq 0 64) st in
  (add32 a0 A, add32 b0 B, add32 c0 C, add32 d0 D).

(** The little-endian 32-bit words of a byte list. *)
Fixpoint words (bs : list N) : list N :=
  match bs with
  | b0 :: b1 :: b2 :: b3 :: rest =>
      (b0 + 256 * (b1 + 256 * (b2 + 256 * b3))) :: words rest
  | _ => []
  end.

Fixpoint chunks (n : nat) (ws : list N) : list (list N) :=
  match n with
  | O => []
  | S n' => match ws with
            | [] => []
            | _ => firstn 16 ws :: chunks n' (skipn 16 ws)
            end
  end.

Fixpoint le_bytes (k : nat) (x : N) : list N :=
  match k with
  | O => []
  | S k' => (x mod 256) :: le_bytes k' (x / 256)
  end.

Definition pad (msg : list N) : list N :=
  let len := N.of_nat (List.length msg) in
  let zeros := N.to_nat ((119 - len mod 64) mod 64) in
  msg ++ [128] ++ repeat 0 zeros
  ++ le_bytes 8 ((8 * len) mod 18446744073709551616).

Definition digest (msg : bytes) : list N :=
  let ws := words (pad (map Byte.to_N msg)) in
  let '(A, B, C, D) :=
    fold_left block (chunks (List.length ws) ws)
      (1732584193, 4023233417, 2562383102, 271733878) in
  le_bytes 4 A ++ le_bytes 4 B ++ le_bytes 4 C ++ le_bytes 4 D.

Definition hexdigit (n : N) : ascii :=
  if n <? 10 then ascii_of_N (48 + n) else ascii_of_N (87 + n).

(** [hashlib.md5(msg).hexdigest()] *)
Definition md5_hexdigest (msg : bytes) : string :=
  fold_right
    (fun b acc => String (hexdigit (b / 16)) (String (hexdigit (b mod 16)) acc))
    EmptyString (digest msg).

End hashlib.

(** ** Exceptions, outcomes and generators *)

Inductive exn : Type :=
  | IndexError
  | IOError
  | OSError (e : errno)
  | NotFound (msg : string)
  | NotOverwritingError (msg : string).

Inductive outcome (A : Type) : Type :=
  | Return (a : A)
  | Raise (e : exn).
Arguments Return {A} a.
Arguments Raise {A} e.

(** What a generator produces when it is run to its end: the values it
    yields, then the exception that ends it, if any. *)
Record generated (A : Type) : Type := Gen {
  yields : list A;
  stop : option exn
}.
Arguments Gen {A} yields stop.
Arguments yields {A} g.
Arguments stop {A} g.

(** One generator after another. *)
Definition gen_app {A} (g1 g2 : generated A) : generated A :=
  match stop g1 with
  | Some _ => g1
  | None => Gen (yields g1 ++ yields g2) (stop g2)
  end.

(** ** [DiskPackageStore] *)

Record DiskPackageStore : Type := { prefix : string }.

(** The dictionaries that [list_files] yields. *)
Record fileinfo : Type := mkinfo {
  info_package : string;
  info_firstletter : string;
  info_filename : string;
  info_md5 : string
}.

(** The argument [content] of [add_file]: a byte string, or an object with
    a [read] method that returns the bytes it holds. *)
Inductive content : Type :=
  | Bytes (data : bytes)
  | Stream (data : bytes).

Definition content_bytes (c : content) : bytes :=
  match c with
  | Bytes data => data
  | Stream data => data
  end.

Definition get_file_path (self : DiskPackageStore) (package filename : string)
    : outcome string :=
  match package with
  | EmptyString => Raise IndexError
  | String c _ =>
      let firstletter := String c EmptyString in
      Return (posixpath.join (prefix self)
                ("packages/" +:+ firstletter +:+ "/" +:+ package +:+ "/" +:+ filename))
  end.

Definition list_packages (self : DiskPackageStore) (fs : filesystem)
    : list string :=
  let path := posixpath.join (prefix self) "packages/?/*" in
  map posixpath.basename (List.filter (os.isdir fs) (sorted (glob.glob fs path))).

(** The inner loop of [list_files]: one record for each of [files]. *)
Fixpoint file_records (fs : filesystem) (package firstletter root : string)
    (files : list string) : generated fileinfo :=
  match files with
  | [] => Gen [] None
  | filename :: rest =>
      let abspath := posixpath.join root filename in
      match os.read fs abspath with
      | None => Gen [] (Some IOError)
      | Some data =>
          gen_app
            (Gen [mkinfo package firstletter filename (hashlib.md5_hexdigest data)] None)
            (file_records fs package firstletter root rest)
      end
  end.

(** The outer loop of [list_files], over the triples of [os.walk]. *)
Fixpoint walk_records (fs : filesystem) (package firstletter : string)
    (triples : list (string * list string * list string)) : generated fileinfo :=
  match triples with
  | [] => Gen [] None
  | (root, dirs, files) :: rest =>
      gen_app (file_records fs package firstletter root files)
        (walk_records fs package firstletter rest)
  end.

Definition same_name (a b : string) : bool := String.eqb (lower a) (lower b).

Fixpoint list_files (depth : nat) (self : DiskPackageStore) (fs : filesystem)
    (package : string) : option (generated fileinfo) :=
  match depth with
  | O => None
  | S depth' =>
      match package with
      | EmptyString => Some (Gen [] (Some IndexError))
      | String c _ =>
          let firstletter := String c EmptyString in
          let prefix :=
            posixpath.join (prefix self)
              ("packages/" +:+ firstletter +:+ "/" +:+ package) in
          let walk :=
            Some (walk_records fs package firstletter (os.walk fs prefix)) in
          (* Try fishing for correct name *)
          if negb (os.isdir fs prefix) then
            match List.find (fun my_package => same_name my_package package)
                    (list_packages self fs) with
            | Some my_package => list_files depth' self fs my_package
            | None => walk
            end
          else walk
      end
  end.

Definition not_found_message (package filename path : string) : string :=
  "Package " +:+ package +:+ ": " +:+ filename +:+ " not found in " +:+ path.

(** The two loops of [get_file], over the packages and over the files of
    a package of the same name; [list_files'] and [get_file'] are the calls
    one level deeper. *)
Fixpoint fishing (list_files' : string -> option (generated fileinfo))
    (get_file' : string -> string -> option (outcome bytes))
    (package filename path : string) (packages : list string)
    : option (outcome bytes) :=
  match packages with
  | [] => Some (Raise (NotFound (not_found_message package filename path)))
  | my_package :: rest =>
      if same_name package my_package then
        match list_files' my_package with
        | None => None
        | Some g =>
            match List.find (fun fi => same_name (info_filename fi) filename)
                    (yields g) with
            | Some fi => get_file' my_package (info_filename fi)
            | None =>
                match stop g with
                | Some e => Some (Raise e)
                | None =>
                    fishing list_files' get_file' package filename path rest
                end
            end
        end
      else fishing list_files' get_file' package filename path rest
  end.

(** [get_file] returns an open file; the embedding returns the bytes that
    reading it gives. *)
Fixpoint get_file (depth : nat) (self : DiskPackageStore) (fs : filesystem)
    (package filename : string) : option (outcome bytes) :=
  match depth with
  | O => None
  | S depth' =>
      match get_file_path self package filename with
      | Raise e => Some (Raise e)
      | Return path =>
          match os.read fs path with
          | Some data => Some (Return data)
          | None =>
              (* Try fishing for the file with different cases *)
              fishing (list_files depth' self fs) (get_file depth' self fs)
                package filename path (list_packages self fs)
          end
      end
  end.

Definition add_file (self : DiskPackageStore) (fs : filesystem)
    (package filename : string) (content : content)
    : filesystem * outcome unit :=
  match get_file_path self package filename with
  | Raise e => (fs, Raise e)
  | Return path =>
      if os.isfile fs path then
        (fs, Raise (NotOverwritingError ("Not overwriting " +:+ path)))
      else
        let prefix := posixpath.dirname path in
        let '(fs1, made) :=
          if negb (os.isdir fs prefix) then os.makedirs fs prefix
          else (fs, None) in
        match made with
        | Some e => (fs1, Raise (OSError e))
        | None =>
            match os.write fs1 path (content_bytes content) with
            | Some fs2 => (fs2, Return tt)
            | None => (fs1, Raise IOError)
            end
        end
  end.

(** ** Store invariants and outcomes *)

Definition firstletter (package : string) : string :=
  match package with
  | String c _ => String c EmptyString
  | EmptyString => EmptyString
  end.

(** The directory of a package, [<root>/packages/<package[0]>/<package>]:
    the [prefix] of [list_files]. *)
Definition package_dir (self : DiskPackageStore) (package : string) : string :=
  posixpath.join (prefix self)
    ("packages/" +:+ firstletter package +:+ "/" +:+ package).

(** The directories that [list_packages] goes through, in its order. *)
Definition package_paths (self : DiskPackageStore) (fs : filesystem)
    : list string :=
  List.filter (os.isdir fs)
    (sorted (glob.glob fs (posixpath.join (prefix self) "packages/?/*"))).

(** First-letter sharding: every directory that [list_packages] goes
    through is the directory of the package it is named after. *)
Definition sharded (self : DiskPackageStore) (fs : filesystem) : bool :=
  forallb (fun p => String.eqb p (package_dir self (posixpath.basename p)))
    (package_paths self fs).

(** No package directory has a sub-directory. *)
Definition flat (self : DiskPackageStore) (fs : filesystem) : bool :=
  forallb
    (fun p => match os.listdir fs p with
              | Some names =>
                  forallb (fun n => negb (os.isdir fs (posixpath.join p n))) names
              | None => true
              end)
    (package_paths self fs).

(** [q] is an initial part of the path [p]. *)
Definition initial (q p : string) : Prop := exists rest, p = q +:+ rest.

(** [fs'] is [fs] with more directories, each of them named by an initial
    part of [name]. *)
Definition grown (name : string) (fs fs' : filesystem) : Prop :=
  cwd fs' = cwd fs
  /\ forall l,
       nodes fs' !! l = nodes fs !! l
       \/ (nodes fs !! l = None /\ nodes fs' !! l = Some Dir
           /\ exists q, initial q name /\ resolve fs' q = Some l).

(** A call returns when some depth of nested calls is enough for it. *)
Definition get_file_returns (self : DiskPackageStore) (fs : filesystem)
    (package filename : string) (r : outcome bytes) : Prop :=
  exists depth, get_file depth self fs package filename = Some r.

Definition list_files_yields (self : DiskPackageStore) (fs : filesystem)
    (package : string) (g : generated fileinfo) : Prop :=
  exists depth, list_files depth self fs package = Some g.

(** What [os.path.join] puts before a relative path. *)
Definition join_base (root : string) : string :=
  if String.eqb root "" || ends_with_slash root then root else root +:+ "/".

(** The directory [<root>/packages]. *)
Definition packages_dir (self : DiskPackageStore) : string :=
  posixpath.join (prefix self) "packages".

(** The path of a directory [n] in the shard [c]. *)
Definition shard_path (self : DiskPackageStore) (c : ascii) (n : string) : string :=
  join_base (prefix self) +:+ "packages/" +:+ String c "" +:+ "/" +:+ n.

(** A triple of [os.walk] whose files can all be read. *)
Definition readable_triple (fs : filesystem)
    (t : string * list string * list string) : Prop :=
  forall f, In f (snd t) ->
    valid_name f = true
    /\ exists data, os.read fs (posixpath.join (fst (fst t)) f) = Some data.

(** The storage roots that the embedding covers: no [*], [?] or [[], which
    [glob.glob] in [list_packages] would expand, and no NUL byte. *)
Definition plain_root (self : DiskPackageStore) : bool :=
  negb (glob.has_magic (prefix self)) && negb (has_nul (prefix self)).

(** ** Sample stores *)

Definition srv : DiskPackageStore := {| prefix := "/srv/cache" |}.

(** A disk that has the storage root and nothing else. *)
Definition disk0 : filesystem :=
  mkfs (list_to_map [(["srv"], Dir); (["cache"; "srv"], Dir)]) [].

Definition hello : bytes := list_byte_of_string "hello".
Definition world : bytes := list_byte_of_string "world".

(** The store after [add_file("Django", "Django-1.0.tar.gz", "hello")]. *)
Definition disk_django : filesystem :=
  fst (add_file srv disk0 "Django" "Django-1.0.tar.gz" (Bytes hello)).

(** What [list_files("Django")] yields on it. *)
Definition django_listing : generated fileinfo :=
  Gen [mkinfo "Django" "D" "Django-1.0.tar.gz" "5d41402abc4b2a76b9719d911017c592"]
    None.

(** A package with two files whose names differ in case only. *)
Definition disk_two_cases : filesystem :=
  fst (add_file srv
         (fst (add_file srv disk0 "Django" "readme.txt" (Bytes hello)))
         "Django" "README.txt" (Stream world)).

(** The store after [add_file("django", "sub/f.txt", "hello")]: the file is
    in a sub-directory of the package directory. *)
Definition disk_nested : filesystem :=
  fst (add_file srv disk0 "django" "sub/f.txt" (Bytes hello)).

(** Package directories outside the shard of their first letter:
    [packages/a/zeta], [packages/b/alpha] and [packages/c/alpha]. *)
Definition disk_missharded : filesystem :=
  mkfs
    (list_to_map
       [(["srv"], Dir); (["cache"; "srv"], Dir);
        (["packages"; "cache"; "srv"], Dir);
        (["a"; "packages"; "cache"; "srv"], Dir);
        (["zeta"; "a"; "packages"; "cache"; "srv"], Dir);
        (["b"; "packages"; "cache"; "srv"], Dir);
        (["alpha"; "b"; "packages"; "cache"; "srv"], Dir);
        (["c"; "packages"; "cache"; "srv"], Dir);
        (["alpha"; "c"; "packages"; "cache"; "srv"], Dir)])
    [].

(** The store after [add_file(".hidden", "f.txt", "hello")]: a package
    whose name starts with a dot. *)
Definition disk_hidden : filesystem :=
  fst (add_file srv disk0 ".hidden" "f.txt" (Bytes hello)).


(** Three packages, each in its shard. *)
Definition disk_three : filesystem :=
  fst (add_file srv
         (fst (add_file srv
                 (fst (add_file srv disk0 "flask" "flask-0.9.tar.gz" (Bytes world)))
                 "attrs" "attrs-1.0.tar.gz" (Bytes hello)))
         "Django" "Django-1.0.tar.gz" (Bytes hello)).

(** ** The layout of a store of plain names *)

(** Every entry of the file system has a name and lies in a directory. *)
Definition well_formed (fs : filesystem) : bool :=
  forallb (fun kv : location * node =>
             match fst kv with
             | n :: l => valid_name n && is_dir (nodes fs) l
             | [] => true
             end)
    (map_to_list (nodes fs)).

(** Where a plain package and a plain file of it lie, from the location
    [lr] of the storage root. *)
Definition package_at (lr : location) (package : string) : location :=
  package :: firstletter package :: "packages" :: lr.

Definition file_at (lr : location) (package filename : string) : location :=
  filename :: package_at lr package.

(** [fs'] is [fs] with, at most, the three directories of a package and one
    file of it added. *)
Definition stored (lr : location) (package filename : string) (data : bytes)
    (fs fs' : filesystem) : Prop :=
  cwd fs' = cwd fs
  /\ forall l,
       nodes fs' !! l = nodes fs !! l
       \/ (nodes fs !! l = None
           /\ ((nodes fs' !! l = Some Dir
                /\ (l = "packages" :: lr
                    \/ l = firstletter package :: "packages" :: lr
                    \/ l = package_at lr package))
               \/ (nodes fs' !! l = Some (File data)
                   /\ l = file_at lr package filename))).



(** [fs'] is [fs] with more directories, each of them at the location [t]
    or above it. *)
Definition made (t : location) (fs fs' : filesystem) : Prop :=
  cwd fs' = cwd fs
  /\ forall l,
       nodes fs' !! l = nodes fs !! l
       \/ (nodes fs !! l = None /\ nodes fs' !! l = Some Dir /\ l `suffix_of` t).

(** * The remote index ([pypicache/pypi.py]) *)

(** ** [requests] *)

Module requests.

(** A response: its status code and its body. *)
Record Response : Type := mkResponse {
  status_code : N;
  content : bytes
}.

(** [repr(response)], which [str.format] puts into a message. *)
Definition repr (r : Response) : string :=
  "<Response [" +:+ pretty (status_code r) +:+ "]>".

End requests.

(** What [requests.get(uri)] gives: a response, or an exception of
    [requests] itself (no connection, a URI it cannot use). *)
Definition network : Type := string -> requests.Response + string.

(** The exceptions of [pypi.py]: those it shares with the store,
    [exceptions.RemoteError], and what [requests.get] raises, which is
    passed on. *)
Inductive remote_exn : Type :=
  | Local (e : exn)
  | RemoteError (msg : string)
  | RequestException (what : string).

Inductive fetched (A : Type) : Type :=
  | Got (a : A)
  | Failed (e : remote_exn).
Arguments Got {A} a.
Arguments Failed {A} e.

(** ** [get_uri] and [PyPI] *)

Module pypi.

Section index.

(** The network, and the URIs that [xmlrpclib.ServerProxy] accepts (it
    raises [IOError] for a protocol other than http and https).  A call
    takes the list of the URIs requested so far and returns it with its
    own requests added. *)
Variable requests_get : network.
Variable server_proxy : string -> bool.

Definition get_uri (uri : string) (log : list string)
    : list string * fetched requests.Response :=
  let log := log ++ [uri] in
  match requests_get uri with
  | inr what => (log, Failed (RequestException what))
  | inl response =>
      if (requests.status_code response =? 404)%N then
        (log, Failed (Local (NotFound
           ("Can't locate " +:+ uri +:+ ": " +:+ requests.repr response))))
      else if negb (requests.status_code response =? 200)%N then
        (log, Failed (RemoteError
           ("Unexpected response from " +:+ uri +:+ ": "
            +:+ requests.repr response)))
      else (log, Got response)
  end.

Record PyPI : Type := { pypi_server : string }.

Definition default_server : string := "http://pypi.python.org/".

(** [PyPI(pypi_server)] *)
Definition __init__ (pypi_server : string) : outcome PyPI :=
  let pypi_server :=
    if negb (ends_with_slash pypi_server) then pypi_server +:+ "/"
    else pypi_server in
  if server_proxy (pypi_server +:+ "pypi") then
    Return {| pypi_server := pypi_server |}
  else Raise IOError.

Definition get_simple_package_info (self : PyPI) (package : string)
    (log : list string) : list string * fetched bytes :=
  let uri := pypi_server self +:+ "simple/" +:+ package +:+ "/" in
  match get_uri uri log with
  | (log, Got r) => (log, Got (requests.content r))
  | (log, Failed e) => (log, Failed e)
  end.

(** [package[0]] *)
Definition first (package : string) : outcome string :=
  match package with
  | EmptyString => Raise IndexError
  | String c _ => Return (String c EmptyString)
  end.

Definition get_file (self : PyPI) (package filename : string)
    (python_version : option string) (log : list string)
    : list string * fetched bytes :=
  let uri :=
    match python_version with
    | Some python_version =>
        match first package with
        | Raise e => Raise e
        | Return c =>
            Return (pypi_server self +:+ "packages/" +:+ python_version +:+ "/"
                    +:+ c +:+ "/" +:+ package +:+ "/" +:+ filename)
        end
    | None =>
        match first package with
        | Raise e => Raise e
        | Return c =>
            Return (pypi_server self +:+ "packages/source/" +:+ c +:+ "/"
                    +:+ package +:+ "/" +:+ filename)
        end
    end in
  match uri with
  | Raise e => (log, Failed (Local e))
  | Return uri =>
      match get_uri uri log with
      | (log, Got r) => (log, Got (requests.content r))
      | (log, Failed e) => (log, Failed e)
      end
  end.

End index.

End pypi.

(** A server that has one file and answers 404 for everything else, and
    one that is out of order. *)
Definition one_file_server : network :=
  fun uri =>
    if String.eqb uri "http://localhost/packages/source/D/Django/Django-1.0.tar.gz"
    then inl (requests.mkResponse 200 hello)
    else inl (requests.mkResponse 404 []).

Definition broken_server : network :=
  fun uri => inl (requests.mkResponse 503 []).

Definition any_proxy : string -> bool := fun uri => true.

Definition localhost : pypi.PyPI := {| pypi.pypi_server := "http://localhost/" |}.

(** * Properties *)

(** ** Resolution and updates of the file system *)

Lemma node_at_insert (m : gmap location node) (l0 l : location) (x : node) :
  l0 ≠ [] ->
  node_at (<[l0 := x]> m) l = if decide (l = l0) then Some x else node_at m l.
Proof.
  intros Hne. unfold node_at. destruct l as [|n l'].
  - destruct (decide ([] = l0)) as [<-|_]; [by destruct Hne | done].
  - destruct (decide (n :: l' = l0)) as [<-|Hd].
    + by rewrite lookup_insert_eq.
    + by rewrite lookup_insert_ne.
Qed.

Lemma is_dir_false_nonroot m l : is_dir m l = false -> l ≠ [].
Proof. by intros H ->. Qed.

Lemma present_false_nonroot m l : present m l = false -> l ≠ [].
Proof. by intros H ->. Qed.

Lemma is_dir_insert_file m l0 data l :
  is_dir m l0 = false -> is_dir (<[l0 := File data]> m) l = is_dir m l.
Proof.
  intros H0. unfold is_dir.
  rewrite node_at_insert by (by eapply is_dir_false_nonroot).
  destruct (decide (l = l0)) as [->|_]; [|done].
  unfold is_dir in H0. by destruct (node_at m l0) as [[]|].
Qed.

Lemma is_dir_insert_dir m l0 l :
  present m l0 = false -> is_dir m l = true -> is_dir (<[l0 := Dir]> m) l = true.
Proof.
  intros H0 Hl. unfold is_dir.
  rewrite node_at_insert by (by eapply present_false_nonroot).
  by destruct (decide (l = l0)).
Qed.

Lemma walk_path_ext m m' cur comps :
  (forall l, is_dir m' l = is_dir m l) ->
  walk_path m' cur comps = walk_path m cur comps.
Proof.
  intros He. revert cur. induction comps as [|c rest IH]; intros cur; simpl; [done|].
  rewrite He. by destruct (is_dir m cur).
Qed.

Lemma walk_path_mono m m' cur comps l :
  (forall l, is_dir m l = true -> is_dir m' l = true) ->
  walk_path m cur comps = Some l -> walk_path m' cur comps = Some l.
Proof.
  intros Hm. revert cur. induction comps as [|c rest IH]; intros cur; simpl; [done|].
  destruct (is_dir m cur) eqn:Hd; [|done].
  rewrite (Hm _ Hd). apply IH.
Qed.

Lemma resolve_ext fs fs' p :
  cwd fs' = cwd fs ->
  (forall l, is_dir (nodes fs') l = is_dir (nodes fs) l) ->
  resolve fs' p = resolve fs p.
Proof.
  intros Hc He. unfold resolve. rewrite Hc.
  destruct (String.eqb p ""); [done|]. by apply walk_path_ext.
Qed.

Lemma resolve_mono fs fs' p l :
  cwd fs' = cwd fs ->
  (forall l, is_dir (nodes fs) l = true -> is_dir (nodes fs') l = true) ->
  resolve fs p = Some l -> resolve fs' p = Some l.
Proof.
  intros Hc Hm. unfold resolve. rewrite Hc.
  destruct (String.eqb p ""); [done|]. by apply walk_path_mono.
Qed.

(** What [os.write] does: one regular file is put at the place the path
    resolves to, which is no directory. *)
Lemma write_inv fs p data fs' :
  os.write fs p data = Some fs' ->
  exists l, resolve fs p = Some l /\ is_dir (nodes fs) l = false
            /\ fs' = mkfs (<[l := File data]> (nodes fs)) (cwd fs).
Proof.
  unfold os.write. destruct (resolve fs p) as [l|]; [|done].
  destruct (is_dir (nodes fs) l) eqn:Hd; [done|].
  intros [= <-]. eauto.
Qed.

Lemma write_resolve fs p data fs' q :
  os.write fs p data = Some fs' -> resolve fs' q = resolve fs q.
Proof.
  intros (l & _ & Hd & ->)%write_inv. apply resolve_ext; [done|].
  intros l'. simpl. by apply is_dir_insert_file.
Qed.

Lemma write_read fs p data fs' :
  os.write fs p data = Some fs' -> os.read fs' p = Some data.
Proof.
  intros Hw. unfold os.read. rewrite (write_resolve _ _ _ _ _ Hw).
  destruct (write_inv _ _ _ _ Hw) as (l & -> & Hd & ->). simpl.
  rewrite node_at_insert by (by eapply is_dir_false_nonroot).
  by rewrite decide_True.
Qed.

Lemma read_isfile fs p data : os.read fs p = Some data -> os.isfile fs p = true.
Proof.
  unfold os.read, os.isfile. destruct (resolve fs p); [|done].
  by destruct (node_at (nodes fs) l) as [[]|].
Qed.

Lemma get_file_exact depth self fs P F path data :
  get_file_path self P F = Return path ->
  os.read fs path = Some data ->
  get_file (S depth) self fs P F = Some (Return data).
Proof. intros Hp Hr. simpl. by rewrite Hp, Hr. Qed.

(** What a successful [add_file] did last. *)
Lemma add_file_success self fs P F C fs' :
  add_file self fs P F C = (fs', Return tt) ->
  exists path fs1,
    get_file_path self P F = Return path
    /\ os.isfile fs path = false
    /\ os.write fs1 path (content_bytes C) = Some fs'.
Proof.
  unfold add_file. destruct (get_file_path self P F) as [path|e]; [|done].
  destruct (os.isfile fs path) eqn:Hf; [done|].
  destruct (if negb (os.isdir fs (posixpath.dirname path))
            then os.makedirs fs (posixpath.dirname path) else (fs, None))
    as [fs1 [e|]]; [done|].
  destruct (os.write fs1 path (content_bytes C)) as [fs2|] eqn:Hw; [|done].
  intros [= <-]. eauto.
Qed.

(** ** Initial parts of a path *)

Lemma append_cons (x : ascii) (a b : string) :
  String x a +:+ b = String x (a +:+ b).
Proof. reflexivity. Qed.

Lemma append_assoc (a b c : string) : (a +:+ b) +:+ c = a +:+ (b +:+ c).
Proof. induction a as [|x a IH]; [done|]. rewrite !append_cons. by f_equal. Qed.

Lemma append_empty_r (a : string) : a +:+ "" = a.
Proof. induction a as [|x a IH]; [done|]. rewrite append_cons. by f_equal. Qed.

Lemma initial_refl p : initial p p.
Proof. exists "". by rewrite append_empty_r. Qed.

Lemma initial_trans a b c : initial a b -> initial b c -> initial a c.
Proof. intros [r1 ->] [r2 ->]. exists (r1 +:+ r2). apply append_assoc. Qed.

Lemma rsplit_slash_append p : p = fst (rsplit_slash p) +:+ snd (rsplit_slash p).
Proof.
  induction p as [|c r IH]; simpl; [done|].
  destruct (rsplit_slash r) as [h t]. simpl in IH.
  destruct (has_slash r); simpl; [by rewrite append_cons, <- IH|].
  by destruct (is_slash c).
Qed.

Lemma rstrip_slash_initial s : initial (rstrip_slash s) s.
Proof.
  induction s as [|c r [rest IH]]; simpl; [by exists ""|].
  destruct (rstrip_slash r) as [|d r'] eqn:Hr.
  - destruct (is_slash c); [by eexists|]. exists r. done.
  - exists rest. rewrite append_cons. by f_equal.
Qed.

Lemma split_head_initial p : initial (fst (posixpath.split p)) p.
Proof.
  unfold posixpath.split. pose proof (rsplit_slash_append p) as Hp.
  destruct (rsplit_slash p) as [h t]. simpl in *.
  assert (initial h p) as Hh by (by exists t).
  destruct (negb (String.eqb h "") && negb (all_slashes h)); [|done].
  eapply initial_trans; [apply rstrip_slash_initial | done].
Qed.

Lemma dirname_initial p : initial (posixpath.dirname p) p.
Proof. apply split_head_initial. Qed.

(** ** Creating directories *)

Lemma grown_refl name fs : grown name fs fs.
Proof. split; [done|]. intros l. by left. Qed.

Lemma grown_is_dir name fs fs' l :
  grown name fs fs' -> is_dir (nodes fs) l = true -> is_dir (nodes fs') l = true.
Proof.
  intros [_ Hg]. unfold is_dir, node_at. destruct l as [|n l']; [done|].
  destruct (Hg (n :: l')) as [-> | (-> & _)]; done.
Qed.

Lemma grown_resolve name fs fs' p l :
  grown name fs fs' -> resolve fs p = Some l -> resolve fs' p = Some l.
Proof.
  intros Hg. apply resolve_mono; [apply Hg|]. intros l'. by eapply grown_is_dir.
Qed.

Lemma grown_trans head name fs fs1 fs2 :
  initial head name -> grown head fs fs1 -> grown name fs1 fs2 -> grown name fs fs2.
Proof.
  intros Hi Hg1 Hg2. pose proof Hg1 as [Hc1 H1]. pose proof Hg2 as [Hc2 H2].
  split; [congruence|]. intros l.
  destruct (H2 l) as [E2 | (N2 & D2 & q & Hq & Hr)].
  - destruct (H1 l) as [E1 | (N1 & D1 & q & Hq & Hr)].
    + left. congruence.
    + right. split; [done|]. split; [congruence|]. exists q. split.
      * by eapply initial_trans.
      * by eapply grown_resolve.
  - right. destruct (H1 l) as [E1 | (N1 & D1 & _)]; [|congruence].
    split; [congruence|]. split; [done|]. by exists q.
Qed.

Lemma grown_weaken head name fs fs' :
  initial head name -> grown head fs fs' -> grown name fs fs'.
Proof. intros Hi Hg. eapply grown_trans; [done..|apply grown_refl]. Qed.

Lemma present_false_lookup m l : present m l = false -> m !! l = None /\ l <> [].
Proof.
  unfold present, node_at. destruct l; [done|]. by destruct (m !! (s :: l)).
Qed.

Lemma mkdir_grown fs p : grown p fs (fst (os.mkdir fs p)).
Proof.
  unfold os.mkdir.
  set (p' := if all_slashes p then p else rstrip_slash p).
  assert (initial p' p) as Hi.
  { unfold p'. destruct (all_slashes p); [apply initial_refl | apply rstrip_slash_initial]. }
  destruct (resolve fs p') as [l|] eqn:Hr; [|apply grown_refl].
  destruct (present (nodes fs) l) eqn:Hp; [apply grown_refl|].
  destruct (present_false_lookup _ _ Hp) as [Hn Hne].
  simpl. split; [done|]. intros l'. simpl.
  destruct (decide (l' = l)) as [->|Hd].
  - right. rewrite lookup_insert_eq. split; [done|]. split; [done|].
    exists p'. split; [done|].
    eapply resolve_mono; [| |exact Hr]; [done|].
    intros l0 H0. simpl. by apply is_dir_insert_dir.
  - left. by rewrite lookup_insert_ne.
Qed.

Lemma makedirs_rec_grown fuel fs name :
  grown name fs (fst (os.makedirs_rec fuel fs name)).
Proof.
  revert fs name. induction fuel as [|fuel IH]; intros fs name; simpl; [apply grown_refl|].
  pose proof (split_head_initial name) as Hi1.
  destruct (posixpath.split name) as [head tail]. simpl in Hi1.
  assert (exists head' tail',
    (if String.eqb tail "" then posixpath.split head else (head, tail)) = (head', tail')
    /\ initial head' name) as (head' & tail' & -> & Hi).
  { destruct (String.eqb tail "").
    - pose proof (split_head_initial head) as Hi2.
      destruct (posixpath.split head) as [h2 t2]. exists h2, t2. split; [done|].
      by eapply initial_trans.
    - by exists head, tail. }
  destruct (negb (String.eqb head' "") && negb (String.eqb tail' "")
            && negb (os.path_exists fs head')); [|apply mkdir_grown].
  specialize (IH fs head').
  destruct (os.makedirs_rec fuel fs head') as [fs1 [[]|]]; simpl in IH.
  - destruct (String.eqb tail' ".").
    + by eapply grown_weaken.
    + eapply grown_trans; [done..|apply mkdir_grown].
  - by eapply grown_weaken.
  - destruct (String.eqb tail' ".").
    + by eapply grown_weaken.
    + eapply grown_trans; [done..|apply mkdir_grown].
Qed.

Lemma makedirs_grown fs name : grown name fs (fst (os.makedirs fs name)).
Proof. apply makedirs_rec_grown. Qed.




Lemma get_file_path_nonempty self P F :
  P <> "" -> exists c rest, P = String c rest /\
    get_file_path self P F
    = Return (posixpath.join (prefix self)
                ("packages/" +:+ String c "" +:+ "/" +:+ P +:+ "/" +:+ F)).
Proof. destruct P as [|c rest]; [done|]. intros _. by exists c, rest. Qed.

(** ** Lower case *)

Lemma lower_char_slash c : is_slash (lower_char c) = is_slash c.
Proof. by destruct c as [[] [] [] [] [] [] [] []]. Qed.

Lemma lower_char_dot c : Ascii.eqb (lower_char c) "." = Ascii.eqb c ".".
Proof. by destruct c as [[] [] [] [] [] [] [] []]. Qed.

Lemma lower_has_slash s : has_slash (lower s) = has_slash s.
Proof.
  induction s as [|c s IH]; simpl; [done|]. by rewrite lower_char_slash, IH.
Qed.

Lemma lower_starts_with_dot s : starts_with_dot (lower s) = starts_with_dot s.
Proof. destruct s as [|c s]; simpl; [done|]. apply lower_char_dot. Qed.

Lemma lower_eqb_empty s : String.eqb (lower s) "" = String.eqb s "".
Proof. by destruct s. Qed.

Lemma lower_eqb_dot s : String.eqb (lower s) "." = String.eqb s ".".
Proof.
  destruct s as [|c [|d s]]; simpl; try done.
  - by rewrite lower_char_dot.
  - by destruct (Ascii.eqb (lower_char c) "."), (Ascii.eqb c ".").
Qed.

Lemma lower_eqb_dotdot s : String.eqb (lower s) ".." = String.eqb s "..".
Proof.
  destruct s as [|c [|d [|e s]]]; simpl; try done.
  - by destruct (Ascii.eqb (lower_char c) "."), (Ascii.eqb c ".").
  - by rewrite !lower_char_dot.
  - rewrite !lower_char_dot.
    by destruct (Ascii.eqb c "."), (Ascii.eqb d ".").
Qed.

Lemma lower_valid_name s : valid_name (lower s) = valid_name s.
Proof.
  unfold valid_name.
  by rewrite lower_eqb_empty, lower_eqb_dot, lower_eqb_dotdot, lower_has_slash.
Qed.

Lemma same_name_eq a b : same_name a b = true <-> lower a = lower b.
Proof. unfold same_name. apply String.eqb_eq. Qed.

Lemma same_name_refl a : same_name a a = true.
Proof. by apply same_name_eq. Qed.

Lemma same_name_sym a b : same_name a b = same_name b a.
Proof. unfold same_name. apply String.eqb_sym. Qed.

Lemma same_name_trans a b c :
  same_name a b = true -> same_name b c = true -> same_name a c = true.
Proof. rewrite !same_name_eq. congruence. Qed.

Lemma same_name_valid a b : same_name a b = true -> valid_name a = valid_name b.
Proof.
  intros H%same_name_eq. by rewrite <- (lower_valid_name a), H, lower_valid_name.
Qed.

Lemma same_name_dot a b :
  same_name a b = true -> starts_with_dot a = starts_with_dot b.
Proof.
  intros H%same_name_eq.
  by rewrite <- (lower_starts_with_dot a), H, lower_starts_with_dot.
Qed.

(** ** Names and paths *)

Lemma valid_name_inv n :
  valid_name n = true ->
  n <> "" /\ n <> "." /\ n <> ".." /\ has_slash n = false.
Proof.
  unfold valid_name. rewrite !andb_true_iff, !negb_true_iff, !String.eqb_neq.
  tauto.
Qed.

Lemma valid_name_step l n : valid_name n = true -> step l n = n :: l.
Proof.
  intros (H1 & H2 & H3 & _)%valid_name_inv. unfold step.
  apply String.eqb_neq in H1, H2, H3. by rewrite H1, H2, H3.
Qed.

Lemma valid_name_no_leading_slash n :
  valid_name n = true -> starts_with_slash n = false.
Proof.
  intros (_ & _ & _ & H)%valid_name_inv. destruct n as [|c n]; [done|].
  simpl in *. by apply orb_false_iff in H as [-> _].
Qed.

Lemma components_cons p : exists c rest, components p = c :: rest.
Proof.
  induction p as [|x p (c & rest & IH)]; simpl; [by eexists _, _|].
  destruct (is_slash x); [by eexists _, _|]. rewrite IH. by eexists _, _.
Qed.

Lemma components_noslash n : has_slash n = false -> components n = [n].
Proof.
  induction n as [|x n IH]; simpl; [done|].
  intros [-> H]%orb_false_iff. by rewrite (IH H).
Qed.

Lemma components_app_slash a b :
  components (a +:+ String "/" b) = components a ++ components b.
Proof.
  induction a as [|x a IH]; [done|]. rewrite append_cons. simpl.
  rewrite IH. destruct (is_slash x); [done|].
  by destruct (components_cons a) as (c & rest & ->).
Qed.

Lemma walk_path_app m cur xs ys :
  walk_path m cur (xs ++ ys)
  = match walk_path m cur xs with
    | Some l => walk_path m l ys
    | None => None
    end.
Proof.
  revert cur. induction xs as [|x xs IH]; intros cur; simpl; [done|].
  by destruct (is_dir m cur).
Qed.

Lemma ends_with_slash_inv s :
  ends_with_slash s = true -> exists a, s = a +:+ "/".
Proof.
  induction s as [|c s IH]; simpl; [done|]. destruct s as [|d s].
  - unfold is_slash. intros ->%Ascii.eqb_eq. by exists "".
  - intros [a Ha]%IH. exists (String c a). by rewrite append_cons, <- Ha.
Qed.

Lemma starts_with_slash_append a b :
  a <> "" -> starts_with_slash (a +:+ b) = starts_with_slash a.
Proof. by destruct a. Qed.

Lemma append_nonempty a b : a <> "" -> a +:+ b <> "".
Proof. by destruct a. Qed.

(** A joined name: the directory, a slash unless it has one, the name. *)
Lemma join_name d n :
  d <> "" -> starts_with_slash n = false ->
  exists a, posixpath.join d n = a +:+ String "/" n
            /\ (a = d \/ d = a +:+ "/").
Proof.
  intros Hd Hn. unfold posixpath.join. rewrite Hn.
  apply String.eqb_neq in Hd. rewrite Hd. simpl.
  destruct (ends_with_slash d) eqn:He.
  - apply ends_with_slash_inv in He as [a ->]. exists a.
    split; [by rewrite append_assoc | by right].
  - exists d. split; [done | by left].
Qed.

Lemma resolve_join fs top n l :
  resolve fs top = Some l -> is_dir (nodes fs) l = true -> valid_name n = true ->
  resolve fs (posixpath.join top n) = Some (n :: l).
Proof.
  intros Hr Hd Hn. unfold resolve in Hr.
  destruct (String.eqb top "") eqn:Ht; [done|]. apply String.eqb_neq in Ht.
  pose proof (valid_name_no_leading_slash _ Hn) as Hs.
  pose proof (valid_name_inv _ Hn) as (_ & _ & _ & Hns).
  destruct (join_name top n Ht Hs) as (a & Hj & Ha).
  assert (walk_path (nodes fs)
            (if starts_with_slash top then [] else cwd fs) (components a)
          = Some l) as Hw.
  { destruct Ha as [-> | ->]; [done|].
    change (a +:+ "/") with (a +:+ String "/" "") in Hr.
    rewrite components_app_slash, walk_path_app in Hr.
    destruct (walk_path _ _ (components a)) as [l'|]; [|done].
    simpl in Hr. destruct (is_dir (nodes fs) l'); [|done].
    by simplify_eq. }
  unfold resolve.
  assert (String.eqb (posixpath.join top n) "" = false) as ->.
  { apply String.eqb_neq. rewrite Hj. destruct a; done. }
  assert (starts_with_slash (posixpath.join top n) = starts_with_slash top) as ->.
  { rewrite Hj. destruct Ha as [-> | ->].
    - by apply starts_with_slash_append.
    - destruct a; [done|]. by rewrite !append_cons. }
  rewrite Hj, components_app_slash, walk_path_app, Hw, (components_noslash _ Hns).
  simpl. by rewrite Hd, valid_name_step.
Qed.

Lemma has_slash_append a b : has_slash (a +:+ b) = has_slash a || has_slash b.
Proof.
  induction a as [|x a IH]; [done|]. rewrite append_cons. simpl.
  by rewrite IH, orb_assoc.
Qed.

Lemma rsplit_slash_name a t :
  has_slash t = false -> rsplit_slash (a +:+ String "/" t) = (a +:+ "/", t).
Proof.
  intros Ht. induction a as [|x a IH].
  - simpl. rewrite Ht. destruct (rsplit_slash t); done.
  - rewrite !append_cons. simpl. rewrite IH.
    rewrite has_slash_append. simpl. by rewrite orb_true_r.
Qed.

Lemma basename_join d n :
  d <> "" -> valid_name n = true -> posixpath.basename (posixpath.join d n) = n.
Proof.
  intros Hd Hn.
  destruct (join_name d n Hd (valid_name_no_leading_slash _ Hn)) as (a & -> & _).
  unfold posixpath.basename. rewrite rsplit_slash_name; [done|].
  by apply valid_name_inv in Hn as (_ & _ & _ & ?).
Qed.

(** ** Directory listings *)

Lemma child_of_Some l k n :
  child_of l k = Some n <-> k = n :: l /\ valid_name n = true.
Proof.
  unfold child_of. destruct k as [|n' l'].
  { split; [done | by intros [? _]]. }
  destruct (bool_decide (l' = l)) eqn:Hl; simpl.
  - apply bool_decide_eq_true in Hl as ->.
    destruct (valid_name n') eqn:Hv; split.
    + by intros [= ->].
    + by intros [[= -> ] _].
    + done.
    + intros [[= ->] Hn]. congruence.
  - apply bool_decide_eq_false in Hl. split; [done|].
    intros [[= -> ->] _]. done.
Qed.

Lemma children_spec (m : gmap location node) l n :
  In n (children m l) <-> valid_name n = true /\ is_Some (m !! (n :: l)).
Proof.
  rewrite <- list_elem_of_In. unfold children. rewrite list_elem_of_omap. split.
  - intros ([k x] & Hin & Hc). simpl in Hc.
    apply child_of_Some in Hc as [-> Hv].
    apply elem_of_map_to_list in Hin. eauto.
  - intros [Hv [x Hx]]. exists (n :: l, x). split.
    + by apply elem_of_map_to_list.
    + by apply child_of_Some.
Qed.

Lemma NoDup_omap_inj {A B} (f : A -> option B) (l : list A) :
  (forall x y z, f x = Some z -> f y = Some z -> x = y) ->
  NoDup l -> NoDup (omap f l).
Proof.
  intros Hinj. induction 1 as [|x l Hx Hl IH]; csimpl; [constructor|].
  destruct (f x) as [z|] eqn:Hz; [|done]. constructor; [|done].
  intros (y & Hy & Hfy)%list_elem_of_omap.
  by rewrite (Hinj x y z Hz Hfy) in Hx.
Qed.

Lemma omap_fst {A B C} (f : A -> option C) (l : list (A * B)) :
  omap (fun kv => f (fst kv)) l = omap f (l.*1).
Proof. induction l as [|[a b] l IH]; csimpl; [done|]. by rewrite IH. Qed.

Lemma children_NoDup (m : gmap location node) l : NoDup (children m l).
Proof.
  unfold children. rewrite omap_fst. apply NoDup_omap_inj.
  - intros x y z [-> _]%child_of_Some [-> _]%child_of_Some. done.
  - apply NoDup_fst_map_to_list.
Qed.

Lemma listdir_inv fs p names :
  os.listdir fs p = Some names ->
  exists l, resolve fs p = Some l /\ is_dir (nodes fs) l = true
            /\ names = children (nodes fs) l.
Proof.
  unfold os.listdir. destruct (resolve fs p) as [l|]; [|done].
  destruct (is_dir (nodes fs) l) eqn:Hd; [|done]. intros [= <-]. eauto.
Qed.

Lemma isdir_inv fs p :
  os.isdir fs p = true ->
  exists l, resolve fs p = Some l /\ is_dir (nodes fs) l = true.
Proof. unfold os.isdir. destruct (resolve fs p) as [l|]; [eauto|done]. Qed.

Lemma isdir_listdir fs p :
  os.isdir fs p = true -> exists names, os.listdir fs p = Some names.
Proof.
  intros (l & Hr & Hd)%isdir_inv. unfold os.listdir. rewrite Hr, Hd. eauto.
Qed.

Lemma listdir_isdir fs p names : os.listdir fs p = Some names -> os.isdir fs p = true.
Proof.
  intros (l & Hr & Hd & _)%listdir_inv. unfold os.isdir. by rewrite Hr.
Qed.

Lemma is_dir_node_at m l : is_dir m l = true <-> node_at m l = Some Dir.
Proof. unfold is_dir. by destruct (node_at m l) as [[]|]. Qed.

(** An entry of a directory is a sub-directory or a file that can be read. *)
Lemma entry_dir_or_file fs top names n :
  os.listdir fs top = Some names -> In n names ->
  valid_name n = true
  /\ (os.isdir fs (posixpath.join top n) = true
      \/ (os.isdir fs (posixpath.join top n) = false
          /\ exists data, os.read fs (posixpath.join top n) = Some data)).
Proof.
  intros (l & Hr & Hd & ->)%listdir_inv [Hv [x Hx]]%children_spec.
  split; [done|]. unfold os.isdir, os.read.
  rewrite (resolve_join _ _ _ _ Hr Hd Hv). unfold is_dir, node_at. rewrite Hx.
  destruct x as [data|]; eauto.
Qed.

(** The entries of a directory: the names whose path exists. *)
Lemma listdir_spec fs top names n :
  os.listdir fs top = Some names ->
  In n names
  <-> valid_name n = true /\ os.path_exists fs (posixpath.join top n) = true.
Proof.
  intros (l & Hr & Hd & ->)%listdir_inv. rewrite children_spec.
  split; intros [Hv Hx]; (split; [done|]).
  - unfold os.path_exists. rewrite (resolve_join _ _ _ _ Hr Hd Hv).
    unfold present, node_at. by destruct Hx as [x ->].
  - unfold os.path_exists in Hx. rewrite (resolve_join _ _ _ _ Hr Hd Hv) in Hx.
    unfold present, node_at in Hx. by destruct (nodes fs !! (n :: l)).
Qed.

Lemma isdir_exists fs p : os.isdir fs p = true -> os.path_exists fs p = true.
Proof.
  unfold os.isdir, os.path_exists, is_dir, present.
  destruct (resolve fs p); [|done]. by destruct (node_at (nodes fs) l) as [[]|].
Qed.

Lemma walk_rec_readable fuel fs top :
  Forall (readable_triple fs) (os.walk_rec fuel fs top).
Proof.
  revert top. induction fuel as [|fuel IH]; intros top; simpl; [constructor|].
  destruct (os.listdir fs top) as [names|] eqn:Hl; [|constructor].
  apply Forall_app. split.
  - apply Forall_forall. intros t Ht. apply list_elem_of_In in Ht.
    apply in_flat_map in Ht as (n & _ & Ht).
    pose proof (IH (posixpath.join top n)) as Hall.
    rewrite Forall_forall in Hall. apply Hall. by apply list_elem_of_In.
  - constructor; [|constructor]. intros f Hf. simpl in Hf.
    apply filter_In in Hf as [Hin Hnd].
    destruct (entry_dir_or_file _ _ _ _ Hl Hin) as [Hv [Hd|[_ Hrd]]]; [|done].
    by rewrite Hd in Hnd.
Qed.

Lemma file_records_readable fs package letter root files :
  (forall f, In f files ->
     valid_name f = true
     /\ exists data, os.read fs (posixpath.join root f) = Some data) ->
  stop (file_records fs package letter root files) = None
  /\ map info_filename (yields (file_records fs package letter root files)) = files.
Proof.
  induction files as [|f files IH]; intros Hall; simpl; [done|].
  destruct (Hall f (or_introl eq_refl)) as [_ [data ->]].
  destruct IH as [Hs Hy]; [intros g Hg; apply Hall; by right|].
  unfold gen_app. simpl. by rewrite Hs, Hy.
Qed.

Lemma walk_records_readable fs package letter triples :
  Forall (readable_triple fs) triples ->
  stop (walk_records fs package letter triples) = None
  /\ map info_filename (yields (walk_records fs package letter triples))
     = flat_map snd triples.
Proof.
  induction 1 as [|[[root dirs] files] triples Ht _ [Hs Hy]]; simpl; [done|].
  destruct (file_records_readable fs package letter root files Ht) as [Hs1 Hy1].
  unfold gen_app. rewrite Hs1. simpl. split; [done|].
  by rewrite map_app, Hy1, Hy.
Qed.

(** The names that [os.walk] finds are names of directory entries. *)
Lemma walk_records_valid fs package letter triples f :
  Forall (readable_triple fs) triples ->
  In f (map info_filename (yields (walk_records fs package letter triples))) ->
  valid_name f = true.
Proof.
  intros Hall Hf.
  destruct (walk_records_readable fs package letter triples Hall) as [_ Hy].
  rewrite Hy in Hf. apply in_flat_map in Hf as (t & Ht & Hf).
  rewrite Forall_forall in Hall.
  apply list_elem_of_In in Ht. by destruct (Hall t Ht f Hf).
Qed.

(** The files of the top directory are among the names found. *)
Lemma walk_top_files fs top names n data :
  os.listdir fs top = Some names -> In n names ->
  os.read fs (posixpath.join top n) = Some data ->
  In n (flat_map snd (os.walk fs top)).
Proof.
  intros Hl Hin Hrd. unfold os.walk. simpl. rewrite Hl.
  rewrite flat_map_app. apply in_or_app. right. simpl. rewrite app_nil_r.
  apply filter_In. split; [done|].
  destruct (entry_dir_or_file _ _ _ _ Hl Hin) as [_ [Hd|[-> _]]]; [|done].
  apply isdir_inv in Hd as (l & Hr & Hd). unfold os.read in Hrd.
  rewrite Hr in Hrd. apply is_dir_node_at in Hd. by rewrite Hd in Hrd.
Qed.

Lemma filter_none {A} (f : A -> bool) (l : list A) :
  (forall x, In x l -> f x = false) -> List.filter f l = [].
Proof.
  induction l as [|x l IH]; intros Hall; simpl; [done|].
  rewrite (Hall x (or_introl eq_refl)). apply IH. intros y Hy. apply Hall. by right.
Qed.

Lemma filter_all {A} (f : A -> bool) (l : list A) :
  (forall x, In x l -> f x = true) -> List.filter f l = l.
Proof.
  induction l as [|x l IH]; intros Hall; simpl; [done|].
  rewrite (Hall x (or_introl eq_refl)). f_equal. apply IH.
  intros y Hy. apply Hall. by right.
Qed.

(** A directory without sub-directories: one triple. *)
Lemma walk_flat fs top names :
  os.listdir fs top = Some names ->
  forallb (fun n => negb (os.isdir fs (posixpath.join top n))) names = true ->
  os.walk fs top = [(top, [], names)].
Proof.
  intros Hl Hall. unfold os.walk. simpl. rewrite Hl.
  rewrite forallb_forall in Hall.
  rewrite filter_none, filter_all; [done|done|].
  intros n Hn. apply negb_true_iff. by apply Hall.
Qed.

(** ** The paths of the store *)

Lemma join_relative root x :
  starts_with_slash x = false -> posixpath.join root x = join_base root +:+ x.
Proof.
  intros Hx. unfold posixpath.join, join_base. rewrite Hx.
  destruct (String.eqb root "" || ends_with_slash root); [done|].
  by rewrite append_assoc.
Qed.

Lemma ends_with_slash_append a c :
  ends_with_slash (a +:+ String c "") = is_slash c.
Proof.
  induction a as [|x a IH]; [done|]. rewrite append_cons. simpl.
  rewrite IH. by destruct a.
Qed.

Lemma all_slashes_append a b :
  all_slashes (a +:+ b) = all_slashes a && all_slashes b.
Proof.
  induction a as [|x a IH]; [done|]. rewrite append_cons. simpl.
  by rewrite IH, andb_assoc.
Qed.

Lemma rstrip_slash_keep a c :
  is_slash c = false -> rstrip_slash (a +:+ String c "") = a +:+ String c "".
Proof.
  intros Hc. induction a as [|x a IH].
  - simpl. by rewrite Hc.
  - rewrite append_cons. simpl. rewrite IH. by destruct a.
Qed.

Lemma rstrip_slash_drop a : rstrip_slash (a +:+ "/") = rstrip_slash a.
Proof.
  induction a as [|x a IH]; [done|]. rewrite append_cons. simpl. by rewrite IH.
Qed.

(** Splitting off a last component that follows a name. *)
Lemma split_name a c t :
  is_slash c = false -> has_slash t = false ->
  posixpath.split ((a +:+ String c "") +:+ String "/" t) = (a +:+ String c "", t).
Proof.
  intros Hc Ht. unfold posixpath.split. rewrite (rsplit_slash_name _ _ Ht).
  assert (String.eqb ((a +:+ String c "") +:+ "/") "" = false) as ->.
  { apply String.eqb_neq. by destruct a. }
  rewrite !all_slashes_append. simpl. rewrite Hc, andb_false_r. simpl.
  by rewrite rstrip_slash_drop, rstrip_slash_keep.
Qed.

Lemma join_after_name a c n :
  is_slash c = false -> starts_with_slash n = false ->
  posixpath.join (a +:+ String c "") n = (a +:+ String c "") +:+ String "/" n.
Proof.
  intros Hc Hn. unfold posixpath.join. rewrite Hn, ends_with_slash_append, Hc.
  assert (String.eqb (a +:+ String c "") "" = false) as ->; [|done].
  apply String.eqb_neq. by destruct a.
Qed.

Lemma packages_dir_eq self : packages_dir self = join_base (prefix self) +:+ "packages".
Proof. by apply join_relative. Qed.

Lemma glob_pattern_split self :
  posixpath.split (posixpath.join (prefix self) "packages/?/*")
  = (posixpath.join (prefix self) "packages/?", "*")
  /\ posixpath.split (posixpath.join (prefix self) "packages/?")
     = (packages_dir self, "?").
Proof.
  rewrite packages_dir_eq, !join_relative by done.
  set (b := join_base (prefix self)). split.
  - change (b +:+ "packages/?/*")
      with (b +:+ ("packages/" +:+ String "?" "") +:+ String "/" "*").
    change (b +:+ "packages/?") with (b +:+ ("packages/" +:+ String "?" "")).
    rewrite <- !append_assoc. by apply split_name.
  - change (b +:+ "packages/?")
      with (b +:+ ("package" +:+ String "s" "") +:+ String "/" "?").
    change (b +:+ "packages") with (b +:+ ("package" +:+ String "s" "")).
    rewrite <- !append_assoc. by apply split_name.
Qed.

Lemma glob_packages self fs :
  glob.glob fs (posixpath.join (prefix self) "packages/?/*")
  = flat_map (fun d => map (posixpath.join d) (glob.glob1 fs d "*"))
      (map (posixpath.join (packages_dir self))
         (glob.glob1 fs (packages_dir self) "?")).
Proof.
  unfold glob.glob. destruct (glob_pattern_split self) as [-> E].
  by rewrite E.
Qed.

Lemma fnmatch_question n : fnmatch "?" n = true <-> exists c, n = String c "".
Proof.
  destruct n as [|c [|d n]]; simpl; split; try done.
  - by intros [c ?].
  - intros _. by exists c.
  - by intros [c' ?].
Qed.

Lemma fnmatch_star n : fnmatch "*" n = true.
Proof. induction n as [|c n IH]; [done|]. exact IH. Qed.

Lemma glob1_spec fs d pattern n :
  d <> "" ->
  In n (glob.glob1 fs d pattern)
  <-> exists names, os.listdir fs d = Some names /\ In n names
      /\ (starts_with_dot pattern || negb (starts_with_dot n)) = true
      /\ fnmatch pattern n = true.
Proof.
  intros Hd. unfold glob.glob1. apply String.eqb_neq in Hd. rewrite Hd.
  destruct (os.listdir fs d) as [names|].
  - rewrite filter_In, andb_true_iff. split.
    + intros (? & ? & ?). by exists names.
    + intros (? & [= <-] & ? & ? & ?). done.
  - split; [done|]. by intros (? & ? & _).
Qed.

Lemma packages_dir_nonempty self : packages_dir self <> "".
Proof. rewrite packages_dir_eq. by destruct (join_base (prefix self)). Qed.

Lemma join_shard self c :
  is_slash c = false ->
  posixpath.join (packages_dir self) (String c "")
  = (join_base (prefix self) +:+ "packages/") +:+ String c "".
Proof.
  intros Hc. rewrite packages_dir_eq.
  change (join_base (prefix self) +:+ "packages")
    with (join_base (prefix self) +:+ ("package" +:+ String "s" "")).
  rewrite <- append_assoc, join_after_name; [|done|by simpl].
  by rewrite !append_assoc.
Qed.

Lemma join_shard_name self c n :
  is_slash c = false -> starts_with_slash n = false ->
  posixpath.join (posixpath.join (packages_dir self) (String c "")) n
  = shard_path self c n.
Proof.
  intros Hc Hn. rewrite (join_shard _ _ Hc), join_after_name by done.
  unfold shard_path. by rewrite !append_assoc.
Qed.

Lemma package_dir_shard self c rest :
  package_dir self (String c rest) = shard_path self c (String c rest).
Proof. unfold package_dir. by rewrite join_relative. Qed.

Lemma valid_single c :
  valid_name (String c "") = true <-> is_slash c = false /\ Ascii.eqb c "." = false.
Proof.
  unfold valid_name. simpl. rewrite orb_false_r.
  destruct (Ascii.eqb c ".") eqn:Hd.
  - apply Ascii.eqb_eq in Hd as ->. by split; [|intros [_ ?]].
  - destruct (is_slash c); by split; [|intros [? _]].
Qed.

(** The paths that the pattern [<root>/packages/?/*] matches. *)
Lemma glob_packages_spec self fs p :
  In p (glob.glob fs (posixpath.join (prefix self) "packages/?/*"))
  <-> exists c n shards names,
        p = shard_path self c n
        /\ os.listdir fs (packages_dir self) = Some shards
        /\ In (String c "") shards
        /\ os.listdir fs (posixpath.join (packages_dir self) (String c ""))
           = Some names
        /\ In n names
        /\ starts_with_dot n = false.
Proof.
  rewrite glob_packages, in_flat_map. split.
  - intros (d & Hd & Hp). apply in_map_iff in Hd as (s & <- & Hs).
    apply glob1_spec in Hs as (shards & Hl & Hin & Hdot & [c ->]%fnmatch_question);
      [|apply packages_dir_nonempty].
    apply in_map_iff in Hp as (n & <- & Hn).
    destruct (proj1 (listdir_spec _ _ _ _ Hl) Hin) as [Hv _].
    apply valid_single in Hv as [Hc Hcd].
    apply glob1_spec in Hn as (names & Hl' & Hin' & Hdot' & _);
      [|rewrite join_shard by done; by destruct (join_base (prefix self))].
    simpl in Hdot'. apply negb_true_iff in Hdot'.
    destruct (proj1 (listdir_spec _ _ _ _ Hl') Hin') as [Hv' _].
    exists c, n, shards, names. repeat split; try done.
    rewrite join_shard_name; [done..|]. by apply valid_name_no_leading_slash.
  - intros (c & n & shards & names & -> & Hl & Hin & Hl' & Hin' & Hdot).
    destruct (proj1 (listdir_spec _ _ _ _ Hl) Hin) as [Hv _].
    apply valid_single in Hv as [Hc Hcd].
    destruct (proj1 (listdir_spec _ _ _ _ Hl') Hin') as [Hv' _].
    exists (posixpath.join (packages_dir self) (String c "")). split.
    + apply in_map. apply glob1_spec; [apply packages_dir_nonempty|].
      exists shards. repeat split; try done.
      * simpl. by rewrite Hcd.
    + apply in_map_iff. exists n. split.
      * apply join_shard_name; [done|]. by apply valid_name_no_leading_slash.
      * apply glob1_spec.
        { rewrite join_shard by done. by destruct (join_base (prefix self)). }
        exists names. repeat split; try done.
        -- simpl. by rewrite Hdot.
        -- apply fnmatch_star.
Qed.

Lemma sorted_In l p : In p (sorted l) <-> In p l.
Proof.
  unfold sorted. rewrite <- !list_elem_of_In.
  by rewrite (merge_sort_Permutation String.le l).
Qed.

Lemma package_paths_spec self fs p :
  In p (package_paths self fs)
  <-> In p (glob.glob fs (posixpath.join (prefix self) "packages/?/*"))
      /\ os.isdir fs p = true.
Proof. unfold package_paths. by rewrite filter_In, sorted_In. Qed.

Lemma list_packages_paths self fs :
  list_packages self fs = map posixpath.basename (package_paths self fs).
Proof. reflexivity. Qed.

Lemma shard_path_shape self c n :
  shard_path self c n
  = ((join_base (prefix self) +:+ "packages/") +:+ String c "") +:+ String "/" n.
Proof. unfold shard_path. by rewrite !append_assoc. Qed.

Lemma basename_shard_path self c n :
  has_slash n = false -> posixpath.basename (shard_path self c n) = n.
Proof.
  intros Hn. rewrite shard_path_shape. unfold posixpath.basename.
  by rewrite rsplit_slash_name.
Qed.

Lemma resolve_join_inv fs d n l :
  d <> "" -> valid_name n = true ->
  resolve fs (posixpath.join d n) = Some l ->
  exists l', resolve fs d = Some l' /\ is_dir (nodes fs) l' = true /\ l = n :: l'.
Proof.
  intros Hd Hn Hr.
  pose proof (valid_name_no_leading_slash _ Hn) as Hs.
  pose proof (valid_name_inv _ Hn) as (_ & _ & _ & Hns).
  destruct (join_name d n Hd Hs) as (a & Hj & Ha).
  assert (starts_with_slash (posixpath.join d n) = starts_with_slash d) as Hss.
  { rewrite Hj. destruct Ha as [-> | ->].
    - by apply starts_with_slash_append.
    - destruct a; [done|]. by rewrite !append_cons. }
  unfold resolve in Hr. rewrite Hss in Hr.
  destruct (String.eqb (posixpath.join d n) ""); [done|].
  rewrite Hj, components_app_slash, walk_path_app in Hr.
  destruct (walk_path (nodes fs) _ (components a)) as [l'|] eqn:Hw; [|done].
  rewrite (components_noslash _ Hns) in Hr. simpl in Hr.
  destruct (is_dir (nodes fs) l') eqn:Hdir; [|done].
  rewrite valid_name_step in Hr by done. injection Hr as <-.
  exists l'. split; [|done]. unfold resolve.
  apply String.eqb_neq in Hd. rewrite Hd.
  destruct Ha as [-> | ->]; [done|].
  change (a +:+ "/") with (a +:+ String "/" "").
  rewrite components_app_slash, walk_path_app, Hw. simpl. by rewrite Hdir.
Qed.

Lemma isdir_join_listed fs d n :
  d <> "" -> valid_name n = true ->
  os.isdir fs (posixpath.join d n) = true ->
  os.isdir fs d = true
  /\ exists names, os.listdir fs d = Some names /\ In n names.
Proof.
  intros Hd Hn (l & Hr & Hdir)%isdir_inv.
  apply resolve_join_inv in Hr as (l' & Hr' & Hd' & ->); [|done..].
  unfold os.isdir, os.listdir. rewrite Hr', Hd'. split; [done|].
  eexists. split; [done|]. apply children_spec. split; [done|].
  apply is_dir_node_at in Hdir. simpl in Hdir. by rewrite Hdir.
Qed.

Lemma join_nonempty d n : d <> "" -> posixpath.join d n <> "".
Proof.
  intros Hd. unfold posixpath.join. destruct (starts_with_slash n) eqn:Hn.
  - by destruct n.
  - destruct (String.eqb d "" || ends_with_slash d); by destruct d.
Qed.

(** A directory in a shard is on the list of the pattern's matches. *)
Lemma shard_dir_listed self fs c n :
  valid_name (String c "") = true -> valid_name n = true ->
  starts_with_dot n = false ->
  os.isdir fs (shard_path self c n) = true ->
  In (shard_path self c n) (package_paths self fs).
Proof.
  intros Hc Hn Hdot Hdir. apply package_paths_spec. split; [|done].
  pose proof (proj1 (valid_single c) Hc) as [Hcs _].
  rewrite <- (join_shard_name self c n) in Hdir
    by (done || by apply valid_name_no_leading_slash).
  apply isdir_join_listed in Hdir as [Hdir1 (names & Hl & Hin)];
    [|by apply join_nonempty, packages_dir_nonempty|done].
  apply isdir_join_listed in Hdir1 as [_ (shards & Hl0 & Hin0)];
    [|apply packages_dir_nonempty|done].
  apply glob_packages_spec. by exists c, n, shards, names.
Qed.

Lemma valid_name_head c rest :
  valid_name (String c rest) = true -> starts_with_dot (String c rest) = false ->
  valid_name (String c "") = true.
Proof.
  intros (_ & _ & _ & Hs)%valid_name_inv Hd. apply valid_single.
  simpl in *. by apply orb_false_iff in Hs as [-> _].
Qed.

(** A package whose directory exists is on the list of packages. *)
Lemma package_dir_listed self fs P :
  valid_name P = true -> starts_with_dot P = false ->
  os.isdir fs (package_dir self P) = true ->
  In (package_dir self P) (package_paths self fs)
  /\ In P (list_packages self fs).
Proof.
  intros Hv Hd Hdir. destruct P as [|c rest]; [done|].
  rewrite package_dir_shard in *.
  assert (In (shard_path self c (String c rest)) (package_paths self fs)) as Hin.
  { apply shard_dir_listed; try done. by eapply valid_name_head. }
  split; [done|]. rewrite list_packages_paths. apply in_map_iff.
  eexists. split; [|done]. apply basename_shard_path.
  by apply valid_name_inv in Hv as (_ & _ & _ & ?).
Qed.

(** What is on the list of packages. *)
Lemma list_packages_inv self fs N :
  In N (list_packages self fs) ->
  valid_name N = true /\ starts_with_dot N = false
  /\ exists c, valid_name (String c "") = true
               /\ In (shard_path self c N) (package_paths self fs)
               /\ os.isdir fs (shard_path self c N) = true.
Proof.
  rewrite list_packages_paths. intros (p & <- & Hp)%in_map_iff.
  pose proof Hp as [Hg Hdir]%package_paths_spec.
  apply glob_packages_spec in Hg
    as (c & n & shards & names & -> & Hl & Hin & Hl' & Hin' & Hdot).
  destruct (proj1 (listdir_spec _ _ _ _ Hl) Hin) as [Hvc _].
  destruct (proj1 (listdir_spec _ _ _ _ Hl') Hin') as [Hvn _].
  rewrite basename_shard_path by (by apply valid_name_inv in Hvn as (_ & _ & _ & ?)).
  split; [done|]. split; [done|]. by exists c.
Qed.

Lemma shard_path_inj self c c' n : shard_path self c n = shard_path self c' n -> c = c'.
Proof.
  unfold shard_path. intros H.
  apply (inj (String.app _)) in H. apply (inj (String.app _)) in H.
  by injection H.
Qed.

Lemma sharded_inv self fs p :
  sharded self fs = true -> In p (package_paths self fs) ->
  p = package_dir self (posixpath.basename p).
Proof.
  unfold sharded. rewrite forallb_forall. intros Hall Hp.
  by apply String.eqb_eq, Hall.
Qed.

(** On a sharded store a listed package has its directory. *)
Lemma sharded_package_dir self fs N :
  sharded self fs = true -> In N (list_packages self fs) ->
  In (package_dir self N) (package_paths self fs)
  /\ os.isdir fs (package_dir self N) = true.
Proof.
  intros Hsh (Hv & _ & c & _ & Hin & Hdir)%list_packages_inv.
  pose proof (sharded_inv _ _ _ Hsh Hin) as Hp.
  rewrite basename_shard_path in Hp
    by (by apply valid_name_inv in Hv as (_ & _ & _ & ?)).
  by rewrite <- Hp.
Qed.

(** ** Nested calls *)

Lemma list_files_exact depth self fs P :
  P <> "" -> os.isdir fs (package_dir self P) = true ->
  list_files (S depth) self fs P
  = Some (walk_records fs P (firstletter P) (os.walk fs (package_dir self P))).
Proof.
  intros HP Hd. destruct P as [|c rest]; [done|].
  simpl. unfold package_dir, firstletter in Hd. by rewrite Hd.
Qed.

Lemma list_files_fishing depth self fs P :
  P <> "" -> os.isdir fs (package_dir self P) = false ->
  list_files (S depth) self fs P
  = match List.find (fun my_package => same_name my_package P)
            (list_packages self fs) with
    | Some my_package => list_files depth self fs my_package
    | None =>
        Some (walk_records fs P (firstletter P) (os.walk fs (package_dir self P)))
    end.
Proof.
  intros HP Hd. destruct P as [|c rest]; [done|].
  simpl. unfold package_dir, firstletter in Hd. by rewrite Hd.
Qed.

Lemma list_files_mono depth self fs P g :
  list_files depth self fs P = Some g -> list_files (S depth) self fs P = Some g.
Proof.
  revert P. induction depth as [|depth IH]; intros P; [done|].
  destruct P as [|c rest]; [done|].
  destruct (os.isdir fs (package_dir self (String c rest))) eqn:Hd.
  - by rewrite !list_files_exact.
  - rewrite !list_files_fishing by done.
    destruct (List.find _ _) as [Q|]; [apply IH | done].
Qed.

Lemma list_files_mono_le d d' self fs P g :
  d <= d' -> list_files d self fs P = Some g -> list_files d' self fs P = Some g.
Proof. induction 1 as [|d' _ IH]; [done|]. intros Hg. by apply list_files_mono, IH. Qed.

Lemma fishing_mono lf lf' gf gf' P F path pkgs r :
  (forall Q g, lf Q = Some g -> lf' Q = Some g) ->
  (forall Q G r, gf Q G = Some r -> gf' Q G = Some r) ->
  fishing lf gf P F path pkgs = Some r ->
  fishing lf' gf' P F path pkgs = Some r.
Proof.
  intros Hlf Hgf. induction pkgs as [|Q pkgs IH]; simpl; [done|].
  destruct (same_name P Q); [|done].
  destruct (lf Q) as [g|] eqn:Hg; [|done]. rewrite (Hlf _ _ Hg).
  destruct (List.find _ (yields g)) as [fi|]; [apply Hgf|].
  by destruct (stop g).
Qed.

Lemma get_file_mono depth self fs P F r :
  get_file depth self fs P F = Some r -> get_file (S depth) self fs P F = Some r.
Proof.
  revert P F r. induction depth as [|depth IH]; intros P F r; [done|].
  simpl. destruct (get_file_path self P F) as [path|e]; [|done].
  destruct (os.read fs path) as [data|]; [done|].
  apply fishing_mono; [intros Q g; apply list_files_mono | apply IH].
Qed.

Lemma get_file_mono_le d d' self fs P F r :
  d <= d' -> get_file d self fs P F = Some r -> get_file d' self fs P F = Some r.
Proof. induction 1 as [|d' _ IH]; [done|]. intros Hg. by apply get_file_mono, IH. Qed.

Lemma listed_nonempty self fs N : In N (list_packages self fs) -> N <> "".
Proof. by intros [Hv _]%list_packages_inv ->. Qed.

(** The records of a directory that is walked: no exception ends them. *)
Lemma walk_records_stop fs package letter top :
  stop (walk_records fs package letter (os.walk fs top)) = None.
Proof. apply walk_records_readable, walk_rec_readable. Qed.

Lemma walk_records_names fs package letter top :
  map info_filename (yields (walk_records fs package letter (os.walk fs top)))
  = flat_map snd (os.walk fs top).
Proof. apply walk_records_readable, walk_rec_readable. Qed.

Lemma walk_not_dir fs top : os.isdir fs top = false -> os.walk fs top = [].
Proof.
  intros Hd. unfold os.walk. simpl.
  destruct (os.listdir fs top) as [names|] eqn:Hl; [|done].
  apply listdir_isdir in Hl. congruence.
Qed.

(** The first package of the same name, when only one has it. *)
Lemma find_unique pkgs P P' :
  In P pkgs -> same_name P P' = true ->
  (forall Q, In Q pkgs -> same_name Q P' = true -> Q = P) ->
  List.find (fun my_package => same_name my_package P') pkgs = Some P.
Proof.
  intros Hin Hs Hu.
  destruct (List.find _ pkgs) as [Q|] eqn:Hf.
  - apply find_some in Hf as [HQ HsQ]. by rewrite (Hu Q HQ HsQ).
  - by rewrite (find_none _ _ Hf P Hin) in Hs.
Qed.

(** A name that a listed package has up to case, and whose directory
    exists, is listed too. *)
Lemma same_name_listed self fs P P' :
  In P (list_packages self fs) -> same_name P P' = true ->
  os.isdir fs (package_dir self P') = true ->
  In P' (list_packages self fs).
Proof.
  intros (Hv & Hd & _)%list_packages_inv Hs Hdir.
  apply package_dir_listed; [| |done].
  - by rewrite <- (same_name_valid _ _ Hs).
  - by rewrite <- (same_name_dot _ _ Hs).
Qed.

Lemma unique_delegates self fs P P' :
  In P (list_packages self fs) -> same_name P P' = true ->
  (forall Q, In Q (list_packages self fs) -> same_name Q P' = true -> Q = P) ->
  P' <> P ->
  forall depth, list_files (S depth) self fs P' = list_files depth self fs P.
Proof.
  intros Hin Hs Hu Hne depth.
  assert (P' <> "") as HP'.
  { intros ->. apply same_name_eq in Hs. destruct P; [|done].
    by apply listed_nonempty in Hin. }
  destruct (os.isdir fs (package_dir self P')) eqn:Hd.
  - destruct Hne. apply Hu; [by eapply same_name_listed | apply same_name_refl].
  - rewrite list_files_fishing by done. by rewrite (find_unique _ P P').
Qed.

Lemma ends_with_slash_noslash s : has_slash s = false -> ends_with_slash s = false.
Proof.
  induction s as [|c s IH]; simpl; [done|].
  intros [Hc Hs]%orb_false_iff. destruct s; [done | by apply IH].
Qed.

Lemma ends_with_slash_app a s :
  s <> "" -> ends_with_slash (a +:+ s) = ends_with_slash s.
Proof.
  intros Hs. induction a as [|x a IH]; [done|]. rewrite append_cons. simpl.
  rewrite IH. destruct (a +:+ s) eqn:E; [|done]. by destruct a, s.
Qed.

Lemma join_plain d F :
  d <> "" -> ends_with_slash d = false -> starts_with_slash F = false ->
  posixpath.join d F = d +:+ String "/" F.
Proof.
  intros Hd He HF. unfold posixpath.join. rewrite HF, He.
  apply String.eqb_neq in Hd. by rewrite Hd.
Qed.

Lemma package_dir_plain self P :
  valid_name P = true ->
  package_dir self P <> "" /\ ends_with_slash (package_dir self P) = false.
Proof.
  intros (HP & _ & _ & Hs)%valid_name_inv. destruct P as [|c rest]; [done|].
  rewrite package_dir_shard. unfold shard_path. split.
  - rewrite <- !append_assoc. by destruct (join_base (prefix self)).
  - rewrite <- !append_assoc, ends_with_slash_app by done.
    by apply ends_with_slash_noslash.
Qed.

(** The path of a file is the file's name joined to the package directory. *)
Lemma get_file_path_join self P F :
  valid_name P = true -> starts_with_slash F = false ->
  get_file_path self P F = Return (posixpath.join (package_dir self P) F).
Proof.
  intros HP HF. destruct (package_dir_plain self P HP) as [Hne He].
  rewrite join_plain by done. destruct P as [|c rest]; [done|].
  unfold get_file_path, package_dir. rewrite !join_relative by done.
  simpl firstletter. f_equal. by rewrite !append_assoc.
Qed.

(** A file that is read under a directory is an entry of that directory. *)
Lemma read_join_listed fs d n data :
  d <> "" -> valid_name n = true ->
  os.read fs (posixpath.join d n) = Some data ->
  exists names, os.listdir fs d = Some names /\ In n names.
Proof.
  intros Hd Hn Hrd. unfold os.read in Hrd.
  destruct (resolve fs (posixpath.join d n)) as [l|] eqn:Hr; [|done].
  apply resolve_join_inv in Hr as (l' & Hr' & Hd' & ->); [|done..].
  unfold os.listdir. rewrite Hr', Hd'. eexists. split; [done|].
  apply children_spec. split; [done|]. simpl in Hrd.
  by destruct (nodes fs !! (n :: l')).
Qed.

(** With one package of its name, a listing that returns is the walk of
    the package's directory. *)
Lemma unique_listing self fs P depth g :
  In P (list_packages self fs) ->
  (forall Q, In Q (list_packages self fs) -> same_name Q P = true -> Q = P) ->
  list_files depth self fs P = Some g ->
  os.isdir fs (package_dir self P) = true
  /\ g = walk_records fs P (firstletter P) (os.walk fs (package_dir self P)).
Proof.
  intros Hin Hu. pose proof (listed_nonempty _ _ _ Hin) as HP.
  induction depth as [|depth IH]; [done|].
  destruct (os.isdir fs (package_dir self P)) eqn:Hd.
  - rewrite list_files_exact by done. by intros [= <-].
  - rewrite list_files_fishing by done.
    by rewrite (find_unique _ P P Hin (same_name_refl P) Hu).
Qed.

Lemma find_name_some (g : generated fileinfo) F' :
  (exists G, In G (map info_filename (yields g)) /\ same_name G F' = true) ->
  exists fi, List.find (fun fi => same_name (info_filename fi) F') (yields g) = Some fi
             /\ In (info_filename fi) (map info_filename (yields g))
             /\ same_name (info_filename fi) F' = true.
Proof.
  intros (G & (fi0 & <- & Hin)%in_map_iff & Hs).
  destruct (List.find _ (yields g)) as [fi|] eqn:Hf.
  - exists fi. split; [done|]. apply find_some in Hf as [Hfi Hsf].
    split; [by apply in_map | done].
  - by rewrite (find_none _ _ Hf fi0 Hin) in Hs.
Qed.

Lemma find_name_none (g : generated fileinfo) F' :
  (forall G, In G (map info_filename (yields g)) -> same_name G F' = false) ->
  List.find (fun fi => same_name (info_filename fi) F') (yields g) = None.
Proof.
  intros Hno. destruct (List.find _ (yields g)) as [fi|] eqn:Hf; [|done].
  apply find_some in Hf as [Hfi Hsf].
  by rewrite (Hno _ (in_map info_filename _ _ Hfi)) in Hsf.
Qed.

(** Fishing when one package has the name: its first file of the name. *)
Lemma fishing_unique lf gf P' F' path pkgs P g fi :
  In P pkgs -> same_name P' P = true ->
  (forall Q, In Q pkgs -> same_name P' Q = true -> Q = P) ->
  lf P = Some g ->
  List.find (fun fi => same_name (info_filename fi) F') (yields g) = Some fi ->
  fishing lf gf P' F' path pkgs = gf P (info_filename fi).
Proof.
  intros Hin Hs Hu Hg Hf. induction pkgs as [|Q pkgs IH]; [done|]. simpl.
  destruct (same_name P' Q) eqn:HQ.
  - rewrite (Hu Q (or_introl eq_refl) HQ), Hg, Hf. done.
  - destruct Hin as [->|Hin]; [congruence|].
    apply IH; [done|]. intros Q' HQ'. apply Hu. by right.
Qed.

Lemma fishing_first gf P F path pkgs r :
  fishing (fun _ => None) gf P F path pkgs = Some r ->
  r = Raise (NotFound (not_found_message P F path)).
Proof.
  induction pkgs as [|Q pkgs IH]; simpl; [by intros [= <-]|].
  by destruct (same_name P Q).
Qed.

(** A call that returns bytes at depth one has read them at the exact path. *)
Lemma get_file_first self fs P F data :
  get_file 1 self fs P F = Some (Return data) ->
  exists path, get_file_path self P F = Return path /\ os.read fs path = Some data.
Proof.
  simpl. destruct (get_file_path self P F) as [path|e]; [|done].
  destruct (os.read fs path) as [x|] eqn:Hrd.
  - intros [= <-]. by exists path.
  - by intros ?%fishing_first.
Qed.

Lemma list_files_stop depth self fs Q g :
  list_files depth self fs Q = Some g ->
  stop g = None \/ stop g = Some IndexError.
Proof.
  revert Q. induction depth as [|depth IH]; intros Q; [done|].
  destruct Q as [|c rest]; [simpl; intros [= <-]; by right|].
  destruct (os.isdir fs (package_dir self (String c rest))) eqn:Hd.
  - rewrite list_files_exact by done. intros [= <-]. left. apply walk_records_stop.
  - rewrite list_files_fishing by done.
    destruct (List.find _ _) as [Q|]; [apply IH|].
    intros [= <-]. left. apply walk_records_stop.
Qed.

Lemma list_files_agree d1 d2 self fs Q g1 g2 :
  list_files d1 self fs Q = Some g1 -> list_files d2 self fs Q = Some g2 -> g1 = g2.
Proof.
  intros H1 H2.
  apply (list_files_mono_le d1 (d1 + d2)) in H1; [|lia].
  apply (list_files_mono_le d2 (d1 + d2)) in H2; [|lia]. congruence.
Qed.

(** Fishing that finds no file of the name anywhere ends in [NotFound]. *)
Lemma fishing_no_match lf gf P F path pkgs :
  (forall Q, In Q pkgs -> same_name P Q = true ->
     exists g, lf Q = Some g /\ stop g = None
       /\ forall G, In G (map info_filename (yields g)) -> same_name G F = false) ->
  fishing lf gf P F path pkgs = Some (Raise (NotFound (not_found_message P F path))).
Proof.
  induction pkgs as [|Q pkgs IH]; intros Hall; simpl; [done|].
  assert (fishing lf gf P F path pkgs
          = Some (Raise (NotFound (not_found_message P F path)))) as Hrest.
  { apply IH. intros Q' HQ'. apply Hall. by right. }
  destruct (same_name P Q) eqn:Hs; [|done].
  destruct (Hall Q (or_introl eq_refl) Hs) as (g & -> & -> & Hno).
  by rewrite (find_name_none g F Hno).
Qed.

(** Fishing that ends in [NotFound] found no file of the name, provided
    neither a listing nor a nested call on a listed file ends that way. *)
Lemma fishing_not_found lf gf P F path pkgs msg :
  (forall Q g, lf Q = Some g -> stop g = None \/ stop g = Some IndexError) ->
  (forall Q g G m, In Q pkgs -> lf Q = Some g ->
     In G (map info_filename (yields g)) ->
     gf Q G <> Some (Raise (NotFound m))) ->
  fishing lf gf P F path pkgs = Some (Raise (NotFound msg)) ->
  msg = not_found_message P F path
  /\ forall Q, In Q pkgs -> same_name P Q = true ->
       exists g, lf Q = Some g /\ stop g = None
         /\ forall G, In G (map info_filename (yields g)) -> same_name G F = false.
Proof.
  intros Hstop Hgf. induction pkgs as [|Q pkgs IH]; simpl.
  { intros [= <-]. split; [done|]. by intros Q []. }
  assert (fishing lf gf P F path pkgs = Some (Raise (NotFound msg)) ->
          msg = not_found_message P F path
          /\ forall Q', In Q' pkgs -> same_name P Q' = true ->
               exists g, lf Q' = Some g /\ stop g = None
                 /\ forall G, In G (map info_filename (yields g)) ->
                      same_name G F = false) as IH'.
  { apply IH. intros Q' g G m HQ'. apply Hgf. by right. }
  destruct (same_name P Q) eqn:Hs.
  2:{ intros [-> Hrest]%IH'. split; [done|].
      intros Q' [<-|HQ'] Hs'; [congruence | by apply Hrest]. }
  destruct (lf Q) as [g|] eqn:Hg; [|done].
  destruct (List.find _ (yields g)) as [fi|] eqn:Hf.
  { intros Hrec. apply find_some in Hf as [Hfi _].
    by destruct (Hgf Q g (info_filename fi) msg (or_introl eq_refl) Hg
                   (in_map info_filename _ _ Hfi)). }
  destruct (Hstop Q g Hg) as [Hst|Hst]; rewrite Hst; [|done].
  intros [-> Hrest]%IH'. split; [done|].
  intros Q' [<-|HQ'] Hs'; [|by apply Hrest].
  exists g. split; [done|]. split; [done|].
  intros G (fi & <- & Hfi)%in_map_iff. apply (find_none _ _ Hf fi Hfi).
Qed.

(** A file that a listing of its package names is never reported missing. *)
Lemma listed_file_found depth self fs Q G d' g msg :
  In Q (list_packages self fs) -> list_files d' self fs Q = Some g ->
  In G (map info_filename (yields g)) ->
  get_file depth self fs Q G <> Some (Raise (NotFound msg)).
Proof.
  revert Q G d' g msg. induction depth as [|depth IH]; intros Q G d' g msg HQ Hg HG; [done|].
  simpl. pose proof (listed_nonempty _ _ _ HQ) as Hne.
  destruct (get_file_path self Q G) as [path|e] eqn:Hp.
  2:{ destruct Q; [done|]. done. }
  destruct (os.read fs path); [done|]. intros Hf.
  apply fishing_not_found in Hf as [_ Hno].
  - destruct (Hno Q HQ (same_name_refl Q)) as (g' & Hg' & _ & Hnone).
    rewrite (list_files_agree _ _ _ _ _ _ _ Hg' Hg) in Hnone.
    pose proof (same_name_refl G) as Hrefl. by rewrite (Hnone G HG) in Hrefl.
  - intros Q' g'. apply list_files_stop.
  - intros Q' g' G' m HQ' Hg' HG'. by eapply IH.
Qed.

Lemma flat_inv self fs p names :
  flat self fs = true -> In p (package_paths self fs) ->
  os.listdir fs p = Some names ->
  forallb (fun n => negb (os.isdir fs (posixpath.join p n))) names = true.
Proof.
  unfold flat. rewrite forallb_forall. intros Hall Hp Hl.
  specialize (Hall p Hp). by rewrite Hl in Hall.
Qed.

(** On a sharded, flat store every listed package is listed at depth one,
    and every file it lists is read at its exact path. *)
Lemma flat_package self fs Q :
  sharded self fs = true -> flat self fs = true ->
  In Q (list_packages self fs) ->
  exists g, list_files 1 self fs Q = Some g /\ stop g = None
    /\ forall G, In G (map info_filename (yields g)) ->
         exists data, get_file 1 self fs Q G = Some (Return data).
Proof.
  intros Hsh Hfl HQ. destruct (sharded_package_dir _ _ _ Hsh HQ) as [Hp Hd].
  pose proof (list_packages_inv _ _ _ HQ) as (Hv & _).
  eexists. split; [by apply list_files_exact; [eapply listed_nonempty|]|].
  split; [apply walk_records_stop|]. intros G. rewrite walk_records_names.
  destruct (isdir_listdir _ _ Hd) as [names Hl].
  rewrite (walk_flat _ _ _ Hl (flat_inv _ _ _ _ Hfl Hp Hl)). simpl.
  rewrite app_nil_r. intros HG.
  pose proof (flat_inv _ _ _ _ Hfl Hp Hl) as Hall. rewrite forallb_forall in Hall.
  destruct (entry_dir_or_file _ _ _ _ Hl HG) as [HvG [Hdir|[_ [data Hrd]]]].
  { specialize (Hall G HG). by rewrite Hdir in Hall. }
  exists data. simpl.
  rewrite get_file_path_join by (done || by apply valid_name_no_leading_slash).
  by rewrite Hrd.
Qed.

Lemma fishing_cons lf gf P F path Q pkgs :
  fishing lf gf P F path (Q :: pkgs)
  = if same_name P Q then
      match lf Q with
      | None => None
      | Some g =>
          match List.find (fun fi => same_name (info_filename fi) F) (yields g) with
          | Some fi => gf Q (info_filename fi)
          | None =>
              match stop g with
              | Some e => Some (Raise e)
              | None => fishing lf gf P F path pkgs
              end
          end
      end
    else fishing lf gf P F path pkgs.
Proof. reflexivity. Qed.

Lemma fishing_total self fs P F path pkgs :
  sharded self fs = true -> flat self fs = true ->
  (forall Q, In Q pkgs -> In Q (list_packages self fs)) ->
  exists r,
    fishing (list_files 1 self fs) (get_file 1 self fs) P F path pkgs = Some r
    /\ (r = Raise (NotFound (not_found_message P F path))
        \/ exists Q G data,
             r = Return data /\ same_name P Q = true /\ same_name G F = true
             /\ get_file 1 self fs Q G = Some (Return data)).
Proof.
  intros Hsh Hfl. induction pkgs as [|Q pkgs IH]; intros Hsub.
  { eexists. split; [done | by left]. }
  rewrite fishing_cons.
  destruct IH as (r & Hr & Hcase); [intros Q' HQ'; apply Hsub; by right|].
  destruct (same_name P Q) eqn:Hs; [|by exists r].
  destruct (flat_package self fs Q Hsh Hfl (Hsub Q (or_introl eq_refl)))
    as (g & -> & -> & Hread).
  destruct (List.find _ (yields g)) as [fi|] eqn:Hf; [|by exists r].
  apply find_some in Hf as [Hfi Hsf].
  destruct (Hread _ (in_map info_filename _ _ Hfi)) as [data Hget].
  exists (Return data). split; [done|]. right. by exists Q, (info_filename fi), data.
Qed.

(** ** The order of the packages *)

Lemma NoDup_map_in {A B} (f : A -> B) (l : list A) :
  (forall x y, In x l -> In y l -> f x = f y -> x = y) ->
  NoDup l -> NoDup (map f l).
Proof.
  intros Hinj. induction 1 as [|x l Hx Hl IH]; simpl; [constructor|].
  constructor.
  - rewrite list_elem_of_In. intros (y & Hy & Hin)%in_map_iff.
    apply Hx. rewrite list_elem_of_In.
    assert (x = y) as ->; [|done]. apply Hinj; [by left | by right | done].
  - apply IH. intros y z Hy Hz. apply Hinj; by right.
Qed.

Lemma NoDup_flat_map {A B} (f : A -> list B) (l : list A) :
  (forall x, In x l -> NoDup (f x)) ->
  (forall x y z, In x l -> In y l -> In z (f x) -> In z (f y) -> x = y) ->
  NoDup l -> NoDup (flat_map f l).
Proof.
  intros Hf Hdis. induction 1 as [|x l Hx Hl IH]; simpl; [constructor|].
  apply NoDup_app. split; [apply Hf; by left|]. split.
  - intros z Hz Hz'. apply list_elem_of_In in Hz, Hz'.
    apply in_flat_map in Hz' as (y & Hy & Hzy).
    apply Hx. rewrite list_elem_of_In.
    assert (x = y) as ->; [|done]. apply (Hdis x y z); [by left | by right | done..].
  - apply IH.
    + intros y Hy. apply Hf. by right.
    + intros y y' z Hy Hy'. apply Hdis; by right.
Qed.

Lemma NoDup_list_filter {A} (f : A -> bool) (l : list A) :
  NoDup l -> NoDup (List.filter f l).
Proof.
  induction 1 as [|x l Hx Hl IH]; simpl; [constructor|].
  destruct (f x); [|done]. constructor; [|done].
  rewrite list_elem_of_In, filter_In, <- list_elem_of_In. tauto.
Qed.

Lemma StronglySorted_filter {A} (R : relation A) (f : A -> bool) (l : list A) :
  StronglySorted R l -> StronglySorted R (List.filter f l).
Proof.
  induction 1 as [|x l Hl IH Hx]; simpl; [constructor|].
  destruct (f x); [|done]. constructor; [done|].
  apply Forall_forall. intros y Hy. apply list_elem_of_In, filter_In in Hy as [Hy _].
  rewrite Forall_forall in Hx. by apply Hx, list_elem_of_In.
Qed.

Lemma StronglySorted_map_in {A B} (R : relation A) (R' : relation B)
    (f : A -> B) (l : list A) :
  (forall x y, In x l -> In y l -> R x y -> R' (f x) (f y)) ->
  StronglySorted R l -> StronglySorted R' (map f l).
Proof.
  intros Hm. induction 1 as [|x l Hl IH Hx]; simpl; [constructor|].
  constructor.
  - apply IH. intros y z Hy Hz. apply Hm; by right.
  - apply Forall_forall. intros z Hz.
    apply list_elem_of_In, in_map_iff in Hz as (y & <- & Hy).
    rewrite Forall_forall in Hx.
    apply Hm; [by left | by right | by apply Hx, list_elem_of_In].
Qed.

Lemma ascii_compare_refl c : Ascii.compare c c = Eq.
Proof. unfold Ascii.compare. apply N.compare_refl. Qed.

Lemma compare_cons c1 s1 c2 s2 :
  String.compare (String c1 s1) (String c2 s2)
  = match Ascii.compare c1 c2 with
    | Eq => String.compare s1 s2
    | ne => ne
    end.
Proof. reflexivity. Qed.

Lemma compare_append pre a b :
  String.compare (pre +:+ a) (pre +:+ b) = String.compare a b.
Proof.
  induction pre as [|x pre IH]; [done|].
  by rewrite !append_cons, compare_cons, ascii_compare_refl.
Qed.

(** Paths of package directories are ordered as the package names. *)
Lemma compare_shard_path self c1 r1 c2 r2 :
  String.compare (shard_path self c1 (String c1 r1))
    (shard_path self c2 (String c2 r2))
  = String.compare (String c1 r1) (String c2 r2).
Proof.
  unfold shard_path. rewrite !compare_append.
  change (String c1 "" +:+ "/" +:+ String c1 r1)
    with (String c1 (String "/" (String c1 r1))).
  change (String c2 "" +:+ "/" +:+ String c2 r2)
    with (String c2 (String "/" (String c2 r2))).
  rewrite !compare_cons.
  destruct (Ascii.compare c1 c2); [|done..].
  by rewrite ascii_compare_refl.
Qed.

Lemma shard_path_inj2 self c1 n1 c2 n2 :
  shard_path self c1 n1 = shard_path self c2 n2 -> c1 = c2 /\ n1 = n2.
Proof.
  unfold shard_path. intros H.
  apply (inj (String.app _)) in H. apply (inj (String.app _)) in H.
  by injection H.
Qed.

Lemma glob1_NoDup fs d pattern : NoDup (glob.glob1 fs d pattern).
Proof.
  unfold glob.glob1. destruct (os.listdir fs _) as [names|] eqn:Hl; [|constructor].
  apply NoDup_list_filter. apply listdir_inv in Hl as (l & _ & _ & ->).
  apply children_NoDup.
Qed.

Lemma glob_packages_NoDup self fs :
  NoDup (glob.glob fs (posixpath.join (prefix self) "packages/?/*")).
Proof.
  rewrite glob_packages.
  assert (forall s, In s (glob.glob1 fs (packages_dir self) "?") ->
            exists c, s = String c "" /\ is_slash c = false) as Hshard.
  { intros s (shards & Hl & Hin & _ & [c ->]%fnmatch_question)%glob1_spec;
      [|apply packages_dir_nonempty].
    destruct (proj1 (listdir_spec _ _ _ _ Hl) Hin) as [[Hc _]%valid_single _].
    by exists c. }
  assert (forall d n, d <> "" -> In n (glob.glob1 fs d "*") ->
            valid_name n = true) as Hname.
  { intros d n Hd (names & Hl & Hin & _)%glob1_spec; [|done].
    by destruct (proj1 (listdir_spec _ _ _ _ Hl) Hin). }
  assert (forall c, is_slash c = false ->
            posixpath.join (packages_dir self) (String c "") <> "") as Hne.
  { intros c Hc. rewrite join_shard by done. by destruct (join_base (prefix self)). }
  apply NoDup_flat_map.
  - intros d (s & <- & Hs)%in_map_iff. destruct (Hshard _ Hs) as (c & -> & Hc).
    apply NoDup_map_in; [|apply glob1_NoDup].
    intros n1 n2 Hn1 Hn2.
    apply Hname in Hn1, Hn2; [|by apply Hne..].
    rewrite !join_shard_name by (done || by apply valid_name_no_leading_slash).
    by intros [_ ?]%shard_path_inj2.
  - intros d1 d2 z (s1 & <- & Hs1)%in_map_iff (s2 & <- & Hs2)%in_map_iff.
    destruct (Hshard _ Hs1) as (c1 & -> & Hc1).
    destruct (Hshard _ Hs2) as (c2 & -> & Hc2).
    intros (n1 & <- & Hn1)%in_map_iff (n2 & Hz & Hn2)%in_map_iff.
    apply Hname in Hn1, Hn2; [|by apply Hne..].
    rewrite !join_shard_name in Hz
      by (done || by apply valid_name_no_leading_slash).
    by apply shard_path_inj2 in Hz as [-> _].
  - apply NoDup_map_in; [|apply glob1_NoDup].
    intros s1 s2 Hs1 Hs2.
    destruct (Hshard _ Hs1) as (c1 & -> & Hc1).
    destruct (Hshard _ Hs2) as (c2 & -> & Hc2).
    rewrite !join_shard by done. by intros ?%(inj (String.app _)).
Qed.

Lemma package_paths_sorted self fs :
  StronglySorted String.le (package_paths self fs)
  /\ NoDup (package_paths self fs).
Proof.
  unfold package_paths, sorted. split.
  - apply StronglySorted_filter, StronglySorted_merge_sort; apply _.
  - apply NoDup_list_filter.
    rewrite (merge_sort_Permutation String.le). apply glob_packages_NoDup.
Qed.

(** On a sharded store a path that is listed is the path of a non-empty
    name in the shard of its first letter. *)
Lemma sharded_path self fs p :
  sharded self fs = true -> In p (package_paths self fs) ->
  exists c rest,
    posixpath.basename p = String c rest
    /\ p = shard_path self c (String c rest).
Proof.
  intros Hsh Hp. pose proof (sharded_inv _ _ _ Hsh Hp) as Hpd.
  assert (In (posixpath.basename p) (list_packages self fs)) as HN.
  { rewrite list_packages_paths. by apply in_map. }
  apply listed_nonempty in HN.
  destruct (posixpath.basename p) as [|c rest] eqn:Hb; [done|].
  exists c, rest. split; [done|]. by rewrite Hpd, package_dir_shard.
Qed.

(** ** Outcomes do not depend on the depth *)

Lemma get_file_agree d1 d2 self fs P F r1 r2 :
  get_file d1 self fs P F = Some r1 -> get_file d2 self fs P F = Some r2 -> r1 = r2.
Proof.
  intros H1 H2.
  apply (get_file_mono_le d1 (d1 + d2)) in H1; [|lia].
  apply (get_file_mono_le d2 (d1 + d2)) in H2; [|lia]. congruence.
Qed.

Lemma get_file_returns_unique self fs P F r1 r2 :
  get_file_returns self fs P F r1 -> get_file_returns self fs P F r2 -> r1 = r2.
Proof. intros [d1 H1] [d2 H2]. by eapply get_file_agree. Qed.

Lemma get_file_S depth self fs P F :
  get_file (S depth) self fs P F
  = match get_file_path self P F with
    | Raise e => Some (Raise e)
    | Return path =>
        match os.read fs path with
        | Some data => Some (Return data)
        | None =>
            fishing (list_files depth self fs) (get_file depth self fs)
              P F path (list_packages self fs)
        end
    end.
Proof. reflexivity. Qed.

(** ** Strings and paths *)

Lemma walk_path_dir m cur comps l :
  walk_path m cur (comps ++ [""]) = Some l -> is_dir m l = true.
Proof.
  rewrite walk_path_app. destruct (walk_path m cur comps) as [l'|]; [|done].
  simpl. destruct (is_dir m l') eqn:Hd; [|done]. by intros [= <-].
Qed.

Lemma resolve_trailing_slash fs a l :
  resolve fs (a +:+ "/") = Some l -> is_dir (nodes fs) l = true.
Proof.
  unfold resolve. destruct (String.eqb (a +:+ "/") ""); [done|].
  rewrite components_app_slash. apply walk_path_dir.
Qed.

Lemma length_append (a b : string) :
  String.length (a +:+ b) = String.length a + String.length b.
Proof. induction a as [|x a IH]; [done|]. rewrite append_cons. simpl. by rewrite IH. Qed.

Lemma last_char p : p <> "" -> exists a c, p = a +:+ String c "".
Proof.
  induction p as [|x p IH]; [done|]. intros _. destruct p as [|y p].
  - by exists "", x.
  - destruct IH as (a & c & Ha); [done|]. exists (String x a), c.
    by rewrite append_cons, <- Ha.
Qed.

Lemma resolve_nonempty fs p l : resolve fs p = Some l -> p <> "".
Proof. by intros H ->. Qed.

Lemma resolve_add_slash fs p l :
  resolve fs p = Some l -> is_dir (nodes fs) l = true ->
  resolve fs (p +:+ "/") = Some l.
Proof.
  intros Hr Hd. pose proof (resolve_nonempty _ _ _ Hr) as Hne.
  unfold resolve in *. destruct (String.eqb_spec p ""); [done|].
  destruct (String.eqb_spec (p +:+ "/") "") as [He|_].
  { by apply append_nonempty with (b := "/") in Hne. }
  rewrite starts_with_slash_append by done.
  rewrite components_app_slash, walk_path_app, Hr. simpl. by rewrite Hd.
Qed.

Lemma resolve_drop_slash fs a l :
  a <> "" -> resolve fs (a +:+ "/") = Some l -> resolve fs a = Some l.
Proof.
  intros Hne. unfold resolve. destruct (String.eqb_spec a ""); [done|].
  destruct (String.eqb (a +:+ "/") ""); [done|].
  rewrite starts_with_slash_append by done.
  rewrite components_app_slash, walk_path_app.
  destruct (walk_path _ _ (components a)) as [l'|]; [|done].
  simpl. by destruct (is_dir (nodes fs) l').
Qed.

Lemma all_slashes_empty_inv a : all_slashes a = false -> a <> "".
Proof. by intros H ->. Qed.

Lemma resolve_rstrip fs p l :
  all_slashes p = false -> resolve fs p = Some l ->
  resolve fs (rstrip_slash p) = Some l.
Proof.
  remember (String.length p) as k eqn:Hk. revert p Hk.
  induction k as [k IH] using lt_wf_ind. intros p -> Hall Hr.
  destruct (ends_with_slash p) eqn:He.
  - apply ends_with_slash_inv in He as [a ->].
    rewrite all_slashes_append in Hall. simpl in Hall.
    rewrite andb_true_r in Hall.
    rewrite rstrip_slash_drop.
    apply (IH (String.length a)); [|done|done|].
    + rewrite length_append. simpl. lia.
    + apply resolve_drop_slash; [by apply all_slashes_empty_inv | done].
  - destruct (last_char p) as (a & c & ->); [by apply all_slashes_empty_inv|].
    rewrite ends_with_slash_append in He. by rewrite rstrip_slash_keep.
Qed.

(** ** The file system stays well-formed *)

Lemma well_formed_spec fs :
  well_formed fs = true
  <-> forall n l, is_Some (nodes fs !! (n :: l)) ->
        valid_name n = true /\ is_dir (nodes fs) l = true.
Proof.
  unfold well_formed. rewrite forallb_forall. split.
  - intros Hall n l [x Hx].
    apply elem_of_map_to_list, list_elem_of_In in Hx.
    apply Hall in Hx. simpl in Hx. by apply andb_true_iff in Hx.
  - intros Hwf [k x] Hin. simpl.
    apply list_elem_of_In, elem_of_map_to_list in Hin.
    destruct k as [|n l]; [done|]. apply andb_true_iff. apply Hwf. by exists x.
Qed.

Lemma components_no_slash p c : In c (components p) -> has_slash c = false.
Proof.
  revert c. induction p as [|x p IH]; intros c; simpl.
  - by intros [<-|[]].
  - destruct (is_slash x) eqn:Hx.
    + intros [<-|Hin]; [done | by apply IH].
    + destruct (components p) as [|h t] eqn:Hc.
      * intros [<-|[]]. simpl. by rewrite Hx.
      * intros [<-|Hin].
        -- simpl. rewrite Hx. apply IH. by left.
        -- apply IH. by right.
Qed.

Lemma is_dir_present m l : is_dir m l = true -> present m l = true.
Proof. unfold is_dir, present. by destruct (node_at m l) as [[]|]. Qed.

(** Where a path leads: to something that is there, or to a new name in a
    directory. *)
Lemma walk_path_new m cur c comps l :
  (forall n l, is_Some (m !! (n :: l)) ->
     valid_name n = true /\ is_dir m l = true) ->
  (forall c', In c' (c :: comps) -> has_slash c' = false) ->
  walk_path m cur (c :: comps) = Some l ->
  present m l = true
  \/ exists n l', l = n :: l' /\ valid_name n = true /\ is_dir m l' = true.
Proof.
  intros Hwf. revert cur c. induction comps as [|c2 comps IH]; intros cur c Hns Hw.
  - simpl in Hw. destruct (is_dir m cur) eqn:Hd; [|done]. injection Hw as <-.
    unfold step.
    destruct (String.eqb c "" || String.eqb c ".") eqn:H1;
      [left; by apply is_dir_present|].
    destruct (String.eqb c "..") eqn:H2.
    + left. destruct cur as [|n l']; [done|]. simpl.
      apply is_dir_present. apply (Hwf n l').
      apply is_dir_node_at in Hd. simpl in Hd. by rewrite Hd.
    + right. exists c, cur. split; [done|]. split; [|done].
      unfold valid_name. apply orb_false_iff in H1 as [-> ->]. rewrite H2.
      rewrite (Hns c (or_introl eq_refl)). done.
  - change (walk_path m cur (c :: c2 :: comps))
      with (if is_dir m cur then walk_path m (step cur c) (c2 :: comps) else None)
      in Hw.
    destruct (is_dir m cur); [|done].
    eapply IH; [|exact Hw]. intros c' Hc'. apply Hns. by right.
Qed.

Lemma resolve_new fs p l :
  well_formed fs = true -> resolve fs p = Some l ->
  present (nodes fs) l = false ->
  exists n l', l = n :: l' /\ valid_name n = true /\ is_dir (nodes fs) l' = true.
Proof.
  intros Hwf Hr Hp. pose proof (proj1 (well_formed_spec fs) Hwf) as Hwf'.
  clear Hwf. rename Hwf' into Hwf. unfold resolve in Hr.
  destruct (String.eqb p ""); [done|].
  pose proof (components_no_slash p) as Hns.
  destruct (components_cons p) as (c & comps & Hc). rewrite Hc in Hr, Hns.
  destruct (walk_path_new _ _ _ _ _ Hwf Hns Hr) as [Hp'|?]; [congruence | done].
Qed.

Lemma insert_well_formed fs l x :
  well_formed fs = true ->
  (exists n l', l = n :: l' /\ valid_name n = true /\ is_dir (nodes fs) l' = true) ->
  is_dir (nodes fs) l = false ->
  well_formed (mkfs (<[l := x]> (nodes fs)) (cwd fs)) = true.
Proof.
  intros Hwf (n & l' & -> & Hn & Hl') Hd.
  pose proof (proj1 (well_formed_spec fs) Hwf) as Hwf'.
  clear Hwf. rename Hwf' into Hwf. apply well_formed_spec. simpl.
  assert (forall k, is_dir (nodes fs) k = true ->
                    is_dir (<[n :: l' := x]> (nodes fs)) k = true) as Hmono.
  { intros k Hk. unfold is_dir. rewrite node_at_insert by done.
    destruct (decide (k = n :: l')) as [->|_]; [congruence|]. exact Hk. }
  intros n0 l0 Hsome. destruct (decide (n0 :: l0 = n :: l')) as [[= -> ->]|Hne].
  - split; [done | by apply Hmono].
  - rewrite lookup_insert_ne in Hsome by done.
    destruct (Hwf _ _ Hsome) as [? ?]. split; [done | by apply Hmono].
Qed.

Lemma present_false_is_dir m l : present m l = false -> is_dir m l = false.
Proof. unfold is_dir, present. by destruct (node_at m l) as [[]|]. Qed.

Lemma mkdir_well_formed fs p :
  well_formed fs = true -> well_formed (fst (os.mkdir fs p)) = true.
Proof.
  intros Hwf. unfold os.mkdir.
  destruct (resolve fs _) as [l|] eqn:Hr; [|done].
  destruct (present (nodes fs) l) eqn:Hp; [done|]. simpl.
  apply insert_well_formed; [done | by eapply resolve_new |].
  by apply present_false_is_dir.
Qed.

Lemma makedirs_rec_well_formed fuel fs name :
  well_formed fs = true ->
  well_formed (fst (os.makedirs_rec fuel fs name)) = true.
Proof.
  revert fs name. induction fuel as [|fuel IH]; intros fs name Hwf; simpl; [done|].
  destruct (posixpath.split name) as [head tail].
  destruct (if String.eqb tail "" then posixpath.split head else (head, tail))
    as [head' tail'].
  destruct (negb (String.eqb head' "") && negb (String.eqb tail' "")
            && negb (os.path_exists fs head')); [|by apply mkdir_well_formed].
  specialize (IH fs head' Hwf).
  destruct (os.makedirs_rec fuel fs head') as [fs1 [[]|]]; simpl in IH.
  - destruct (String.eqb tail' "."); [done | by apply mkdir_well_formed].
  - done.
  - destruct (String.eqb tail' "."); [done | by apply mkdir_well_formed].
Qed.

Lemma write_well_formed fs p data fs' :
  well_formed fs = true -> os.write fs p data = Some fs' ->
  well_formed fs' = true.
Proof.
  intros Hwf Hw. destruct (write_inv _ _ _ _ Hw) as (l & Hr & Hd & ->).
  apply insert_well_formed; [done| |done].
  destruct (present (nodes fs) l) eqn:Hp; [|by eapply resolve_new].
  destruct l as [|n l']; [done|]. exists n, l'. split; [done|].
  apply (proj1 (well_formed_spec fs) Hwf).
  unfold present in Hp. simpl in Hp. by destruct (nodes fs !! (n :: l')).
Qed.

Lemma add_file_well_formed self fs P F C fs' r :
  well_formed fs = true -> add_file self fs P F C = (fs', r) ->
  well_formed fs' = true.
Proof.
  intros Hwf. unfold add_file.
  destruct (get_file_path self P F) as [path|e]; [|by intros [= <- _]].
  destruct (os.isfile fs path); [by intros [= <- _]|].
  assert (well_formed
            (fst (if negb (os.isdir fs (posixpath.dirname path))
                  then os.makedirs fs (posixpath.dirname path) else (fs, None)))
          = true) as Hwf1.
  { destruct (negb _); [by apply makedirs_rec_well_formed | done]. }
  destruct (if negb (os.isdir fs (posixpath.dirname path))
            then os.makedirs fs (posixpath.dirname path) else (fs, None))
    as [fs1 [e|]]; simpl in Hwf1; [by intros [= <- _]|].
  destruct (os.write fs1 path (content_bytes C)) as [fs2|] eqn:Hw.
  - intros [= <- _]. by eapply write_well_formed.
  - by intros [= <- _].
Qed.

(** ** The location of a path *)














(** ** Directories made on the way to a path *)
















(** ** The sample stores *)

Lemma disk_django_made :
  add_file srv disk0 "Django" "Django-1.0.tar.gz" (Bytes hello)
  = (disk_django, Return tt).
Proof. vm_compute. reflexivity. Qed.

Lemma disk_django_packages : list_packages srv disk_django = ["Django"].
Proof. vm_compute. reflexivity. Qed.

Lemma disk_django_listing :
  list_files 1 srv disk_django "Django" = Some django_listing.
Proof. vm_compute. reflexivity. Qed.

Lemma disk_two_cases_made :
  add_file srv (fst (add_file srv disk0 "Django" "readme.txt" (Bytes hello)))
    "Django" "README.txt" (Stream world)
  = (disk_two_cases, Return tt).
Proof. vm_compute. reflexivity. Qed.

Lemma disk_hidden_made :
  add_file srv disk0 ".hidden" "f.txt" (Bytes hello) = (disk_hidden, Return tt).
Proof. vm_compute. reflexivity. Qed.

Lemma disk_hidden_packages : list_packages srv disk_hidden = [].
Proof. vm_compute. reflexivity. Qed.

Lemma disk_nested_made :
  add_file srv disk0 "django" "sub/f.txt" (Bytes hello) = (disk_nested, Return tt).
Proof. vm_compute. reflexivity. Qed.

Lemma disk_nested_never depth :
  get_file depth srv disk_nested "django" "f.txt" = None.
Proof.
  induction depth as [|depth IH]; [done|]. rewrite get_file_S.
  change (get_file_path srv "django" "f.txt")
    with (@Return string "/srv/cache/packages/d/django/f.txt").
  cbv beta iota.
  assert (os.read disk_nested "/srv/cache/packages/d/django/f.txt" = None) as ->
    by (vm_compute; reflexivity).
  assert (list_packages srv disk_nested = ["django"]) as ->
    by (vm_compute; reflexivity).
  rewrite fishing_cons.
  change (same_name "django" "django") with true. cbv beta iota.
  destruct depth as [|depth]; [done|].
  assert (list_files (S depth) srv disk_nested "django"
          = Some (Gen [mkinfo "django" "d" "f.txt"
                         "5d41402abc4b2a76b9719d911017c592"] None)) as ->.
  { rewrite list_files_exact; [|done|by vm_compute]. vm_compute. reflexivity. }
  exact IH.
Qed.

(** * The claims *)

(** ** Writing

    C1. Write-then-read round trip: when [add_file(P, F, C)] succeeds,
    [get_file(P, F)] on the resulting store returns at its first attempt
    and gives the bytes [data], both when [C] is the byte string [data]
    and when [C] is a stream whose [read] gives [data].  (A successful
    call implies that [P] is not empty and that the path named no file
    before.) *)
Theorem add_file_then_get_file self fs P F (data : bytes) fs' :
  (add_file self fs P F (Bytes data) = (fs', Return tt) ->
   forall depth, get_file (S depth) self fs' P F = Some (Return data))
  /\ (add_file self fs P F (Stream data) = (fs', Return tt) ->
      forall depth, get_file (S depth) self fs' P F = Some (Return data)).
Proof.
  split.
  - intros (path & fs1 & Hp & _ & Hw)%add_file_success depth.
    eapply get_file_exact; [done|]. by eapply write_read.
  - intros (path & fs1 & Hp & _ & Hw)%add_file_success depth.
    eapply get_file_exact; [done|]. by eapply write_read.
Qed.

Lemma add_file_then_get_file_witness :
  add_file srv disk0 "Django" "Django-1.0.tar.gz" (Bytes hello)
  = (disk_django, Return tt)
  /\ get_file 1 srv disk_django "Django" "Django-1.0.tar.gz"
     = Some (Return hello)
  /\ add_file srv (fst (add_file srv disk0 "Django" "readme.txt" (Bytes hello)))
       "Django" "README.txt" (Stream world)
     = (disk_two_cases, Return tt)
  /\ get_file 1 srv disk_two_cases "Django" "README.txt" = Some (Return world).
Proof.
  split; [exact disk_django_made|]. split.
  - exact (proj1 (add_file_then_get_file srv disk0 "Django" "Django-1.0.tar.gz"
                    hello disk_django) disk_django_made 0).
  - split; [exact disk_two_cases_made|].
    exact (proj2 (add_file_then_get_file srv
                    (fst (add_file srv disk0 "Django" "readme.txt" (Bytes hello)))
                    "Django" "README.txt" world disk_two_cases)
             disk_two_cases_made 0).
Defined.

(** C2. Write-once: after a successful [add_file(P, F, C1)], the call
    [add_file(P, F, C2)] raises [NotOverwritingError] with the computed
    path in its message, returns the store as it was, and [get_file(P, F)]
    still gives the bytes of [C1]. *)
Theorem add_file_write_once self fs P F (C1 C2 : content) fs1 :
  add_file self fs P F C1 = (fs1, Return tt) ->
  exists path,
    get_file_path self P F = Return path
    /\ add_file self fs1 P F C2
       = (fs1, Raise (NotOverwritingError ("Not overwriting " +:+ path)))
    /\ forall depth,
         get_file (S depth) self fs1 P F = Some (Return (content_bytes C1)).
Proof.
  intros Hadd. pose proof Hadd as (path & fs0 & Hp & _ & Hw)%add_file_success.
  exists path. split; [done|]. split.
  - unfold add_file. rewrite Hp.
    by rewrite (read_isfile _ _ _ (write_read _ _ _ _ Hw)).
  - intros depth. eapply get_file_exact; [done|]. by eapply write_read.
Qed.

Lemma add_file_write_once_witness :
  exists path,
    get_file_path srv "Django" "Django-1.0.tar.gz" = Return path
    /\ add_file srv disk_django "Django" "Django-1.0.tar.gz" (Stream world)
       = (disk_django, Raise (NotOverwritingError ("Not overwriting " +:+ path)))
    /\ forall depth,
         get_file (S depth) srv disk_django "Django" "Django-1.0.tar.gz"
         = Some (Return hello).
Proof.
  exact (add_file_write_once srv disk0 "Django" "Django-1.0.tar.gz"
           (Bytes hello) (Stream world) disk_django disk_django_made).
Defined.

(** C9. [get_file_path] depends on the store's root and on its two
    arguments only (it neither takes nor returns a file system), and for
    a non-empty package it is [os.path.join] of the root and
    [packages/<P[0]>/<P>/<F>]: the root, a slash unless the root is empty
    or ends with one, and the layout. *)
Theorem get_file_path_layout (self : DiskPackageStore) (P F : string) :
  P <> "" ->
  exists c rest,
    P = String c rest
    /\ get_file_path self P F
       = Return (posixpath.join (prefix self)
                   ("packages/" +:+ String c "" +:+ "/" +:+ P +:+ "/" +:+ F))
    /\ (prefix self <> "" -> ends_with_slash (prefix self) = false ->
        get_file_path self P F
        = Return (prefix self +:+ "/packages/" +:+ String c "" +:+ "/" +:+ P
                  +:+ "/" +:+ F))
    /\ (ends_with_slash (prefix self) = true ->
        get_file_path self P F
        = Return (prefix self +:+ "packages/" +:+ String c "" +:+ "/" +:+ P
                  +:+ "/" +:+ F)).
Proof.
  intros HP. destruct (get_file_path_nonempty self P F HP) as (c & rest & -> & Hp).
  exists c, rest. split; [done|]. split; [done|]. rewrite Hp.
  unfold posixpath.join. change (starts_with_slash _) with false. cbv iota.
  split.
  - intros Hne Hs. rewrite Hs. apply String.eqb_neq in Hne. by rewrite Hne.
  - intros Hs. rewrite Hs. by rewrite orb_true_r.
Qed.

Lemma get_file_path_layout_witness :
  get_file_path srv "Django" "Django-1.0.tar.gz"
  = Return "/srv/cache/packages/D/Django/Django-1.0.tar.gz".
Proof.
  destruct (get_file_path_layout srv "Django" "Django-1.0.tar.gz")
    as (c & rest & HP & _ & Hplain & _); [discriminate|].
  injection HP as <- <-. apply Hplain; [discriminate | reflexivity].
Defined.





(** ** Reading

    C3, as amended.  Case-insensitive read resolution holds for a stored
    pair that is alone in its case class, on a storage root without glob
    characters and NUL bytes: when [P] is the only listed package of its
    lower-case name, [list_files(P)] lists a file [F] and no other file
    name with the lower-case form of [F], and [get_file(P, F)] reads
    [data] at the exact path, then every request [(P', F')] with the same
    lower-case forms returns [data].  (As stated for every store the claim
    fails: an exact-case hit is served first, see the counterexample
    below.) *)
Theorem get_file_case_insensitive self fs P F P' F' g data :
  plain_root self = true ->
  In P (list_packages self fs) ->
  (forall Q, In Q (list_packages self fs) -> same_name Q P = true -> Q = P) ->
  list_files_yields self fs P g ->
  In F (map info_filename (yields g)) ->
  (forall G, In G (map info_filename (yields g)) -> same_name G F = true -> G = F) ->
  get_file 1 self fs P F = Some (Return data) ->
  same_name P' P = true -> same_name F' F = true ->
  forall depth, get_file (S (S depth)) self fs P' F' = Some (Return data).
Proof.
  intros _ Hin Hu [d0 Hg] HF HuF Hget HsP HsF depth.
  destruct (unique_listing _ _ _ _ _ Hin Hu Hg) as [Hdir Hgw].
  pose proof (list_packages_inv _ _ _ Hin) as (HvP & HdP & _).
  assert (valid_name F = true) as HvF.
  { rewrite Hgw in HF. eapply walk_records_valid; [apply walk_rec_readable|done]. }
  assert (valid_name P' = true) as HvP' by (by rewrite (same_name_valid _ _ HsP)).
  assert (valid_name F' = true) as HvF' by (by rewrite (same_name_valid _ _ HsF)).
  pose proof (valid_name_no_leading_slash _ HvF) as HlF.
  pose proof (valid_name_no_leading_slash _ HvF') as HlF'.
  pose proof (listed_nonempty _ _ _ Hin) as HP.
  assert (os.read fs (posixpath.join (package_dir self P) F) = Some data) as Hrd.
  { apply get_file_first in Hget as (path & Hp & Hrd).
    rewrite get_file_path_join in Hp by done. by injection Hp as <-. }
  assert (list_files (S depth) self fs P = Some g) as Hg1.
  { rewrite list_files_exact by done. by rewrite Hgw. }
  change (get_file (S (S depth)) self fs P' F') with
    (match get_file_path self P' F' with
     | Raise e => Some (Raise e)
     | Return path =>
         match os.read fs path with
         | Some data => Some (Return data)
         | None =>
             fishing (list_files (S depth) self fs) (get_file (S depth) self fs)
               P' F' path (list_packages self fs)
         end
     end).
  rewrite get_file_path_join by done.
  destruct (os.read fs (posixpath.join (package_dir self P') F'))
    as [data'|] eqn:Hrd'.
  - (* the exact path of the request holds a file: it is the same one *)
    destruct (package_dir_plain self P' HvP') as [Hne' _].
    destruct (read_join_listed _ _ _ _ Hne' HvF' Hrd') as (names & Hl & Hn).
    assert (P' = P) as ->.
    { apply Hu; [|done]. eapply same_name_listed; [done| |by eapply listdir_isdir].
      by rewrite same_name_sym. }
    assert (F' = F) as ->; [|congruence].
    apply HuF; [|done]. rewrite Hgw, walk_records_names.
    by eapply walk_top_files.
  - (* fishing finds the file of that name in the one package of that name *)
    destruct (find_name_some g F') as (fi & Hf & HfiIn & Hfis).
    { exists F. split; [done|]. by rewrite same_name_sym. }
    assert (info_filename fi = F) as HfiF.
    { apply HuF; [done|]. by eapply same_name_trans. }
    rewrite (fishing_unique _ _ _ _ _ _ P g fi); try done.
    + rewrite HfiF. by apply (get_file_mono_le 1); [lia|].
    + intros Q HQ HsQ. apply Hu; [done|].
      eapply same_name_trans; [|done]. by rewrite same_name_sym.
Qed.

Lemma get_file_case_insensitive_witness :
  get_file 2 srv disk_django "django" "DJANGO-1.0.tar.gz" = Some (Return hello).
Proof.
  apply (get_file_case_insensitive srv disk_django "Django" "Django-1.0.tar.gz"
           "django" "DJANGO-1.0.tar.gz" django_listing hello).
  - reflexivity.
  - rewrite disk_django_packages. left. reflexivity.
  - rewrite disk_django_packages. intros Q [<-|[]] _. reflexivity.
  - exists 1. exact disk_django_listing.
  - left. reflexivity.
  - intros G [<-|[]] _. reflexivity.
  - vm_compute. reflexivity.
  - vm_compute. reflexivity.
  - vm_compute. reflexivity.
Defined.

(** The claim C3 as stated fails: the package [Django] holds [readme.txt]
    and [README.txt]; the request [("Django", "README.txt")] has the
    lower-case forms of [("Django", "readme.txt")], and [get_file] gives
    the bytes of the one for the first and of the other for the second. *)
Lemma get_file_case_insensitive_counterexample :
  In "Django" (list_packages srv disk_two_cases)
  /\ same_name "Django" "Django" = true
  /\ same_name "README.txt" "readme.txt" = true
  /\ get_file_returns srv disk_two_cases "Django" "readme.txt" (Return hello)
  /\ get_file_returns srv disk_two_cases "Django" "README.txt" (Return world)
  /\ ~ get_file_returns srv disk_two_cases "Django" "README.txt" (Return hello).
Proof.
  assert (get_file_returns srv disk_two_cases "Django" "README.txt"
            (Return world)) as Hw by (exists 1; vm_compute; reflexivity).
  split; [vm_compute; left; reflexivity|].
  split; [vm_compute; reflexivity|]. split; [vm_compute; reflexivity|].
  split; [exists 1; vm_compute; reflexivity|]. split; [exact Hw|].
  - intros Hh. pose proof (get_file_returns_unique _ _ _ _ _ _ Hh Hw) as E.
    vm_compute in E. discriminate E.
Qed.

(** C5, as amended.  On a storage root without glob characters and NUL
    bytes, for a non-empty package [P] and a file name [F] without NUL
    bytes, [get_file(P, F)] raises [NotFound], with the package, the file
    name and the computed path in its message, when the exact path cannot
    be read and the listing of every listed package with the lower-case
    name of [P] ends without a file of the lower-case name of [F]; and
    whenever [get_file(P, F)] raises [NotFound], the exact path could not
    be read and that scan was made and found nothing.  (For the empty
    package name the call raises [IndexError], see the counterexample
    below.  What the call does when a listing of the scan does not end is
    left out here: see C6.) *)
Theorem get_file_not_found self fs P F :
  plain_root self = true -> has_nul P = false -> has_nul F = false ->
  P <> "" ->
  exists path,
    get_file_path self P F = Return path
    /\ (forall depth,
          os.read fs path = None ->
          (forall Q, In Q (list_packages self fs) -> same_name P Q = true ->
             exists g, list_files depth self fs Q = Some g /\ stop g = None
               /\ forall G, In G (map info_filename (yields g)) ->
                    same_name G F = false) ->
          get_file (S depth) self fs P F
          = Some (Raise (NotFound (not_found_message P F path))))
    /\ (forall depth msg,
          get_file (S depth) self fs P F = Some (Raise (NotFound msg)) ->
          msg = not_found_message P F path
          /\ os.read fs path = None
          /\ forall Q, In Q (list_packages self fs) -> same_name P Q = true ->
               exists g, list_files depth self fs Q = Some g /\ stop g = None
                 /\ forall G, In G (map info_filename (yields g)) ->
                      same_name G F = false).
Proof.
  intros _ _ _ HP. destruct P as [|c rest]; [done|].
  eexists. split; [done|]. split.
  - intros depth Hrd Hno. simpl. rewrite Hrd. by apply fishing_no_match.
  - intros depth msg. simpl.
    destruct (os.read fs _) as [data|]; [done|]. intros Hf.
    apply fishing_not_found in Hf as [-> Hno]; [done| |].
    + intros Q g. apply list_files_stop.
    + intros Q g G m HQ Hg HG. by eapply listed_file_found.
Qed.

Lemma get_file_not_found_witness :
  get_file 1 srv disk_django "nosuchpkg" "x"
  = Some (Raise (NotFound
       "Package nosuchpkg: x not found in /srv/cache/packages/n/nosuchpkg/x")).
Proof.
  assert ("nosuchpkg" <> "") as HP by discriminate.
  destruct (get_file_not_found srv disk_django "nosuchpkg" "x"
              eq_refl eq_refl eq_refl HP)
    as (path & Hp & Hraise & _).
  injection Hp as <-. apply (Hraise 0).
  - vm_compute. reflexivity.
  - rewrite disk_django_packages. intros Q [<-|[]] Hs.
    vm_compute in Hs. discriminate Hs.
Defined.

(** The claim C5 as stated fails for the empty package name: nothing
    matches it, and [get_file("", "x")] raises [IndexError], not
    [NotFound]. *)
Lemma get_file_not_found_counterexample :
  list_packages srv disk0 = []
  /\ get_file_returns srv disk0 "" "x" (Raise IndexError)
  /\ ~ exists msg, get_file_returns srv disk0 "" "x" (Raise (NotFound msg)).
Proof.
  assert (get_file_returns srv disk0 "" "x" (Raise IndexError)) as Hi
    by (exists 1; reflexivity).
  split; [vm_compute; reflexivity|]. split; [exact Hi|].
  - intros [msg Hn].
    pose proof (get_file_returns_unique _ _ _ _ _ _ Hn Hi) as E. discriminate E.
Qed.

(** C6.  The code does not do what the claim says: on the store that
    [add_file("django", "sub/f.txt", "hello")] makes, the listing of
    [django] names [f.txt], which is not at the exact path, so
    [get_file("django", "f.txt")] fishes, finds [f.txt], calls itself with
    the same arguments, and no depth of nested calls is ever enough. *)
Theorem get_file_nested_never_returns :
  add_file srv disk0 "django" "sub/f.txt" (Bytes hello) = (disk_nested, Return tt)
  /\ list_files_yields srv disk_nested "django"
       (Gen [mkinfo "django" "d" "f.txt" "5d41402abc4b2a76b9719d911017c592"] None)
  /\ ~ exists r, get_file_returns srv disk_nested "django" "f.txt" r.
Proof.
  split; [exact disk_nested_made|]. split.
  - exists 1. vm_compute. reflexivity.
  - intros (r & depth & Hr). by rewrite disk_nested_never in Hr.
Qed.

(** X1.  Where [get_file] is total: for a storage root without glob
    characters and names without NUL bytes, on a sharded store whose
    package directories have no sub-directories, two nested calls are
    enough, and the call returns the bytes of a stored file of the same
    lower-case names or raises [NotFound] for the request. *)
Theorem get_file_total self fs P F :
  plain_root self = true -> has_nul P = false -> has_nul F = false ->
  P <> "" -> sharded self fs = true -> flat self fs = true ->
  exists r,
    (forall depth, get_file (S (S depth)) self fs P F = Some r)
    /\ ((exists path, get_file_path self P F = Return path
           /\ r = Raise (NotFound (not_found_message P F path)))
        \/ exists Q G data,
             r = Return data /\ same_name P Q = true /\ same_name G F = true
             /\ get_file 1 self fs Q G = Some (Return data)).
Proof.
  intros _ _ _ HP Hsh Hfl.
  assert (exists r,
    get_file 2 self fs P F = Some r
    /\ ((exists path, get_file_path self P F = Return path
           /\ r = Raise (NotFound (not_found_message P F path)))
        \/ exists Q G data,
             r = Return data /\ same_name P Q = true /\ same_name G F = true
             /\ get_file 1 self fs Q G = Some (Return data))) as (r & Hr & Hcase).
  { destruct P as [|c rest]; [done|].
    change (get_file 2 self fs (String c rest) F) with
      (match get_file_path self (String c rest) F with
       | Raise e => Some (Raise e)
       | Return path =>
           match os.read fs path with
           | Some data => Some (Return data)
           | None =>
               fishing (list_files 1 self fs) (get_file 1 self fs)
                 (String c rest) F path (list_packages self fs)
           end
       end).
    destruct (get_file_path self (String c rest) F) as [path|e] eqn:Hp; [|done].
    destruct (os.read fs path) as [data|] eqn:Hrd.
    - exists (Return data). split; [done|]. right.
      exists (String c rest), F, data. repeat split; try apply same_name_refl.
      by eapply get_file_exact.
    - destruct (fishing_total self fs (String c rest) F path
                  (list_packages self fs) Hsh Hfl) as (r & Hr & Hcase); [done|].
      exists r. split; [done|]. destruct Hcase as [->|?]; [left|by right].
      by exists path. }
  exists r. split; [|done]. intros depth.
  by apply (get_file_mono_le 2); [lia|].
Qed.

(** ** Listing

    C4, as amended.  Listing resolution, on a storage root without glob
    characters and NUL bytes and for a name [P'] without NUL bytes.  When
    the exact-case directory of [P'] is absent, [list_files(P')] is
    [list_files(Q)] for the first package [Q] of the same lower-case name
    that [list_packages] yields, whatever other packages have that name.
    When [P] is the only package of the lower-case name of [P'] that
    [list_packages] yields, [list_files(P')] and [list_files(P)] yield the
    same records (and neither returns if the other does not); if the
    directory of [P] exists both return, at every depth.  (A stored
    package that [list_packages] does not yield is not found under
    another case, see the counterexample below.) *)
Theorem list_files_case_insensitive self fs P' :
  plain_root self = true -> has_nul P' = false ->
  P' <> "" ->
  (forall Q,
     os.isdir fs (package_dir self P') = false ->
     List.find (fun my_package => same_name my_package P')
       (list_packages self fs) = Some Q ->
     forall depth, list_files (S depth) self fs P' = list_files depth self fs Q)
  /\ (forall P,
        In P (list_packages self fs) -> same_name P P' = true ->
        (forall Q, In Q (list_packages self fs) -> same_name Q P' = true -> Q = P) ->
        (forall g, list_files_yields self fs P' g <-> list_files_yields self fs P g)
        /\ (os.isdir fs (package_dir self P) = true ->
            exists g, stop g = None
              /\ forall depth,
                   list_files (S depth) self fs P = Some g
                   /\ list_files (S (S depth)) self fs P' = Some g)).
Proof.
  intros _ _ HP'. split.
  { intros Q Hd Hf depth. rewrite list_files_fishing by done. by rewrite Hf. }
  intros P Hin Hs Hu. destruct (decide (P' = P)) as [->|Hne].
  { split; [done|]. intros Hd. eexists. split; [apply walk_records_stop|].
    intros depth. by rewrite !list_files_exact. }
  pose proof (unique_delegates self fs P P' Hin Hs Hu Hne) as Hdel.
  split.
  - intros g. split.
    + intros [[|d] Hg]; [done|]. rewrite Hdel in Hg. by exists d.
    + intros [d Hg]. exists (S d). by rewrite Hdel.
  - intros Hd. eexists. split; [apply walk_records_stop|].
    intros depth. rewrite Hdel.
    by rewrite !list_files_exact by (done || by eapply listed_nonempty).
Qed.

Lemma list_files_case_insensitive_witness :
  exists g,
    stop g = None
    /\ forall depth,
         list_files (S depth) srv disk_django "Django" = Some g
         /\ list_files (S (S depth)) srv disk_django "DJANGO" = Some g.
Proof.
  assert ("DJANGO" <> "") as HP by discriminate.
  destruct (list_files_case_insensitive srv disk_django "DJANGO"
              eq_refl eq_refl HP)
    as [_ Hunique].
  destruct (Hunique "Django") as [_ Hboth].
  - rewrite disk_django_packages. left. reflexivity.
  - vm_compute. reflexivity.
  - rewrite disk_django_packages. intros Q [<-|[]] _. reflexivity.
  - apply Hboth. vm_compute. reflexivity.
Defined.

(** The claim C4 as stated fails: the store holds the one package
    [.hidden], with the file [f.txt]; [list_packages] leaves out a name
    that starts with a dot, so [list_files(".hidden")] yields the record
    of the file and [list_files(".HIDDEN")] yields nothing. *)
Lemma list_files_case_insensitive_counterexample :
  add_file srv disk0 ".hidden" "f.txt" (Bytes hello) = (disk_hidden, Return tt)
  /\ same_name ".HIDDEN" ".hidden" = true
  /\ os.isdir disk_hidden (package_dir srv ".hidden") = true
  /\ list_packages srv disk_hidden = []
  /\ list_files_yields srv disk_hidden ".hidden"
       (Gen [mkinfo ".hidden" "." "f.txt" "5d41402abc4b2a76b9719d911017c592"]
          None)
  /\ list_files_yields srv disk_hidden ".HIDDEN" (Gen [] None)
  /\ ~ list_files_yields srv disk_hidden ".HIDDEN"
         (Gen [mkinfo ".hidden" "." "f.txt" "5d41402abc4b2a76b9719d911017c592"]
            None).
Proof.
  assert (list_files 1 srv disk_hidden ".HIDDEN" = Some (Gen [] None)) as Hn
    by (vm_compute; reflexivity).
  split; [exact disk_hidden_made|]. split; [vm_compute; reflexivity|].
  split; [vm_compute; reflexivity|]. split; [exact disk_hidden_packages|].
  split; [exists 1; vm_compute; reflexivity|]. split; [by exists 1|].
  intros [d Hd]. pose proof (list_files_agree _ _ _ _ _ _ _ Hd Hn) as E.
  discriminate E.
Qed.

(** C7, as amended.  On a storage root without glob characters and NUL
    bytes, for a non-empty package [P] without NUL bytes: on a sharded
    store [list_files(P)] returns, and no exception ends what it yields;
    when neither the exact-case directory nor a listed package of the same
    lower-case name exists it yields nothing, as it does for an existing
    empty package directory.  (For the empty package name the generator
    raises [IndexError], see the counterexample below.) *)
Theorem list_files_total self fs P :
  plain_root self = true -> has_nul P = false ->
  P <> "" ->
  (sharded self fs = true ->
   exists g, stop g = None
     /\ forall depth, list_files (S (S depth)) self fs P = Some g)
  /\ (os.isdir fs (package_dir self P) = false ->
      (forall Q, In Q (list_packages self fs) -> same_name Q P = false) ->
      forall depth, list_files (S depth) self fs P = Some (Gen [] None))
  /\ (os.listdir fs (package_dir self P) = Some [] ->
      forall depth, list_files (S depth) self fs P = Some (Gen [] None)).
Proof.
  intros _ _ HP. split; [|split].
  - intros Hsh. destruct (os.isdir fs (package_dir self P)) eqn:Hd.
    { eexists. split; [apply walk_records_stop|]. intros depth.
      by rewrite list_files_exact. }
    destruct (List.find (fun my_package => same_name my_package P)
                (list_packages self fs)) as [Q|] eqn:Hf.
    + apply find_some in Hf as Hf'. destruct Hf' as [HQ _].
      destruct (sharded_package_dir _ _ _ Hsh HQ) as [_ HdQ].
      eexists. split; [apply walk_records_stop|]. intros depth.
      rewrite list_files_fishing, Hf by done.
      by rewrite list_files_exact by (done || by eapply listed_nonempty).
    + eexists. split; [apply walk_records_stop|]. intros depth.
      by rewrite list_files_fishing, Hf.
  - intros Hd Hno depth. rewrite list_files_fishing by done.
    destruct (List.find _ _) as [Q|] eqn:Hf.
    + apply find_some in Hf as [HQ Hs]. by rewrite (Hno Q HQ) in Hs.
    + by rewrite walk_not_dir.
  - intros Hl depth. rewrite list_files_exact by (done || by eapply listdir_isdir).
    unfold os.walk. simpl. by rewrite Hl.
Qed.

Lemma list_files_total_witness :
  sharded srv disk_django = true
  /\ (exists g, stop g = None
        /\ forall depth, list_files (S (S depth)) srv disk_django "DJANGO" = Some g)
  /\ forall depth,
       list_files (S depth) srv disk_django "nosuchpkg" = Some (Gen [] None).
Proof.
  assert (sharded srv disk_django = true) as Hsh by (vm_compute; reflexivity).
  assert ("DJANGO" <> "") as HP1 by discriminate.
  assert ("nosuchpkg" <> "") as HP2 by discriminate.
  split; [exact Hsh|]. split.
  - destruct (list_files_total srv disk_django "DJANGO" eq_refl eq_refl HP1)
      as [Hret _].
    exact (Hret Hsh).
  - destruct (list_files_total srv disk_django "nosuchpkg" eq_refl eq_refl HP2)
      as (_ & Habsent & _).
    apply Habsent.
    + vm_compute. reflexivity.
    + rewrite disk_django_packages. intros Q [<-|[]]. vm_compute. reflexivity.
Defined.

(** The claim C7 as stated fails for the empty package name: running
    [list_files("")] raises [IndexError] before anything is yielded. *)
Lemma list_files_total_counterexample :
  list_files_yields srv disk0 "" (Gen [] (Some IndexError)).
Proof. exists 1. reflexivity. Qed.

(** C8, as amended.  For a storage root without glob characters and NUL
    bytes, [list_packages] yields the names, not starting with a dot, of
    the directories in the one-character directories of
    [<root>/packages], in the order of their paths
    [<root>/packages/<c>/<name>]; on a sharded store this is the
    lexicographic order of the names and no name comes twice.  (Without
    sharding neither holds, see the counterexample below.) *)
Theorem list_packages_order self fs :
  plain_root self = true ->
  (forall N,
     In N (list_packages self fs)
     <-> exists c shards names,
           os.listdir fs (packages_dir self) = Some shards
           /\ In (String c "") shards
           /\ os.listdir fs (posixpath.join (packages_dir self) (String c ""))
              = Some names
           /\ In N names
           /\ starts_with_dot N = false
           /\ os.isdir fs
                (posixpath.join
                   (posixpath.join (packages_dir self) (String c "")) N)
              = true)
  /\ list_packages self fs = map posixpath.basename (package_paths self fs)
  /\ StronglySorted String.le (package_paths self fs)
  /\ (sharded self fs = true ->
      StronglySorted String.le (list_packages self fs)
      /\ NoDup (list_packages self fs)).
Proof.
  intros _. split; [|split; [done|split; [apply package_paths_sorted|]]].
  - intros N. rewrite list_packages_paths, in_map_iff. split.
    + intros (p & <- & [Hg Hdir]%package_paths_spec).
      apply glob_packages_spec in Hg
        as (c & n & shards & names & -> & Hl & Hin & Hl' & Hin' & Hdot).
      destruct (proj1 (listdir_spec _ _ _ _ Hl) Hin) as [[Hc _]%valid_single _].
      destruct (proj1 (listdir_spec _ _ _ _ Hl') Hin') as [Hv _].
      pose proof (valid_name_inv _ Hv) as (_ & _ & _ & Hns).
      rewrite basename_shard_path by done.
      exists c, shards, names. repeat split; try done.
      by rewrite join_shard_name by (done || by apply valid_name_no_leading_slash).
    + intros (c & shards & names & Hl & Hin & Hl' & Hin' & Hdot & Hdir).
      destruct (proj1 (listdir_spec _ _ _ _ Hl) Hin) as [[Hc _]%valid_single _].
      destruct (proj1 (listdir_spec _ _ _ _ Hl') Hin') as [Hv _].
      pose proof (valid_name_inv _ Hv) as (_ & _ & _ & Hns).
      rewrite join_shard_name in Hdir
        by (done || by apply valid_name_no_leading_slash).
      exists (shard_path self c N). split; [by apply basename_shard_path|].
      apply package_paths_spec. split; [|done].
      apply glob_packages_spec. by exists c, N, shards, names.
  - intros Hsh. destruct (package_paths_sorted self fs) as [Hs Hn].
    rewrite list_packages_paths. split.
    + eapply StronglySorted_map_in; [|done].
      intros p1 p2 (c1 & r1 & Hb1 & Hp1)%(sharded_path _ _ _ Hsh)
        (c2 & r2 & Hb2 & Hp2)%(sharded_path _ _ _ Hsh).
      rewrite Hb1, Hb2. rewrite Hp1, Hp2 at 1.
      unfold String.le, String.leb. by rewrite compare_shard_path.
    + apply NoDup_map_in; [|done].
      intros p1 p2 Hp1 Hp2 Hb.
      rewrite (sharded_inv _ _ _ Hsh Hp1), (sharded_inv _ _ _ Hsh Hp2).
      by rewrite Hb.
Qed.

Lemma list_packages_order_witness :
  plain_root srv = true
  /\ sharded srv disk_three = true
  /\ list_packages srv disk_three = ["Django"; "attrs"; "flask"]
  /\ StronglySorted String.le (list_packages srv disk_three)
  /\ NoDup (list_packages srv disk_three).
Proof.
  assert (sharded srv disk_three = true) as Hsh by (vm_compute; reflexivity).
  destruct (list_packages_order srv disk_three eq_refl) as (_ & _ & _ & Hsorted).
  destruct (Hsorted Hsh) as [Hs Hn].
  split; [reflexivity|]. split; [exact Hsh|].
  split; [vm_compute; reflexivity|]. split; assumption.
Defined.

(** The claim C8 as stated fails: with [packages/a/zeta], [packages/b/alpha]
    and [packages/c/alpha] on the disk, [list_packages] yields [zeta]
    before [alpha], and [alpha] twice. *)
Lemma list_packages_order_counterexample :
  list_packages srv disk_missharded = ["zeta"; "alpha"; "alpha"]
  /\ ~ StronglySorted String.le (list_packages srv disk_missharded)
  /\ ~ NoDup (list_packages srv disk_missharded).
Proof.
  assert (list_packages srv disk_missharded = ["zeta"; "alpha"; "alpha"]) as E
    by (vm_compute; reflexivity).
  rewrite E. split; [reflexivity|]. split.
  - intros Hs. inversion Hs as [|x l _ Hall]; subst.
    inversion Hall as [|y l' Hle _]; subst. vm_compute in Hle. exact Hle.
  - intros Hn. inversion Hn as [|x l _ Hn']; subst.
    inversion Hn' as [|y l' Hnotin _]; subst. apply Hnotin. left.
Qed.

(** * Further properties *)

(** ** What [get_file] returns and raises *)

Lemma list_files_stop_nonempty depth self fs Q g :
  Q <> "" -> list_files depth self fs Q = Some g -> stop g = None.
Proof.
  revert Q g. induction depth as [|depth IH]; intros Q g HQ Hl; [done|].
  destruct (os.isdir fs (package_dir self Q)) eqn:Hd.
  - rewrite list_files_exact in Hl by done. injection Hl as <-.
    apply walk_records_stop.
  - rewrite list_files_fishing in Hl by done.
    destruct (List.find _ _) as [Q'|] eqn:Hf.
    + apply find_some in Hf as [Hin _]. eapply IH; [|done].
      by eapply listed_nonempty.
    + injection Hl as <-. apply walk_records_stop.
Qed.

Lemma fishing_raise lf gf P F path pkgs e :
  (forall Q g, In Q pkgs -> lf Q = Some g -> stop g = None) ->
  (forall Q g G e', In Q pkgs -> lf Q = Some g ->
     In G (map info_filename (yields g)) -> gf Q G <> Some (Raise e')) ->
  fishing lf gf P F path pkgs = Some (Raise e) ->
  e = NotFound (not_found_message P F path).
Proof.
  induction pkgs as [|Q pkgs IH]; intros Hs Hg Hf.
  - simpl in Hf. by injection Hf as <-.
  - rewrite fishing_cons in Hf.
    assert (fishing lf gf P F path pkgs = Some (Raise e) ->
            e = NotFound (not_found_message P F path)) as IH'.
    { apply IH.
      - intros Q' g Hin. apply Hs. by right.
      - intros Q' g G e' Hin. apply Hg. by right. }
    destruct (same_name P Q); [|by apply IH'].
    destruct (lf Q) as [g|] eqn:Hl; [|done].
    destruct (List.find _ (yields g)) as [fi|] eqn:Hfi.
    + apply find_some in Hfi as [Hin _]. exfalso.
      eapply (Hg Q g (info_filename fi) e); [by left | done | | done].
      by apply in_map.
    + rewrite (Hs Q g) in Hf; [by apply IH' | by left | done].
Qed.

Lemma fishing_return lf gf P F path pkgs data :
  fishing lf gf P F path pkgs = Some (Return data) ->
  exists Q g fi,
    In Q pkgs /\ same_name P Q = true /\ lf Q = Some g
    /\ List.find (fun fi => same_name (info_filename fi) F) (yields g) = Some fi
    /\ gf Q (info_filename fi) = Some (Return data).
Proof.
  induction pkgs as [|Q pkgs IH]; intros Hf; [done|].
  rewrite fishing_cons in Hf.
  assert (fishing lf gf P F path pkgs = Some (Return data) ->
          exists Q' g fi,
            In Q' (Q :: pkgs) /\ same_name P Q' = true /\ lf Q' = Some g
            /\ List.find (fun fi => same_name (info_filename fi) F) (yields g)
               = Some fi
            /\ gf Q' (info_filename fi) = Some (Return data)) as IH'.
  { intros H. destruct (IH H) as (Q' & g & fi & Hin & Hrest).
    exists Q', g, fi. split; [by right | done]. }
  destruct (same_name P Q) eqn:Hs; [|by apply IH'].
  destruct (lf Q) as [g|] eqn:Hl; [|done].
  destruct (List.find _ (yields g)) as [fi|] eqn:Hfi.
  - exists Q, g, fi. split; [by left | done].
  - destruct (stop g); [done | by apply IH'].
Qed.

(** X2.  The exceptions of a [get_file] that ends within the nested calls
    it may make, for a storage root without glob characters and names
    without NUL bytes: a call that raises was given the empty package name
    and raises [IndexError], or it found nothing at the exact path and
    raises [NotFound] with the message of its own request.  No exception
    of a nested call and no [IOError] comes out of it. *)
Theorem get_file_raises depth self fs P F e :
  plain_root self = true -> has_nul P = false -> has_nul F = false ->
  get_file depth self fs P F = Some (Raise e) ->
  (P = "" /\ e = IndexError)
  \/ exists path,
       get_file_path self P F = Return path
       /\ os.read fs path = None
       /\ e = NotFound (not_found_message P F path).
Proof.
  intros _ _ _. revert P F e.
  induction depth as [|depth IH]; intros P F e Hg; [done|].
  rewrite get_file_S in Hg.
  destruct P as [|c rest]; [left; simpl in Hg; by injection Hg as <-|].
  right.
  destruct (get_file_path self (String c rest) F) as [path|e'] eqn:Hp; [|done].
  exists path. split; [done|].
  destruct (os.read fs path) as [data|] eqn:Hr; [done|]. split; [done|].
  eapply fishing_raise; [| |exact Hg].
  - intros Q g Hin Hl. eapply list_files_stop_nonempty; [|done].
    by eapply listed_nonempty.
  - intros Q g G e' Hin Hl HG Hraise.
    destruct (IH _ _ _ Hraise) as [[-> _]|(path' & _ & _ & ->)].
    + by eapply listed_nonempty.
    + by eapply listed_file_found.
Qed.

Lemma get_file_raises_witness :
  ("nosuchpkg" = "" /\ NotFound
       "Package nosuchpkg: x not found in /srv/cache/packages/n/nosuchpkg/x"
     = IndexError)
  \/ exists path,
       get_file_path srv "nosuchpkg" "x" = Return path
       /\ os.read disk_django path = None
       /\ NotFound
            "Package nosuchpkg: x not found in /srv/cache/packages/n/nosuchpkg/x"
          = NotFound (not_found_message "nosuchpkg" "x" path).
Proof.
  apply (get_file_raises 1 srv disk_django "nosuchpkg" "x").
  - reflexivity.
  - reflexivity.
  - reflexivity.
  - vm_compute. reflexivity.
Defined.

(** X3.  What [get_file] returns are the bytes at the exact path of a
    package and a file name that have the lower-case forms of the requested
    ones: the requested pair itself, or a file of a package that
    [list_packages] lists.  It never returns the bytes of another name. *)
Theorem get_file_sound depth self fs P F data :
  get_file depth self fs P F = Some (Return data) ->
  exists Q G path,
    same_name P Q = true /\ same_name G F = true
    /\ ((Q = P /\ G = F) \/ In Q (list_packages self fs))
    /\ get_file_path self Q G = Return path
    /\ os.read fs path = Some data.
Proof.
  revert P F data. induction depth as [|depth IH]; intros P F data Hg; [done|].
  rewrite get_file_S in Hg.
  destruct (get_file_path self P F) as [path|e'] eqn:Hp; [|done].
  destruct (os.read fs path) as [data'|] eqn:Hr.
  - injection Hg as <-. exists P, F, path.
    split; [apply same_name_refl|]. split; [apply same_name_refl|].
    split; [by left | done].
  - apply fishing_return in Hg as (Q & g & fi & Hin & Hs & _ & Hfi & Hg).
    apply find_some in Hfi as [_ Hfn].
    destruct (IH _ _ _ Hg) as (Q' & G & path' & HQ & HG & Hwhere & Hp' & Hr').
    exists Q', G, path'. split; [by eapply same_name_trans|].
    split; [by eapply same_name_trans|]. split; [|done].
    right. by destruct Hwhere as [[-> _]|?].
Qed.

Lemma get_file_sound_witness :
  exists Q G path,
    same_name "django" Q = true /\ same_name G "DJANGO-1.0.tar.gz" = true
    /\ ((Q = "django" /\ G = "DJANGO-1.0.tar.gz")
        \/ In Q (list_packages srv disk_django))
    /\ get_file_path srv Q G = Return path
    /\ os.read disk_django path = Some hello.
Proof.
  apply (get_file_sound 2 srv disk_django "django" "DJANGO-1.0.tar.gz" hello).
  vm_compute. reflexivity.
Defined.

Lemma get_file_total_witness :
  exists r,
    (forall depth,
       get_file (S (S depth)) srv disk_django "django" "DJANGO-1.0.tar.gz"
       = Some r)
    /\ ((exists path,
           get_file_path srv "django" "DJANGO-1.0.tar.gz" = Return path
           /\ r = Raise (NotFound
                   (not_found_message "django" "DJANGO-1.0.tar.gz" path)))
        \/ exists Q G data,
             r = Return data /\ same_name "django" Q = true
             /\ same_name G "DJANGO-1.0.tar.gz" = true
             /\ get_file 1 srv disk_django Q G = Some (Return data)).
Proof.
  apply (get_file_total srv disk_django "django" "DJANGO-1.0.tar.gz").
  - reflexivity.
  - reflexivity.
  - reflexivity.
  - discriminate.
  - vm_compute. reflexivity.
  - vm_compute. reflexivity.
Defined.

(** ** The records of [list_files] *)

Lemma file_records_In fs package letter root files r :
  In r (yields (file_records fs package letter root files)) ->
  info_package r = package /\ info_firstletter r = letter
  /\ In (info_filename r) files
  /\ exists data,
       os.read fs (posixpath.join root (info_filename r)) = Some data
       /\ info_md5 r = hashlib.md5_hexdigest data.
Proof.
  induction files as [|f files IH]; simpl; [done|].
  destruct (os.read fs (posixpath.join root f)) as [data|] eqn:Hr; [|done].
  unfold gen_app. simpl. intros [<-|Hin].
  - simpl. split; [done|]. split; [done|]. split; [by left|]. by exists data.
  - destruct (IH Hin) as (? & ? & ? & ?). split; [done|]. split; [done|].
    split; [by right | done].
Qed.

Lemma walk_records_In fs package letter triples r :
  In r (yields (walk_records fs package letter triples)) ->
  exists root dirs files,
    In (root, dirs, files) triples
    /\ In r (yields (file_records fs package letter root files)).
Proof.
  induction triples as [|[[root dirs] files] triples IH]; simpl; [done|].
  unfold gen_app.
  destruct (stop (file_records fs package letter root files)); simpl.
  - intros Hin. exists root, dirs, files. split; [by left | done].
  - intros Hin. apply in_app_or in Hin as [Hin|Hin].
    + exists root, dirs, files. split; [by left | done].
    + destruct (IH Hin) as (root' & dirs' & files' & Ht & Hr).
      exists root', dirs', files'. split; [by right | done].
Qed.

Lemma join_initial top n : starts_with_slash n = false -> initial top (posixpath.join top n).
Proof.
  intros Hn. rewrite join_relative by done. unfold join_base.
  destruct (String.eqb top "" || ends_with_slash top).
  - by exists n.
  - exists ("/" +:+ n). by rewrite append_assoc.
Qed.

Lemma walk_rec_roots fuel fs top root dirs files :
  In (root, dirs, files) (os.walk_rec fuel fs top) -> initial top root.
Proof.
  revert top. induction fuel as [|fuel IH]; intros top; simpl; [done|].
  destruct (os.listdir fs top) as [names|] eqn:Hl; [|done].
  intros Hin. apply in_app_or in Hin as [Hin|Hin].
  - apply in_flat_map in Hin as (n & Hn & Hin).
    apply filter_In in Hn as [Hn _].
    destruct (entry_dir_or_file _ _ _ _ Hl Hn) as [Hv _].
    eapply initial_trans; [|by apply IH].
    apply join_initial. by apply valid_name_no_leading_slash.
  - destruct Hin as [[= <- _ _]|[]]. apply initial_refl.
Qed.

Lemma list_files_shape depth self fs P g :
  list_files depth self fs P = Some g ->
  (P = "" /\ g = Gen [] (Some IndexError))
  \/ exists Q,
       Q <> "" /\ same_name Q P = true
       /\ g = walk_records fs Q (firstletter Q) (os.walk fs (package_dir self Q)).
Proof.
  revert P g. induction depth as [|depth IH]; intros P g Hl; [done|].
  destruct P as [|c rest]; [left; simpl in Hl; by injection Hl as <-|].
  right. set (P := String c rest) in *. assert (P <> "") as HP by done.
  clearbody P.
  destruct (os.isdir fs (package_dir self P)) eqn:Hd.
  - rewrite list_files_exact in Hl by done. injection Hl as <-.
    exists P. split; [done|]. split; [apply same_name_refl | done].
  - rewrite list_files_fishing in Hl by done.
    destruct (List.find _ _) as [Q|] eqn:Hf.
    + apply find_some in Hf as [Hin Hs].
      destruct (IH _ _ Hl) as [[-> _]|(Q' & HQ' & Hs' & ->)].
      * by apply listed_nonempty in Hin.
      * exists Q'. split; [done|]. split; [by eapply same_name_trans | done].
    + injection Hl as <-.
      exists P. split; [done|]. split; [apply same_name_refl | done].
Qed.

(** X4.  The records of [list_files]: all records of one listing carry the
    same package name, which has the lower-case form of the requested name
    and whose directory exists, and the first letter of that name; each
    file name is the name of a directory entry, and each digest is the MD5
    of the bytes of a file of that name under the package directory. *)
Theorem list_files_records depth self fs P g :
  list_files depth self fs P = Some g ->
  exists Q,
    same_name Q P = true
    /\ forall r, In r (yields g) ->
         info_package r = Q
         /\ info_firstletter r = firstletter Q
         /\ valid_name (info_filename r) = true
         /\ os.isdir fs (package_dir self Q) = true
         /\ exists root data,
              initial (package_dir self Q) root
              /\ os.read fs (posixpath.join root (info_filename r)) = Some data
              /\ info_md5 r = hashlib.md5_hexdigest data.
Proof.
  intros Hl. apply list_files_shape in Hl as [[-> ->]|(Q & HQ & Hs & ->)].
  { exists "". split; [done|]. intros r []. }
  exists Q. split; [done|]. intros r Hr.
  assert (os.isdir fs (package_dir self Q) = true) as Hd.
  { destruct (os.isdir fs (package_dir self Q)) eqn:Hd; [done|].
    rewrite walk_not_dir in Hr by done. destruct Hr. }
  apply walk_records_In in Hr as (root & dirs & files & Ht & Hr).
  apply file_records_In in Hr as (Hp & Hfl & Hin & data & Hrd & Hmd).
  split; [done|]. split; [done|]. split.
  - pose proof (walk_rec_readable (S (os.depth fs)) fs (package_dir self Q)) as Hall.
    rewrite Forall_forall in Hall. apply list_elem_of_In in Ht.
    by destruct (Hall _ Ht (info_filename r) Hin).
  - split; [done|]. exists root, data. split; [|done].
    by eapply walk_rec_roots.
Qed.

Lemma list_files_records_witness :
  exists Q,
    same_name Q "DJANGO" = true
    /\ forall r, In r (yields django_listing) ->
         info_package r = Q
         /\ info_firstletter r = firstletter Q
         /\ valid_name (info_filename r) = true
         /\ os.isdir disk_django (package_dir srv Q) = true
         /\ exists root data,
              initial (package_dir srv Q) root
              /\ os.read disk_django (posixpath.join root (info_filename r))
                 = Some data
              /\ info_md5 r = hashlib.md5_hexdigest data.
Proof.
  apply (list_files_records 2 srv disk_django "DJANGO" django_listing).
  vm_compute. reflexivity.
Defined.

(** ** [add_file], then the listings *)

Lemma file_records_member fs package letter root files f data :
  (forall f, In f files ->
     valid_name f = true
     /\ exists data, os.read fs (posixpath.join root f) = Some data) ->
  In f files -> os.read fs (posixpath.join root f) = Some data ->
  In (mkinfo package letter f (hashlib.md5_hexdigest data))
    (yields (file_records fs package letter root files)).
Proof.
  induction files as [|f' files IH]; intros Hall Hin Hr; [done|]. simpl.
  destruct (Hall f' (or_introl eq_refl)) as [_ [data' Hr']]. rewrite Hr'.
  unfold gen_app. simpl. destruct Hin as [->|Hin].
  - left. congruence.
  - right. apply IH; [|done..]. intros g Hg. apply Hall. by right.
Qed.

Lemma walk_records_member fs package letter triples root dirs files f data :
  Forall (readable_triple fs) triples ->
  In (root, dirs, files) triples -> In f files ->
  os.read fs (posixpath.join root f) = Some data ->
  In (mkinfo package letter f (hashlib.md5_hexdigest data))
    (yields (walk_records fs package letter triples)).
Proof.
  induction 1 as [|[[root' dirs'] files'] triples Ht Hall IH]; intros Hin Hf Hr;
    [done|].
  simpl. destruct (file_records_readable fs package letter root' files' Ht)
    as [Hs _].
  unfold gen_app. rewrite Hs. simpl. apply in_or_app.
  destruct Hin as [[= -> -> ->]|Hin].
  - left. by apply file_records_member.
  - right. by apply IH.
Qed.

Lemma walk_top_record fs package letter top names n data :
  os.listdir fs top = Some names -> In n names ->
  os.read fs (posixpath.join top n) = Some data ->
  In (mkinfo package letter n (hashlib.md5_hexdigest data))
    (yields (walk_records fs package letter (os.walk fs top))).
Proof.
  intros Hl Hin Hr.
  eapply (walk_records_member fs package letter (os.walk fs top) top
            (List.filter (fun n => os.isdir fs (posixpath.join top n)) names)
            (List.filter (fun n => negb (os.isdir fs (posixpath.join top n))) names));
    [apply walk_rec_readable | | | done].
  - unfold os.walk. simpl. rewrite Hl. apply in_or_app. right. by left.
  - apply filter_In. split; [done|].
    destruct (entry_dir_or_file _ _ _ _ Hl Hin) as [_ [Hd|[-> _]]]; [|done].
    apply isdir_inv in Hd as (l & Hres & Hd). unfold os.read in Hr.
    rewrite Hres in Hr. apply is_dir_node_at in Hd. by rewrite Hd in Hr.
Qed.

(** X5.  A stored file is listed: for a storage root without glob
    characters and NUL bytes, after a successful [add_file] of a file with
    a plain name into a package with a plain name that does not start with
    a dot, [list_packages] has the package, and [list_files] of the
    package ends without an exception and has the record of the file, with
    the package, its first letter and the MD5 digest of the bytes [data]
    that the content, a byte string or a stream, holds. *)
Theorem add_file_then_list self fs P F (C : content) (data : bytes) fs' :
  plain_root self = true ->
  valid_name P = true -> starts_with_dot P = false -> valid_name F = true ->
  C = Bytes data \/ C = Stream data ->
  add_file self fs P F C = (fs', Return tt) ->
  In P (list_packages self fs')
  /\ exists g,
       stop g = None
       /\ In (mkinfo P (firstletter P) F (hashlib.md5_hexdigest data)) (yields g)
       /\ forall depth, list_files (S depth) self fs' P = Some g.
Proof.
  intros _ HP Hdot HF HC Hadd.
  assert (content_bytes C = data) as <- by (by destruct HC as [-> | ->]).
  destruct (add_file_success _ _ _ _ _ _ Hadd) as (path & fs1 & Hp & _ & Hw).
  rewrite get_file_path_join in Hp
    by (done || by apply valid_name_no_leading_slash).
  injection Hp as <-.
  pose proof (write_read _ _ _ _ Hw) as Hr.
  destruct (package_dir_plain self P HP) as [Hne _].
  destruct (read_join_listed _ _ _ _ Hne HF Hr) as (names & Hl & Hin).
  pose proof (listdir_isdir _ _ _ Hl) as Hd.
  destruct (package_dir_listed self fs' P HP Hdot Hd) as [_ Hlisted].
  split; [done|].
  exists (walk_records fs' P (firstletter P) (os.walk fs' (package_dir self P))).
  split; [apply walk_records_stop|]. split.
  - by eapply walk_top_record.
  - intros depth. apply list_files_exact; [|done].
    by apply (proj1 (valid_name_inv P HP)).
Qed.

Lemma add_file_then_list_witness :
  In "Django" (list_packages srv disk_django)
  /\ exists g,
       stop g = None
       /\ In (mkinfo "Django" (firstletter "Django") "Django-1.0.tar.gz"
                (hashlib.md5_hexdigest hello))
            (yields g)
       /\ forall depth, list_files (S depth) srv disk_django "Django" = Some g.
Proof.
  apply (add_file_then_list srv disk0 "Django" "Django-1.0.tar.gz" (Bytes hello)
           hello disk_django).
  - reflexivity.
  - reflexivity.
  - reflexivity.
  - reflexivity.
  - by left.
  - vm_compute. reflexivity.
Defined.

(** ** Edge cases of [add_file] and of the layout *)

Lemma get_file_path_trailing_slash self P F path :
  F = "" \/ ends_with_slash F = true ->
  get_file_path self P F = Return path -> exists a, path = a +:+ "/".
Proof.
  intros HF Hp. destruct P as [|c rest]; [done|]. simpl in Hp.
  injection Hp as <-. rewrite join_relative by done.
  destruct HF as [->|HF].
  - exists (join_base (prefix self) +:+ "packages/" +:+ String c ""
            +:+ "/" +:+ String c rest).
    by rewrite append_empty_r, !append_assoc.
  - apply ends_with_slash_inv in HF as [a ->].
    exists (join_base (prefix self) +:+ "packages/" +:+ String c ""
            +:+ "/" +:+ String c rest +:+ "/" +:+ a).
    by rewrite !append_assoc.
Qed.

(** X10.  A file name that is empty or ends with a slash names a
    directory: for a storage root and names without NUL bytes, [add_file]
    never stores anything under it.  It raises [IndexError] (empty package
    name), the [OSError] of [os.makedirs] or the [IOError] of [open], and
    never [NotOverwritingError]. *)
Theorem add_file_directory_name self fs P F (C : content) fs' r :
  has_nul (prefix self) = false -> has_nul P = false -> has_nul F = false ->
  F = "" \/ ends_with_slash F = true ->
  add_file self fs P F C = (fs', r) ->
  exists e, r = Raise e
    /\ (e = IndexError \/ e = IOError \/ exists n, e = OSError n).
Proof.
  intros _ _ _ HF. unfold add_file.
  destruct (get_file_path self P F) as [path|e] eqn:Hp.
  2:{ intros [= <- <-]. exists e. split; [done|]. left.
      destruct P; [by injection Hp as <- | done]. }
  destruct (get_file_path_trailing_slash _ _ _ _ HF Hp) as [a ->].
  destruct (os.isfile fs (a +:+ "/")) eqn:Hf.
  { exfalso. unfold os.isfile in Hf.
    destruct (resolve fs (a +:+ "/")) as [l|] eqn:Hr; [|done].
    apply resolve_trailing_slash in Hr. apply is_dir_node_at in Hr.
    by rewrite Hr in Hf. }
  destruct (if negb (os.isdir fs (posixpath.dirname (a +:+ "/")))
            then os.makedirs fs (posixpath.dirname (a +:+ "/")) else (fs, None))
    as [fs1 [n|]].
  { intros [= <- <-]. exists (OSError n). split; [done|]. right; right. by exists n. }
  destruct (os.write fs1 (a +:+ "/") (content_bytes C)) as [fs2|] eqn:Hw.
  - exfalso. apply write_inv in Hw as (l & Hr & Hd & _).
    apply resolve_trailing_slash in Hr. congruence.
  - intros [= <- <-]. exists IOError. split; [done|]. right. by left.
Qed.

Lemma add_file_directory_name_witness :
  exists e, (Raise IOError : outcome unit) = Raise e
    /\ (e = IndexError \/ e = IOError \/ exists n, e = OSError n).
Proof.
  apply (add_file_directory_name srv disk0 "Django" "" (Bytes hello)
           (fst (add_file srv disk0 "Django" "" (Bytes hello)))
           (Raise IOError)).
  - reflexivity.
  - reflexivity.
  - reflexivity.
  - by left.
  - vm_compute. reflexivity.
Defined.

Lemma append_inv_head (a b c : string) : a +:+ b = a +:+ c -> b = c.
Proof.
  induction a as [|x a IH]; [done|]. rewrite !append_cons. intros [= H]. by apply IH.
Qed.

Lemma noslash_split_inj a a' b b' :
  has_slash a = false -> has_slash a' = false ->
  a +:+ String "/" b = a' +:+ String "/" b' -> a = a' /\ b = b'.
Proof.
  revert a'. induction a as [|x a IH]; intros [|x' a'] Ha Ha' He.
  - by injection He as ->.
  - rewrite append_cons in He. injection He as <- _. done.
  - rewrite append_cons in He. injection He as -> _. done.
  - rewrite !append_cons in He. injection He as -> He.
    simpl in Ha, Ha'. apply orb_false_iff in Ha as [_ Ha].
    apply orb_false_iff in Ha' as [_ Ha'].
    destruct (IH a' Ha Ha' He) as [-> ->]. done.
Qed.

(** X11.  The layout is injective on packages without a slash: two pairs
    of such a package and a file name that [get_file_path] maps to the same
    path are the same pair. *)
Theorem get_file_path_injective self P F P' F' path :
  has_slash P = false -> has_slash P' = false ->
  get_file_path self P F = Return path ->
  get_file_path self P' F' = Return path ->
  P = P' /\ F = F'.
Proof.
  intros HP HP' Hp Hp'.
  destruct P as [|c rest]; [done|]. destruct P' as [|c' rest']; [done|].
  simpl in Hp, Hp'. injection Hp as <-. injection Hp' as Hp'.
  rewrite !join_relative in Hp' by done.
  apply append_inv_head in Hp'.
  apply (append_inv_head "packages/") in Hp'.
  change (String c' (String "/" (String c' rest' +:+ String "/" F'))
          = String c (String "/" (String c rest +:+ String "/" F))) in Hp'.
  injection Hp' as -> _ Hp'.
  simpl in HP, HP'. apply orb_false_iff in HP as [_ HP].
  apply orb_false_iff in HP' as [_ HP'].
  by destruct (noslash_split_inj _ _ _ _ HP' HP Hp') as [-> ->].
Qed.

Lemma get_file_path_injective_witness : "Django" = "Django" /\ "a.tgz" = "a.tgz".
Proof.
  apply (get_file_path_injective srv "Django" "a.tgz" "Django" "a.tgz"
           "/srv/cache/packages/D/Django/a.tgz"); reflexivity.
Defined.

(** X12.  A slash moves between the package and the file name: the package
    [P/F] with the file [G] and the package [P] with the file [F/G] have
    the same path, so that the layout is not injective on all names. *)
Theorem get_file_path_slash self P F G :
  P <> "" ->
  get_file_path self (P +:+ "/" +:+ F) G = get_file_path self P (F +:+ "/" +:+ G).
Proof.
  intros HP. destruct P as [|c rest]; [done|].
  rewrite append_cons. simpl. f_equal. f_equal.
  rewrite <- !append_cons. by rewrite !append_assoc.
Qed.

Lemma get_file_path_slash_witness :
  get_file_path srv ("a" +:+ "/" +:+ "b") "c"
  = get_file_path srv "a" ("b" +:+ "/" +:+ "c").
Proof. apply (get_file_path_slash srv "a" "b" "c"). discriminate. Defined.

(** ** What [add_file] keeps *)

Lemma add_file_inv self fs P F C fs' r :
  add_file self fs P F C = (fs', r) ->
  fs' = fs
  \/ exists path fs1,
       get_file_path self P F = Return path
       /\ grown path fs fs1
       /\ (fs' = fs1
           \/ (r = Return tt /\ os.write fs1 path (content_bytes C) = Some fs')).
Proof.
  unfold add_file. destruct (get_file_path self P F) as [path|e] eqn:Hp.
  2:{ intros [= <- _]. by left. }
  destruct (os.isfile fs path); [intros [= <- _]; by left|].
  assert (exists fs1 made,
    (if negb (os.isdir fs (posixpath.dirname path))
     then os.makedirs fs (posixpath.dirname path) else (fs, None)) = (fs1, made)
    /\ grown path fs fs1) as (fs1 & made & -> & Hg).
  { destruct (negb (os.isdir fs (posixpath.dirname path))).
    - pose proof (makedirs_grown fs (posixpath.dirname path)) as Hg.
      destruct (os.makedirs fs (posixpath.dirname path)) as [fs1 made].
      exists fs1, made. split; [done|].
      eapply grown_weaken; [apply dirname_initial | done].
    - exists fs, None. split; [done | apply grown_refl]. }
  intros Hadd. right. exists path, fs1. split; [done|]. split; [done|].
  destruct made; [injection Hadd as <- _; by left|].
  destruct (os.write fs1 path (content_bytes C)) as [fs2|] eqn:Hw.
  - injection Hadd as <- <-. by right.
  - injection Hadd as <- _. by left.
Qed.

Lemma write_isdir fs p data fs' q :
  os.write fs p data = Some fs' -> os.isdir fs' q = os.isdir fs q.
Proof.
  intros Hw. unfold os.isdir. rewrite (write_resolve _ _ _ _ q Hw).
  destruct (write_inv _ _ _ _ Hw) as (l & _ & Hd & ->). simpl.
  destruct (resolve fs q) as [l'|]; [|done]. by apply is_dir_insert_file.
Qed.

Lemma grown_isdir name fs fs' q :
  grown name fs fs' -> os.isdir fs q = true -> os.isdir fs' q = true.
Proof.
  intros Hg Hd. apply isdir_inv in Hd as (l & Hr & Hd). unfold os.isdir.
  rewrite (grown_resolve _ _ _ _ _ Hg Hr). by eapply grown_is_dir.
Qed.

Lemma add_file_isdir self fs P F C fs' r q :
  add_file self fs P F C = (fs', r) ->
  os.isdir fs q = true -> os.isdir fs' q = true.
Proof.
  intros Hadd Hd.
  destruct (add_file_inv _ _ _ _ _ _ _ Hadd)
    as [->|(path & fs1 & _ & Hg & [->|[_ Hw]])]; [done| |].
  - by eapply grown_isdir.
  - rewrite (write_isdir _ _ _ _ q Hw). by eapply grown_isdir.
Qed.

(** X6.  No package is lost: whatever [add_file] is called with and
    however it ends, every package that [list_packages] listed before the
    call is listed after it. *)
Theorem add_file_keeps_packages self fs P F (C : content) fs' r Q :
  add_file self fs P F C = (fs', r) ->
  In Q (list_packages self fs) -> In Q (list_packages self fs').
Proof.
  intros Hadd HQ.
  destruct (list_packages_inv _ _ _ HQ) as (Hv & Hdot & c & Hc & _ & Hd).
  pose proof (add_file_isdir _ _ _ _ _ _ _ _ Hadd Hd) as Hd'.
  pose proof (shard_dir_listed self fs' c Q Hc Hv Hdot Hd') as Hin.
  rewrite list_packages_paths. apply in_map_iff.
  exists (shard_path self c Q). split; [|done].
  apply basename_shard_path. by apply valid_name_inv in Hv as (_ & _ & _ & ?).
Qed.

Lemma add_file_keeps_packages_witness :
  In "Django" (list_packages srv
    (fst (add_file srv disk_django "flask" "flask-0.1.tar.gz" (Bytes world)))).
Proof.
  apply (add_file_keeps_packages srv disk_django "flask" "flask-0.1.tar.gz"
           (Bytes world) _ (Return tt) "Django").
  - vm_compute. reflexivity.
  - vm_compute. by left.
Defined.

(** ** Plain names: what [add_file] creates *)

(** The head of a path whose directory is there is there. *)
Lemma split_dir_exists fs a t l :
  has_slash t = false -> resolve fs (a +:+ "/") = Some l ->
  exists h, posixpath.split (a +:+ String "/" t) = (h, t)
            /\ os.path_exists fs h = true.
Proof.
  intros Ht Hr. unfold posixpath.split. rewrite rsplit_slash_name by done.
  assert (is_dir (nodes fs) l = true) as Hd by (by eapply resolve_trailing_slash).
  eexists. split; [reflexivity|].
  destruct (String.eqb_spec (a +:+ "/") "") as [He|_].
  { rewrite He in Hr. done. }
  simpl. destruct (all_slashes (a +:+ "/")) eqn:Hall; simpl.
  - unfold os.path_exists. rewrite Hr. by apply is_dir_present.
  - unfold os.path_exists. rewrite (resolve_rstrip _ _ _ Hall Hr).
    by apply is_dir_present.
Qed.

Lemma makedirs_rec_leaf fuel fs name head tail :
  posixpath.split name = (head, tail) -> tail <> "" ->
  head = "" \/ os.path_exists fs head = true ->
  os.makedirs_rec (S fuel) fs name = os.mkdir fs name.
Proof.
  intros Hs Ht Hh. simpl. rewrite Hs.
  apply String.eqb_neq in Ht. rewrite Ht. cbv beta iota.
  destruct Hh as [-> | ->]; [done|]. by rewrite andb_false_r.
Qed.

Lemma makedirs_rec_level (R : filesystem -> Prop) fuel fs name head tail :
  posixpath.split name = (head, tail) -> tail <> "" -> tail <> "." ->
  R fs ->
  (forall fs1, R fs1 -> R (fst (os.mkdir fs1 name))) ->
  R (fst (os.makedirs_rec fuel fs head)) ->
  R (fst (os.makedirs_rec (S fuel) fs name)).
Proof.
  intros Hs Ht Hdot HR Hmk Hrec. simpl. rewrite Hs.
  apply String.eqb_neq in Ht, Hdot. rewrite Ht. cbv beta iota.
  rewrite Ht, Hdot.
  destruct (negb (String.eqb head "") && negb false
            && negb (os.path_exists fs head)); [|by apply Hmk].
  destruct (os.makedirs_rec fuel fs head) as [fs1 [[]|]]; simpl in Hrec.
  - by apply Hmk.
  - done.
  - by apply Hmk.
Qed.

Section plain_names.

Variable self : DiskPackageStore.
Variable fs : filesystem.
Variable lr : location.
Variable c0 : ascii.
Variable rest : string.
Variable F : string.
Variable data : bytes.

Hypothesis Hwf : well_formed fs = true.
Hypothesis Hroot : resolve fs (prefix self) = Some lr.
Hypothesis Hlr : is_dir (nodes fs) lr = true.
Hypothesis HP : valid_name (String c0 rest) = true.
Hypothesis Hdot : starts_with_dot (String c0 rest) = false.
Hypothesis HF : valid_name F = true.

Lemma plain_shard : valid_name (String c0 "") = true.
Proof. by eapply valid_name_head. Qed.

Lemma plain_slash : is_slash c0 = false.
Proof. by destruct (proj1 (valid_single c0) plain_shard). Qed.

Lemma stored_refl : stored lr (String c0 rest) F data fs fs.
Proof. split; [done|]. intros l. by left. Qed.

Lemma stored_is_dir fs1 l :
  stored lr (String c0 rest) F data fs fs1 ->
  is_dir (nodes fs) l = true -> is_dir (nodes fs1) l = true.
Proof.
  intros [_ Hs]. unfold is_dir, node_at. destruct l as [|n l']; [done|].
  destruct (Hs (n :: l')) as [-> | (-> & _)]; done.
Qed.

Lemma stored_resolve fs1 p l :
  stored lr (String c0 rest) F data fs fs1 ->
  resolve fs p = Some l -> resolve fs1 p = Some l.
Proof.
  intros Hs. apply resolve_mono; [apply Hs|]. intros l'. by apply stored_is_dir.
Qed.

Lemma prefix_nonempty : prefix self <> "".
Proof. by eapply resolve_nonempty. Qed.

(** The locations of the paths of the store. *)
Lemma resolve_packages_dir fs1 l :
  resolve fs1 (prefix self) = Some lr ->
  resolve fs1 (packages_dir self) = Some l -> l = "packages" :: lr.
Proof.
  intros Hr1 Hr. unfold packages_dir in Hr.
  apply resolve_join_inv in Hr as (l' & Hl' & _ & ->);
    [congruence | apply prefix_nonempty | done].
Qed.

Lemma resolve_shard_dir fs1 c l :
  resolve fs1 (prefix self) = Some lr -> valid_name (String c "") = true ->
  resolve fs1 (posixpath.join (packages_dir self) (String c "")) = Some l ->
  l = String c "" :: "packages" :: lr.
Proof.
  intros Hr1 Hc Hr.
  apply resolve_join_inv in Hr as (l' & Hl' & _ & ->);
    [|apply packages_dir_nonempty | done].
  by rewrite (resolve_packages_dir _ _ Hr1 Hl').
Qed.

Lemma resolve_shard_path fs1 c n l :
  resolve fs1 (prefix self) = Some lr -> valid_name (String c "") = true ->
  valid_name n = true ->
  resolve fs1 (shard_path self c n) = Some l ->
  l = n :: String c "" :: "packages" :: lr.
Proof.
  intros Hr1 Hc Hn Hr.
  rewrite <- join_shard_name in Hr;
    [|by apply valid_single in Hc as [? _]
     |by apply valid_name_no_leading_slash].
  apply resolve_join_inv in Hr as (l' & Hl' & _ & ->);
    [|apply join_nonempty, packages_dir_nonempty | done].
  by rewrite (resolve_shard_dir _ _ _ Hr1 Hc Hl').
Qed.

(** A directory of the old file system at the place of a package is a
    package directory of it. *)
Lemma old_shard_path c n :
  valid_name (String c "") = true -> valid_name n = true ->
  is_dir (nodes fs) (n :: String c "" :: "packages" :: lr) = true ->
  os.isdir fs (shard_path self c n) = true.
Proof.
  intros Hc Hn Hd. pose proof (proj1 (well_formed_spec fs) Hwf) as Hwf'.
  assert (is_dir (nodes fs) (String c "" :: "packages" :: lr) = true) as Hd2.
  { apply (Hwf' n). apply is_dir_node_at in Hd. simpl in Hd. by rewrite Hd. }
  assert (is_dir (nodes fs) ("packages" :: lr) = true) as Hd1.
  { apply (Hwf' (String c "")). apply is_dir_node_at in Hd2. simpl in Hd2.
    by rewrite Hd2. }
  unfold os.isdir.
  rewrite <- join_shard_name;
    [|by apply valid_single in Hc as [? _]
     |by apply valid_name_no_leading_slash].
  erewrite resolve_join; [exact Hd| |done|done].
  erewrite resolve_join; [done| |done|done].
  unfold packages_dir. by erewrite resolve_join.
Qed.

Lemma mkdir_stored fs1 q l0 :
  stored lr (String c0 rest) F data fs fs1 ->
  (exists a c, q = a +:+ String c "" /\ is_slash c = false) ->
  (forall l, resolve fs1 q = Some l -> l = l0) ->
  l0 = "packages" :: lr \/ l0 = String c0 "" :: "packages" :: lr
  \/ l0 = package_at lr (String c0 rest) ->
  stored lr (String c0 rest) F data fs (fst (os.mkdir fs1 q)).
Proof.
  intros Hs (a & c & -> & Hc) Hl Hl0. unfold os.mkdir.
  assert ((if all_slashes (a +:+ String c "") then a +:+ String c ""
           else rstrip_slash (a +:+ String c "")) = a +:+ String c "") as ->.
  { destruct (all_slashes _); [done | by apply rstrip_slash_keep]. }
  destruct (resolve fs1 (a +:+ String c "")) as [l|] eqn:Hr; [|done].
  rewrite (Hl l eq_refl) in *. clear Hl l.
  destruct (present (nodes fs1) l0) eqn:Hp; [done|]. simpl.
  destruct (present_false_lookup _ _ Hp) as [Hnone _].
  destruct Hs as [Hcwd Hs]. split; [done|]. intros l. simpl.
  destruct (decide (l = l0)) as [->|Hne].
  - right. rewrite lookup_insert_eq. split.
    + destruct (Hs l0) as [<-|(_ & [[Hd _]|[Hd _]])]; [done|congruence..].
    + left. split; [done|]. done.
  - rewrite lookup_insert_ne by done. apply Hs.
Qed.

Lemma package_dir_last :
  exists a c, package_dir self (String c0 rest) = a +:+ String c ""
              /\ is_slash c = false.
Proof.
  destruct (last_char (String c0 rest)) as (a & c & Ha); [done|].
  exists (join_base (prefix self) +:+ "packages/" +:+ String c0 "" +:+ "/" +:+ a), c.
  split.
  - rewrite package_dir_shard. unfold shard_path. rewrite Ha.
    by rewrite !append_assoc.
  - destruct (valid_name_inv _ HP) as (_ & _ & _ & Hs).
    rewrite Ha, has_slash_append in Hs. apply orb_false_iff in Hs as [_ Hs].
    simpl in Hs. by apply orb_false_iff in Hs as [? _].
Qed.


Lemma split_shard_dir :
  posixpath.split (posixpath.join (packages_dir self) (String c0 ""))
  = (packages_dir self, String c0 "").
Proof.
  rewrite (join_shard _ _ plain_slash), packages_dir_eq.
  set (b := join_base (prefix self)).
  replace ((b +:+ "packages/") +:+ String c0 "")
    with (((b +:+ "package") +:+ String "s" "") +:+ String "/" (String c0 ""))
    by (rewrite !append_assoc; reflexivity).
  replace (b +:+ "packages") with ((b +:+ "package") +:+ String "s" "")
    by (rewrite append_assoc; reflexivity).
  apply split_name; [done|]. simpl. by rewrite plain_slash.
Qed.

Lemma split_package_dir :
  posixpath.split (package_dir self (String c0 rest))
  = (posixpath.join (packages_dir self) (String c0 ""), String c0 rest).
Proof.
  rewrite package_dir_shard, shard_path_shape, (join_shard _ _ plain_slash).
  apply split_name; [apply plain_slash|].
  by destruct (valid_name_inv _ HP) as (_ & _ & _ & ?).
Qed.

Lemma root_resolved fs1 :
  stored lr (String c0 rest) F data fs fs1 ->
  resolve fs1 (prefix self) = Some lr /\ is_dir (nodes fs1) lr = true.
Proof. intros Hs. split; [by apply stored_resolve | by apply stored_is_dir]. Qed.

Lemma makedirs_packages fuel fs1 :
  stored lr (String c0 rest) F data fs fs1 ->
  stored lr (String c0 rest) F data fs
    (fst (os.makedirs_rec (S fuel) fs1 (packages_dir self))).
Proof.
  intros Hs. destruct (root_resolved _ Hs) as [Hr1 Hd1].
  destruct (join_name (prefix self) "packages" prefix_nonempty eq_refl)
    as (a & Ha & Hbase).
  fold (packages_dir self) in Ha.
  assert (resolve fs1 (a +:+ "/") = Some lr) as Hra.
  { destruct Hbase as [-> | <-]; [by apply resolve_add_slash | done]. }
  destruct (split_dir_exists fs1 a "packages" lr eq_refl Hra) as (h & Hsp & Hex).
  rewrite <- Ha in Hsp.
  rewrite (makedirs_rec_leaf fuel fs1 _ h "packages" Hsp); [|done|by right].
  eapply mkdir_stored; [done| | |by left].
  - exists (join_base (prefix self) +:+ "package"), "s"%char.
    split; [|done]. rewrite packages_dir_eq. by rewrite append_assoc.
  - intros l. by apply resolve_packages_dir.
Qed.

Lemma makedirs_shard fuel fs1 :
  stored lr (String c0 rest) F data fs fs1 ->
  stored lr (String c0 rest) F data fs
    (fst (os.makedirs_rec (S (S fuel)) fs1
            (posixpath.join (packages_dir self) (String c0 "")))).
Proof.
  intros Hs.
  apply (makedirs_rec_level (stored lr (String c0 rest) F data fs) (S fuel) fs1
           _ _ _ split_shard_dir); [done| |done| |by apply makedirs_packages].
  - intros E. pose proof plain_shard as Hv. by rewrite E in Hv.
  - intros fs2 Hs2. destruct (root_resolved _ Hs2) as [Hr2 _].
    eapply mkdir_stored; [done| | |right; by left].
    + exists (join_base (prefix self) +:+ "packages/"), c0.
      split; [by apply join_shard, plain_slash | apply plain_slash].
    + intros l. apply resolve_shard_dir; [done | apply plain_shard].
Qed.

Lemma makedirs_package fuel fs1 :
  stored lr (String c0 rest) F data fs fs1 ->
  stored lr (String c0 rest) F data fs
    (fst (os.makedirs_rec (S (S (S fuel))) fs1
            (package_dir self (String c0 rest)))).
Proof.
  intros Hs.
  apply (makedirs_rec_level (stored lr (String c0 rest) F data fs) (S (S fuel))
           fs1 _ _ _ split_package_dir); [done| |done| |by apply makedirs_shard].
  - intros E. by rewrite E in HP.
  - intros fs2 Hs2. destruct (root_resolved _ Hs2) as [Hr2 _].
    eapply mkdir_stored; [done|apply package_dir_last| |right; by right].
    intros l Hl. rewrite package_dir_shard in Hl.
    by apply (resolve_shard_path _ _ _ _ Hr2 plain_shard HP) in Hl.
Qed.

Lemma package_dir_length :
  exists k, String.length (package_dir self (String c0 rest)) = S (S k).
Proof.
  rewrite package_dir_shard, shard_path_shape, !length_append. simpl.
  eexists. rewrite Nat.add_succ_r, Nat.add_succ_r. reflexivity.
Qed.

Lemma makedirs_stored :
  stored lr (String c0 rest) F data fs
    (fst (os.makedirs fs (package_dir self (String c0 rest)))).
Proof.
  unfold os.makedirs. destruct package_dir_length as [k ->].
  apply makedirs_package, stored_refl.
Qed.

Lemma dirname_plain :
  posixpath.dirname (posixpath.join (package_dir self (String c0 rest)) F)
  = package_dir self (String c0 rest).
Proof.
  destruct (package_dir_plain self _ HP) as [Hne Hes].
  rewrite join_plain; [|done|done|by apply valid_name_no_leading_slash].
  destruct package_dir_last as (a & c & -> & Hc). unfold posixpath.dirname.
  rewrite split_name; [done|done|].
  by destruct (valid_name_inv _ HF) as (_ & _ & _ & ?).
Qed.

Lemma add_file_stored (C : content) fs' r :
  content_bytes C = data ->
  add_file self fs (String c0 rest) F C = (fs', r) ->
  stored lr (String c0 rest) F data fs fs'.
Proof.
  intros HC. unfold add_file.
  rewrite get_file_path_join by (done || by apply valid_name_no_leading_slash).
  set (pd := package_dir self (String c0 rest)).
  set (path := posixpath.join pd F).
  destruct (os.isfile fs path) eqn:Hf; [intros [= <- _]; apply stored_refl|].
  unfold path at 1 2, pd at 1 2. rewrite dirname_plain. fold pd.
  assert (stored lr (String c0 rest) F data fs
            (fst (if negb (os.isdir fs pd) then os.makedirs fs pd else (fs, None))))
    as Hs1.
  { destruct (negb (os.isdir fs pd)); [apply makedirs_stored | apply stored_refl]. }
  destruct (if negb (os.isdir fs pd) then os.makedirs fs pd else (fs, None))
    as [fs1 [e|]]; simpl in Hs1; [by intros [= <- _]|].
  rewrite HC.
  destruct (os.write fs1 path data) as [fs2|] eqn:Hw; [|by intros [= <- _]].
  intros [= <- _].
  destruct (write_inv _ _ _ _ Hw) as (l & Hr & Hd & ->).
  destruct (root_resolved _ Hs1) as [Hr1 _].
  destruct (package_dir_plain self _ HP) as [Hne _].
  apply resolve_join_inv in Hr as (l' & Hl' & Hd' & ->); [|done|done].
  unfold pd in Hl'. rewrite package_dir_shard in Hl'.
  apply (resolve_shard_path _ _ _ _ Hr1 plain_shard HP) in Hl'. subst l'.
  destruct Hs1 as [Hcwd Hs1]. split; [done|]. intros l. simpl.
  destruct (decide (l = F :: String c0 rest :: String c0 "" :: "packages" :: lr))
    as [->|Hne'].
  2:{ rewrite lookup_insert_ne by done. apply Hs1. }
  rewrite lookup_insert_eq. right.
  set (lf := F :: String c0 rest :: String c0 "" :: "packages" :: lr) in *.
  destruct (nodes fs !! lf) as [[d'|]|] eqn:Hold.
  - exfalso. pose proof (proj1 (well_formed_spec fs) Hwf) as Hwf'.
    destruct (Hwf' F _ (ex_intro _ _ Hold)) as [_ Hpd].
    pose proof (old_shard_path c0 _ plain_shard HP Hpd) as Hisd.
    rewrite <- package_dir_shard in Hisd. fold pd in Hisd.
    apply isdir_inv in Hisd as (lp & Hlp & Hlpd).
    pose proof Hlp as Hlp'. unfold pd in Hlp'. rewrite package_dir_shard in Hlp'.
    apply (resolve_shard_path _ _ _ _ Hroot plain_shard HP) in Hlp'. subst lp.
    pose proof (resolve_join _ _ _ _ Hlp Hlpd HF) as Hrf. fold path in Hrf.
    unfold os.isfile in Hf. rewrite Hrf in Hf. fold lf in Hf.
    unfold node_at, lf in Hf. unfold lf in Hold. by rewrite Hold in Hf.
  - exfalso. assert (is_dir (nodes fs) lf = true) as Hdir.
    { apply is_dir_node_at. unfold node_at, lf. unfold lf in Hold. by rewrite Hold. }
    apply (stored_is_dir fs1 _ (conj Hcwd Hs1)) in Hdir. congruence.
  - split; [done|]. right. split; [done|]. done.
Qed.

(** The layout is kept. *)
Lemma listed_shape fs1 p :
  In p (package_paths self fs1) ->
  exists c n, p = shard_path self c n /\ valid_name (String c "") = true
              /\ valid_name n = true /\ starts_with_dot n = false
              /\ os.isdir fs1 p = true.
Proof.
  intros Hp. apply package_paths_spec in Hp as [Hg Hd].
  apply glob_packages_spec in Hg
    as (c & n & shards & names & -> & Hl1 & Hc & Hl2 & Hn & Hdn).
  exists c, n. split; [done|].
  destruct (entry_dir_or_file _ _ _ _ Hl1 Hc) as [Hvc _].
  destruct (entry_dir_or_file _ _ _ _ Hl2 Hn) as [Hvn _]. done.
Qed.

Lemma stored_dir_old fs1 l :
  stored lr (String c0 rest) F data fs fs1 ->
  is_dir (nodes fs1) l = true ->
  is_dir (nodes fs) l = true
  \/ l = "packages" :: lr \/ l = String c0 "" :: "packages" :: lr
  \/ l = package_at lr (String c0 rest).
Proof.
  intros [_ Hs] Hd. destruct l as [|n l']; [by left|].
  apply is_dir_node_at in Hd. simpl in Hd.
  destruct (Hs (n :: l')) as [He|(_ & [[_ Hl]|[Hf _]])].
  - left. apply is_dir_node_at. simpl. congruence.
  - by right.
  - congruence.
Qed.

Lemma stored_sharded fs1 :
  stored lr (String c0 rest) F data fs fs1 ->
  sharded self fs = true -> sharded self fs1 = true.
Proof.
  intros Hs Hsh. unfold sharded. apply forallb_forall. intros p Hp.
  apply String.eqb_eq.
  destruct (listed_shape _ _ Hp) as (c & n & -> & Hc & Hn & Hdn & Hd).
  destruct (root_resolved _ Hs) as [Hr1 _].
  apply isdir_inv in Hd as (l & Hl & Hd).
  apply (resolve_shard_path _ _ _ _ Hr1 Hc Hn) in Hl. subst l.
  destruct (stored_dir_old _ _ Hs Hd) as [Hold|[E|[E|E]]].
  - apply (sharded_inv self fs); [done|].
    apply shard_dir_listed; [done..|]. by apply old_shard_path.
  - apply (f_equal List.length) in E. simpl in E. lia.
  - apply (f_equal List.length) in E. simpl in E. lia.
  - unfold package_at, firstletter in E. injection E as En Ec. subst n c.
    rewrite basename_shard_path
      by (by destruct (valid_name_inv _ HP) as (_ & _ & _ & ?)).
    by rewrite package_dir_shard.
Qed.

Lemma stored_flat fs1 :
  stored lr (String c0 rest) F data fs fs1 ->
  flat self fs = true -> flat self fs1 = true.
Proof.
  intros Hs Hfl. unfold flat. apply forallb_forall. intros p Hp.
  destruct (os.listdir fs1 p) as [names|] eqn:Hl; [|done].
  apply forallb_forall. intros n Hn. apply negb_true_iff.
  destruct (os.isdir fs1 (posixpath.join p n)) eqn:Hd; [exfalso | done].
  destruct (entry_dir_or_file _ _ _ _ Hl Hn) as [Hvn _].
  destruct (listed_shape _ _ Hp) as (c & m & -> & Hc & Hm & Hdm & Hdp).
  destruct (root_resolved _ Hs) as [Hr1 _].
  apply isdir_inv in Hd as (l & Hr & Hd).
  assert (shard_path self c m <> "") as Hne.
  { rewrite shard_path_shape. intros E.
    apply (f_equal String.length) in E. rewrite length_append in E.
    simpl in E. lia. }
  apply resolve_join_inv in Hr as (lp & Hlp & _ & ->); [|done|done].
  apply (resolve_shard_path _ _ _ _ Hr1 Hc Hm) in Hlp. subst lp.
  destruct (stored_dir_old _ _ Hs Hd) as [Hold|[E|[E|E]]].
  - pose proof (proj1 (well_formed_spec fs) Hwf) as Hwf'.
    assert (is_dir (nodes fs) (m :: String c "" :: "packages" :: lr) = true)
      as Hpd.
    { apply (Hwf' n). apply is_dir_node_at in Hold. simpl in Hold.
      by rewrite Hold. }
    pose proof (old_shard_path _ _ Hc Hm Hpd) as Hisd.
    pose proof (shard_dir_listed self fs c m Hc Hm Hdm Hisd) as Hin.
    assert (os.isdir fs (posixpath.join (shard_path self c m) n) = true) as Hsub.
    { unfold os.isdir. apply isdir_inv in Hisd as (lp & Hlp & Hlpd).
      pose proof Hlp as Hlp'.
      apply (resolve_shard_path _ _ _ _ Hroot Hc Hm) in Hlp'. subst lp.
      by rewrite (resolve_join _ _ _ _ Hlp Hlpd Hvn). }
    destruct (isdir_join_listed _ _ _ Hne Hvn Hsub) as (_ & names0 & Hl0 & Hn0).
    pose proof (flat_inv _ _ _ _ Hfl Hin Hl0) as Hall.
    rewrite forallb_forall in Hall. specialize (Hall n Hn0).
    by rewrite Hsub in Hall.
  - apply (f_equal List.length) in E. simpl in E. lia.
  - apply (f_equal List.length) in E. simpl in E. lia.
  - apply (f_equal List.length) in E. simpl in E. lia.
Qed.

Lemma stored_listed fs1 Q :
  stored lr (String c0 rest) F data fs fs1 ->
  In Q (list_packages self fs1) ->
  In Q (list_packages self fs) \/ Q = String c0 rest.
Proof.
  intros Hs HQ.
  destruct (list_packages_inv _ _ _ HQ) as (Hv & Hdq & c & Hc & _ & Hd).
  destruct (root_resolved _ Hs) as [Hr1 _].
  apply isdir_inv in Hd as (l & Hl & Hd).
  apply (resolve_shard_path _ _ _ _ Hr1 Hc Hv) in Hl. subst l.
  destruct (stored_dir_old _ _ Hs Hd) as [Hold|[E|[E|E]]].
  - left. rewrite list_packages_paths. apply in_map_iff.
    exists (shard_path self c Q). split.
    + apply basename_shard_path. by destruct (valid_name_inv _ Hv) as (_ & _ & _ & ?).
    + apply shard_dir_listed; [done..|]. by apply old_shard_path.
  - apply (f_equal List.length) in E. simpl in E. lia.
  - apply (f_equal List.length) in E. simpl in E. lia.
  - right. unfold package_at in E. by injection E as ->.
Qed.

End plain_names.

(** X7.  What [add_file] creates: on a well-formed file system where the
    storage root is the directory at [lr], [add_file] of a plain file name
    into a package with a plain name not starting with a dot, however it
    ends, keeps the working directory and every entry there was, and adds
    at most the directories [packages], [packages/<package[0]>] and
    [packages/<package[0]>/<package>] under the root and the file, with
    the content, in the last of them. *)
Theorem add_file_creates self fs P F (C : content) fs' r lr :
  well_formed fs = true ->
  resolve fs (prefix self) = Some lr -> is_dir (nodes fs) lr = true ->
  valid_name P = true -> starts_with_dot P = false -> valid_name F = true ->
  add_file self fs P F C = (fs', r) ->
  cwd fs' = cwd fs
  /\ forall l,
       nodes fs' !! l = nodes fs !! l
       \/ (nodes fs !! l = None
           /\ ((nodes fs' !! l = Some Dir
                /\ (l = "packages" :: lr
                    \/ l = firstletter P :: "packages" :: lr
                    \/ l = P :: firstletter P :: "packages" :: lr))
               \/ (nodes fs' !! l = Some (File (content_bytes C))
                   /\ l = F :: P :: firstletter P :: "packages" :: lr))).
Proof.
  intros Hwf Hr Hd HP Hdot HF Hadd. destruct P as [|c0 rest]; [done|].
  exact (add_file_stored self fs lr c0 rest F (content_bytes C)
           Hwf Hr Hd HP Hdot HF C fs' r eq_refl Hadd).
Qed.

Lemma add_file_creates_witness :
  cwd disk_django = cwd disk0
  /\ forall l,
       nodes disk_django !! l = nodes disk0 !! l
       \/ (nodes disk0 !! l = None
           /\ ((nodes disk_django !! l = Some Dir
                /\ (l = "packages" :: ["cache"; "srv"]
                    \/ l = firstletter "Django" :: "packages" :: ["cache"; "srv"]
                    \/ l = "Django" :: firstletter "Django" :: "packages"
                            :: ["cache"; "srv"]))
               \/ (nodes disk_django !! l = Some (File (content_bytes (Bytes hello)))
                   /\ l = "Django-1.0.tar.gz" :: "Django" :: firstletter "Django"
                           :: "packages" :: ["cache"; "srv"]))).
Proof.
  apply (add_file_creates srv disk0 "Django" "Django-1.0.tar.gz" (Bytes hello)
           disk_django (Return tt) ["cache"; "srv"]).
  - vm_compute. reflexivity.
  - vm_compute. reflexivity.
  - vm_compute. reflexivity.
  - reflexivity.
  - reflexivity.
  - reflexivity.
  - vm_compute. reflexivity.
Defined.

(** X8.  Plain names keep the layout: on a well-formed file system whose
    storage root exists, [add_file] of a plain file name into a package
    with a plain name not starting with a dot, however it ends, leaves the
    file system well-formed and the root in place, every listed package
    directory in the shard of its first letter, and no package directory
    with a sub-directory.  These are the conditions under which [get_file]
    is total. *)
Theorem add_file_keeps_layout self fs P F (C : content) fs' r :
  well_formed fs = true -> os.isdir fs (prefix self) = true ->
  sharded self fs = true -> flat self fs = true ->
  valid_name P = true -> starts_with_dot P = false -> valid_name F = true ->
  add_file self fs P F C = (fs', r) ->
  well_formed fs' = true /\ os.isdir fs' (prefix self) = true
  /\ sharded self fs' = true /\ flat self fs' = true.
Proof.
  intros Hwf Hroot Hsh Hfl HP Hdot HF Hadd.
  apply isdir_inv in Hroot as (lr & Hr & Hd).
  destruct P as [|c0 rest]; [done|].
  pose proof (add_file_stored self fs lr c0 rest F (content_bytes C)
                Hwf Hr Hd HP Hdot HF C fs' r eq_refl Hadd) as Hs.
  split; [by eapply add_file_well_formed|]. split.
  - unfold os.isdir.
    rewrite (stored_resolve fs lr c0 rest F (content_bytes C) fs' _ _ Hs Hr).
    by eapply stored_is_dir.
  - split.
    + by eapply stored_sharded.
    + by eapply stored_flat.
Qed.

Lemma add_file_keeps_layout_witness :
  well_formed disk_django = true /\ os.isdir disk_django (prefix srv) = true
  /\ sharded srv disk_django = true /\ flat srv disk_django = true.
Proof.
  apply (add_file_keeps_layout srv disk0 "Django" "Django-1.0.tar.gz"
           (Bytes hello) disk_django (Return tt)).
  - vm_compute. reflexivity.
  - vm_compute. reflexivity.
  - vm_compute. reflexivity.
  - vm_compute. reflexivity.
  - reflexivity.
  - reflexivity.
  - reflexivity.
  - vm_compute. reflexivity.
Defined.

(** ** A file name with dots *)

Lemma resolve_extend fs a b l :
  resolve fs a = Some l ->
  resolve fs (a +:+ String "/" b) = walk_path (nodes fs) l (components b).
Proof.
  intros Hr. pose proof (resolve_nonempty _ _ _ Hr) as Hne.
  unfold resolve in *. destruct (String.eqb_spec a ""); [done|].
  destruct (String.eqb_spec (a +:+ String "/" b) "") as [He|_].
  { by apply append_nonempty with (b := String "/" b) in Hne. }
  rewrite starts_with_slash_append by done.
  by rewrite components_app_slash, walk_path_app, Hr.
Qed.

Lemma resolve_extend_none fs a b :
  a <> "" -> resolve fs a = None -> resolve fs (a +:+ String "/" b) = None.
Proof.
  intros Hne Hr. unfold resolve in *. destruct (String.eqb_spec a ""); [done|].
  destruct (String.eqb (a +:+ String "/" b) ""); [done|].
  rewrite starts_with_slash_append by done.
  by rewrite components_app_slash, walk_path_app, Hr.
Qed.

Lemma resolve_child fs a n l :
  resolve fs a = Some l -> is_dir (nodes fs) l = true -> valid_name n = true ->
  resolve fs (a +:+ String "/" n) = Some (n :: l).
Proof.
  intros Hr Hd Hn. rewrite (resolve_extend _ _ _ _ Hr).
  rewrite components_noslash by (by destruct (valid_name_inv _ Hn) as (_ & _ & _ & ?)).
  simpl. by rewrite Hd, valid_name_step.
Qed.

Lemma resolve_dotdot fs a l :
  resolve fs a = Some l ->
  resolve fs (a +:+ String "/" "..")
  = if is_dir (nodes fs) l then Some (tail l) else None.
Proof. intros Hr. by rewrite (resolve_extend _ _ _ _ Hr). Qed.

Lemma resolve_dot fs a l :
  resolve fs a = Some l ->
  resolve fs (a +:+ String "/" ".") = if is_dir (nodes fs) l then Some l else None.
Proof. intros Hr. by rewrite (resolve_extend _ _ _ _ Hr). Qed.

Lemma mkdir_eval fs a c l :
  is_slash c = false -> resolve fs (a +:+ String c "") = Some l ->
  os.mkdir fs (a +:+ String c "")
  = if present (nodes fs) l then (fs, Some EEXIST)
    else (mkfs (<[l := Dir]> (nodes fs)) (cwd fs), None).
Proof.
  intros Hc Hr. unfold os.mkdir.
  assert ((if all_slashes (a +:+ String c "") then a +:+ String c ""
           else rstrip_slash (a +:+ String c "")) = a +:+ String c "") as ->.
  { destruct (all_slashes _); [done | by apply rstrip_slash_keep]. }
  by rewrite Hr.
Qed.

Lemma makedirs_rec_step fuel fs name head tail :
  posixpath.split name = (head, tail) -> tail <> "" -> head <> "" ->
  os.path_exists fs head = false ->
  os.makedirs_rec (S fuel) fs name
  = match os.makedirs_rec fuel fs head with
    | (fs1, Some ENOENT) => (fs1, Some ENOENT)
    | (fs1, _) => if String.eqb tail "." then (fs1, None) else os.mkdir fs1 name
    end.
Proof.
  intros Hs Ht Hh He. simpl. rewrite Hs.
  apply String.eqb_neq in Ht, Hh. rewrite Ht. cbv beta iota.
  by rewrite Ht, Hh, He.
Qed.

Lemma valid_name_last n :
  valid_name n = true -> exists a c, n = a +:+ String c "" /\ is_slash c = false.
Proof.
  intros Hn. destruct (valid_name_inv _ Hn) as (Hne & _ & _ & Hs).
  destruct (last_char n Hne) as (a & c & ->). exists a, c. split; [done|].
  rewrite has_slash_append in Hs. apply orb_false_iff in Hs as [_ Hs].
  simpl in Hs. by apply orb_false_iff in Hs as [? _].
Qed.

(** X9.  Write-once is per path, not per file: when the package holds the
    file [F] and [x] is a name not used in the package directory, without
    NUL bytes and not longer than a directory entry may be, and the path
    of [(P, x/.././F)] is short enough for the file system, [add_file] of
    the file name [x/.././F] succeeds ([os.makedirs] creates [x] on its
    way), and [get_file] of [F], which returned the old bytes, returns the
    bytes [data] of the new content. *)
Theorem add_file_overwrites self fs P F x (C : content) (data : bytes) old :
  valid_name P = true -> valid_name F = true -> valid_name x = true ->
  has_nul x = false -> String.length x <= NAME_MAX ->
  String.length (posixpath.join (package_dir self P) (x +:+ "/.././" +:+ F))
  < PATH_MAX ->
  C = Bytes data \/ C = Stream data ->
  os.read fs (posixpath.join (package_dir self P) F) = Some old ->
  os.path_exists fs (posixpath.join (package_dir self P) x) = false ->
  exists fs',
    add_file self fs P (x +:+ "/.././" +:+ F) C = (fs', Return tt)
    /\ (forall depth, get_file (S depth) self fs P F = Some (Return old))
    /\ (forall depth, get_file (S depth) self fs' P F = Some (Return data)).
Proof.
  intros HP HF Hx _ _ _ HC Hold Hnew.
  assert (content_bytes C = data) as <- by (by destruct HC as [-> | ->]).
  destruct (package_dir_plain self P HP) as [Hne Hes].
  set (pd := package_dir self P) in *.
  pose proof (get_file_path_join self P F HP
                (valid_name_no_leading_slash _ HF)) as HpF. fold pd in HpF.
  (* the stored file and the unused name *)
  pose proof Hold as Hold'. unfold os.read in Hold'.
  destruct (resolve fs (posixpath.join pd F)) as [lF|] eqn:HrF; [|done].
  apply resolve_join_inv in HrF as (lp & Hlp & Hdp & ->); [|done|done].
  assert (nodes fs !! (F :: lp) = Some (File old)) as HnF.
  { simpl in Hold'. by destruct (nodes fs !! (F :: lp)) as [[]|]; simplify_eq. }
  assert (nodes fs !! (x :: lp) = None) as Hnx.
  { unfold os.path_exists in Hnew.
    rewrite (resolve_join _ _ _ _ Hlp Hdp Hx) in Hnew.
    by apply present_false_lookup in Hnew as [? _]. }
  (* the path *)
  set (q1 := pd +:+ String "/" x).
  set (q2 := q1 +:+ String "/" "..").
  set (q3 := q2 +:+ String "/" ".").
  assert (get_file_path self P (x +:+ "/.././" +:+ F)
          = Return (q3 +:+ String "/" F)) as Hpath.
  { rewrite get_file_path_join; [|done|].
    - fold pd. rewrite join_plain; [|done|done|].
      + unfold q3, q2, q1. rewrite !append_assoc. reflexivity.
      + rewrite starts_with_slash_append
          by (by destruct (valid_name_inv _ Hx) as (? & _)).
        by apply valid_name_no_leading_slash.
    - rewrite starts_with_slash_append
        by (by destruct (valid_name_inv _ Hx) as (? & _)).
      by apply valid_name_no_leading_slash. }
  (* the heads of [os.makedirs] *)
  destruct (valid_name_last _ Hx) as (ax & cx & Hxe & Hcx).
  assert (q1 = (pd +:+ String "/" ax) +:+ String cx "") as Hq1.
  { unfold q1. rewrite Hxe. by rewrite append_assoc. }
  assert (q2 = (q1 +:+ "/.") +:+ String "." "") as Hq2.
  { unfold q2. by rewrite append_assoc. }
  assert (q3 = (q2 +:+ "/") +:+ String "." "") as Hq3.
  { unfold q3. by rewrite append_assoc. }
  assert (posixpath.split (q3 +:+ String "/" F) = (q3, F)) as Hs4.
  { rewrite Hq3. apply split_name; [done|].
    by destruct (valid_name_inv _ HF) as (_ & _ & _ & ?). }
  assert (posixpath.split q3 = (q2, ".")) as Hs3.
  { unfold q3. rewrite Hq2. by apply split_name. }
  assert (posixpath.split q2 = (q1, "..")) as Hs2.
  { unfold q2. rewrite Hq1. by apply split_name. }
  assert (posixpath.split q1 = (pd, x)) as Hs1.
  { unfold q1. destruct (last_char pd Hne) as (ap & cp & Hpd). rewrite Hpd.
    apply split_name.
    - rewrite Hpd, ends_with_slash_append in Hes. done.
    - by destruct (valid_name_inv _ Hx) as (_ & _ & _ & ?). }
  (* the old file system *)
  assert (resolve fs q1 = Some (x :: lp)) as Hr1 by (by apply resolve_child).
  assert (is_dir (nodes fs) (x :: lp) = false) as Hdx.
  { unfold is_dir. simpl. by rewrite Hnx. }
  assert (resolve fs q2 = None) as Hr2.
  { unfold q2. by rewrite (resolve_dotdot _ _ _ Hr1), Hdx. }
  assert (q1 <> "") as Hq1ne by (by eapply resolve_nonempty).
  assert (q2 <> "") as Hq2ne by (by apply append_nonempty).
  assert (q3 <> "") as Hq3ne by (by apply append_nonempty).
  assert (resolve fs q3 = None) as Hr3 by (by apply resolve_extend_none).
  assert (resolve fs (q3 +:+ String "/" F) = None) as Hr4
    by (by apply resolve_extend_none).
  (* the new directory *)
  set (fs1 := mkfs (<[x :: lp := Dir]> (nodes fs)) (cwd fs)).
  assert (forall l, is_dir (nodes fs) l = true -> is_dir (nodes fs1) l = true)
    as Hmono.
  { intros l Hl. apply is_dir_insert_dir; [|done]. unfold present. simpl.
    by rewrite Hnx. }
  assert (forall q l, resolve fs q = Some l -> resolve fs1 q = Some l) as Hres1.
  { intros q l. by apply resolve_mono. }
  assert (is_dir (nodes fs1) (x :: lp) = true) as Hdx1.
  { unfold is_dir. simpl. by rewrite lookup_insert_eq. }
  assert (resolve fs1 q2 = Some lp) as Hr21.
  { unfold q2. by rewrite (resolve_dotdot _ _ _ (Hres1 _ _ Hr1)), Hdx1. }
  assert (resolve fs1 q3 = Some lp) as Hr31.
  { unfold q3. by rewrite (resolve_dot _ _ _ Hr21), (Hmono _ Hdp). }
  assert (resolve fs1 (q3 +:+ String "/" F) = Some (F :: lp)) as Hr41.
  { apply (resolve_child fs1 q3 F lp); [done | by apply Hmono | done]. }
  assert (x <> F) as HxF by (intros ->; congruence).
  assert (nodes fs1 !! (F :: lp) = Some (File old)) as HnF1.
  { simpl. rewrite lookup_insert_ne; [done|]. by intros [= ?]. }
  assert (is_dir (nodes fs1) (F :: lp) = false) as HdF1.
  { unfold is_dir, node_at. by rewrite HnF1. }
  (* [os.makedirs] *)
  assert (os.makedirs fs q3 = (fs1, None)) as Hmk.
  { unfold os.makedirs.
    assert (exists k, String.length q3 = S (S k)) as [k ->].
    { unfold q3, q2. rewrite !length_append. simpl. eexists.
      rewrite Nat.add_succ_r, Nat.add_succ_r. reflexivity. }
    rewrite (makedirs_rec_step _ _ _ _ _ Hs3); [|done|done|].
    2:{ unfold os.path_exists. by rewrite Hr2. }
    rewrite (makedirs_rec_step _ _ _ _ _ Hs2); [|done|done|].
    2:{ unfold os.path_exists. rewrite Hr1. unfold present. simpl.
        by rewrite Hnx. }
    rewrite (makedirs_rec_leaf _ _ _ _ _ Hs1);
      [|by destruct (valid_name_inv _ Hx) as (? & _)|].
    2:{ right. unfold os.path_exists. rewrite Hlp. by apply is_dir_present. }
    rewrite Hq1, (mkdir_eval fs _ _ (x :: lp) Hcx); [|by rewrite <- Hq1].
    unfold present at 1. simpl. rewrite Hnx. fold fs1.
    rewrite Hq2, (mkdir_eval fs1 _ _ lp); [|done|by rewrite <- Hq2].
    by rewrite (is_dir_present _ _ (Hmono _ Hdp)). }
  exists (mkfs (<[F :: lp := File (content_bytes C)]> (nodes fs1)) (cwd fs1)).
  split; [|split].
  - unfold add_file. rewrite Hpath.
    unfold os.isfile. rewrite Hr4.
    unfold posixpath.dirname. rewrite Hs4. simpl.
    unfold os.isdir. rewrite Hr3. simpl. rewrite Hmk.
    unfold os.write. by rewrite Hr41, HdF1.
  - intros depth. by eapply get_file_exact.
  - intros depth. eapply get_file_exact; [done|].
    unfold os.read.
    assert (resolve (mkfs (<[F :: lp := File (content_bytes C)]> (nodes fs1))
                       (cwd fs1)) (posixpath.join pd F) = Some (F :: lp)) as ->.
    { apply resolve_join; [| |done].
      - apply (resolve_mono fs1); [done| |by apply Hres1].
        intros l Hl. simpl. by rewrite is_dir_insert_file.
      - simpl. rewrite is_dir_insert_file; [by apply Hmono | done]. }
    simpl. by rewrite lookup_insert_eq.
Qed.

Lemma add_file_overwrites_witness :
  exists fs',
    add_file srv disk_django "Django" ("new" +:+ "/.././" +:+ "Django-1.0.tar.gz")
      (Bytes world) = (fs', Return tt)
    /\ (forall depth,
          get_file (S depth) srv disk_django "Django" "Django-1.0.tar.gz"
          = Some (Return hello))
    /\ (forall depth,
          get_file (S depth) srv fs' "Django" "Django-1.0.tar.gz"
          = Some (Return world)).
Proof.
  apply (add_file_overwrites srv disk_django "Django" "Django-1.0.tar.gz" "new"
           (Bytes world) world hello).
  - reflexivity.
  - reflexivity.
  - reflexivity.
  - reflexivity.
  - vm_compute. lia.
  - vm_compute. lia.
  - by left.
  - vm_compute. reflexivity.
  - vm_compute. reflexivity.
Defined.

(** ** More on the edges *)

(** X18.  What [list_packages] gains: on a well-formed file system whose
    storage root exists, after [add_file] of a plain file name into a
    package with a plain name not starting with a dot, however it ends,
    every package listed was listed before or is that package. *)
Theorem add_file_new_packages self fs P F (C : content) fs' r Q :
  well_formed fs = true -> os.isdir fs (prefix self) = true ->
  valid_name P = true -> starts_with_dot P = false -> valid_name F = true ->
  add_file self fs P F C = (fs', r) ->
  In Q (list_packages self fs') -> In Q (list_packages self fs) \/ Q = P.
Proof.
  intros Hwf Hroot HP Hdot HF Hadd HQ.
  apply isdir_inv in Hroot as (lr & Hr & Hd).
  destruct P as [|c0 rest]; [done|].
  pose proof (add_file_stored self fs lr c0 rest F (content_bytes C)
                Hwf Hr Hd HP Hdot HF C fs' r eq_refl Hadd) as Hs.
  by eapply stored_listed.
Qed.

Lemma add_file_new_packages_witness :
  In "Django" (list_packages srv disk0) \/ "Django" = "Django".
Proof.
  apply (add_file_new_packages srv disk0 "Django" "Django-1.0.tar.gz"
           (Bytes hello) disk_django (Return tt) "Django").
  - vm_compute. reflexivity.
  - vm_compute. reflexivity.
  - reflexivity.
  - reflexivity.
  - reflexivity.
  - vm_compute. reflexivity.
  - vm_compute. by left.
Defined.

(** X19.  A file name that names a directory of the package: [add_file]
    raises [IOError], the error of [open], and leaves the file system as
    it was. *)
Theorem add_file_onto_directory self fs P F (C : content) :
  valid_name P = true -> valid_name F = true ->
  os.isdir fs (posixpath.join (package_dir self P) F) = true ->
  add_file self fs P F C = (fs, Raise IOError).
Proof.
  intros HP HF Hd. destruct P as [|c0 rest]; [done|].
  destruct (package_dir_plain self _ HP) as [Hne _].
  destruct (isdir_join_listed _ _ _ Hne HF Hd) as [Hpd _].
  unfold add_file.
  rewrite get_file_path_join by (done || by apply valid_name_no_leading_slash).
  rewrite (dirname_plain self c0 rest F HP HF), Hpd. simpl.
  apply isdir_inv in Hd as (l & Hr & Hl).
  unfold os.isfile, os.write. rewrite Hr, Hl.
  apply is_dir_node_at in Hl. by rewrite Hl.
Qed.

Lemma add_file_onto_directory_witness :
  add_file srv disk_nested "django" "sub" (Bytes world)
  = (disk_nested, Raise IOError).
Proof.
  apply (add_file_onto_directory srv disk_nested "django" "sub" (Bytes world)).
  - reflexivity.
  - reflexivity.
  - vm_compute. reflexivity.
Defined.

(** X20.  [list_files] never returns for a package outside its shard: when
    the package has no directory in the shard of its first letter and the
    first listed package of its lower-case name is the package itself,
    [list_files] calls itself with the same argument for ever. *)
Theorem list_files_missharded self fs P :
  P <> "" -> os.isdir fs (package_dir self P) = false ->
  List.find (fun my_package => same_name my_package P) (list_packages self fs)
  = Some P ->
  ~ exists g, list_files_yields self fs P g.
Proof.
  intros HP Hd Hf (g & depth & Hg). revert Hg.
  induction depth as [|depth IH]; [done|].
  by rewrite list_files_fishing, Hf.
Qed.

Lemma list_files_missharded_witness :
  ~ exists g, list_files_yields srv disk_missharded "zeta" g.
Proof.
  apply (list_files_missharded srv disk_missharded "zeta").
  - discriminate.
  - vm_compute. reflexivity.
  - vm_compute. reflexivity.
Defined.

Lemma fishing_find lf gf P F path pkgs Q :
  List.find (fun my_package => same_name P my_package) pkgs = Some Q ->
  match lf Q with
  | None => fishing lf gf P F path pkgs = None
  | Some g =>
      forall fi,
        List.find (fun fi => same_name (info_filename fi) F) (yields g) = Some fi ->
        fishing lf gf P F path pkgs = gf Q (info_filename fi)
  end.
Proof.
  induction pkgs as [|Q' pkgs IH]; [done|]. simpl List.find.
  rewrite fishing_cons.
  destruct (same_name P Q') eqn:Hs; [|exact IH].
  intros [= ->]. destruct (lf Q) as [g|]; [|done].
  intros fi Hfi. by rewrite Hfi.
Qed.

(** X21.  [get_file] never returns for a file below the top of its package
    directory: when nothing can be read at the exact path, the package
    directory exists, the first listed package of the same lower-case name
    is the package itself and the first file name of the same lower-case
    form that [list_files] yields is the file name itself, [get_file]
    calls itself with the same arguments for ever. *)
Theorem get_file_never_returns self fs Q G path fi :
  get_file_path self Q G = Return path ->
  os.read fs path = None ->
  os.isdir fs (package_dir self Q) = true ->
  List.find (fun my_package => same_name Q my_package) (list_packages self fs)
  = Some Q ->
  List.find (fun fi => same_name (info_filename fi) G)
    (yields (walk_records fs Q (firstletter Q) (os.walk fs (package_dir self Q))))
  = Some fi ->
  info_filename fi = G ->
  ~ exists r, get_file_returns self fs Q G r.
Proof.
  intros Hp Hr Hd Hpk Hfi HG (r & depth & Hg). revert Hg.
  assert (Q <> "") as HQ by (by intros ->).
  induction depth as [|depth IH]; [done|].
  rewrite get_file_S, Hp, Hr.
  pose proof (fishing_find (list_files depth self fs) (get_file depth self fs)
                Q G path _ Q Hpk) as Hfish.
  destruct depth as [|depth]; [by rewrite Hfish|].
  rewrite list_files_exact in Hfish by done.
  by rewrite (Hfish fi Hfi), HG.
Qed.

Lemma get_file_never_returns_witness :
  ~ exists r, get_file_returns srv disk_nested "django" "f.txt" r.
Proof.
  apply (get_file_never_returns srv disk_nested "django" "f.txt"
           "/srv/cache/packages/d/django/f.txt"
           (mkinfo "django" "d" "f.txt" "5d41402abc4b2a76b9719d911017c592")).
  - reflexivity.
  - vm_compute. reflexivity.
  - vm_compute. reflexivity.
  - vm_compute. reflexivity.
  - vm_compute. reflexivity.
  - reflexivity.
Defined.

(** ** The remote index *)

Lemma ends_with_slash_add s : ends_with_slash (s +:+ "/") = true.
Proof. apply (ends_with_slash_append s "/"). Qed.

(** X13.  The server of a [PyPI] object ends with a slash: it is the
    argument, with a slash added when it had none; the XML-RPC proxy was
    accepted for [<server>pypi]; and making an object from that server
    gives the same object. *)
Theorem pypi_init_server (server_proxy : string -> bool) (s : string)
    (self : pypi.PyPI) :
  pypi.__init__ server_proxy s = Return self ->
  ends_with_slash (pypi.pypi_server self) = true
  /\ pypi.pypi_server self = (if ends_with_slash s then s else s +:+ "/")
  /\ server_proxy (pypi.pypi_server self +:+ "pypi") = true
  /\ pypi.__init__ server_proxy (pypi.pypi_server self) = Return self.
Proof.
  unfold pypi.__init__. intros H.
  assert (ends_with_slash (if negb (ends_with_slash s) then s +:+ "/" else s)
          = true) as He.
  { destruct (ends_with_slash s) eqn:Hs; simpl; [done | apply ends_with_slash_add]. }
  destruct (server_proxy _) eqn:Hp; [|done]. injection H as <-. simpl.
  split; [done|]. split; [by destruct (ends_with_slash s)|]. split; [done|].
  rewrite He. simpl. by rewrite Hp.
Qed.

Lemma pypi_init_server_witness :
  ends_with_slash (pypi.pypi_server localhost) = true
  /\ pypi.pypi_server localhost
     = (if ends_with_slash "http://localhost" then "http://localhost"
        else "http://localhost" +:+ "/")
  /\ any_proxy (pypi.pypi_server localhost +:+ "pypi") = true
  /\ pypi.__init__ any_proxy (pypi.pypi_server localhost) = Return localhost.
Proof.
  apply (pypi_init_server any_proxy "http://localhost" localhost). reflexivity.
Defined.

Lemma get_uri_cases (net : network) (uri : string) (log log' : list string)
    (res : fetched requests.Response) :
  pypi.get_uri net uri log = (log', res) ->
  log' = log ++ [uri]
  /\ (forall r, res = Got r <-> net uri = inl r /\ requests.status_code r = 200%N)
  /\ (forall msg,
        res = Failed (Local (NotFound msg))
        <-> exists r, net uri = inl r /\ requests.status_code r = 404%N
              /\ msg = "Can't locate " +:+ uri +:+ ": " +:+ requests.repr r)
  /\ (forall msg,
        res = Failed (RemoteError msg)
        <-> exists r, net uri = inl r /\ requests.status_code r <> 404%N
              /\ requests.status_code r <> 200%N
              /\ msg = "Unexpected response from " +:+ uri +:+ ": "
                       +:+ requests.repr r)
  /\ (forall what, res = Failed (RequestException what) <-> net uri = inr what)
  /\ (forall e, res <> Failed (Local e) \/ exists msg, e = NotFound msg).
Proof.
  unfold pypi.get_uri. destruct (net uri) as [r|what] eqn:Hn.
  2:{ intros [= <- <-]. split; [done|]. split; [|split; [|split; [|split]]].
      - intros r. split; [done | by intros [? _]].
      - intros msg. split; [done | by intros (r & ? & _)].
      - intros msg. split; [done | by intros (r & ? & _)].
      - intros w. split; [by intros [= ->] | by intros [= ->]].
      - intros e. by left. }
  destruct (requests.status_code r =? 404)%N eqn:H404.
  { apply N.eqb_eq in H404. intros [= <- <-]. split; [done|].
    split; [|split; [|split; [|split]]].
    - intros r'. split; [done|]. intros [[= <-] H200]. congruence.
    - intros msg. split.
      + intros [= <-]. by exists r.
      + intros (r' & [= <-] & _ & ->). done.
    - intros msg. split; [done|]. by intros (r' & [= <-] & ? & _).
    - intros w. split; done.
    - intros e. destruct e; try (by left). right. by eexists. }
  apply N.eqb_neq in H404.
  destruct (requests.status_code r =? 200)%N eqn:H200; simpl.
  - apply N.eqb_eq in H200. intros [= <- <-]. split; [done|].
    split; [|split; [|split; [|split]]].
    + intros r'. split; [by intros [= <-] | by intros [[= <-] _]].
    + intros msg. split; [done|]. by intros (r' & [= <-] & ? & _).
    + intros msg. split; [done|]. by intros (r' & [= <-] & _ & ? & _).
    + intros w. split; done.
    + intros e. by left.
  - apply N.eqb_neq in H200. intros [= <- <-]. split; [done|].
    split; [|split; [|split; [|split]]].
    + intros r'. split; [done|]. by intros [[= <-] ?].
    + intros msg. split; [done|]. by intros (r' & [= <-] & ? & _).
    + intros msg. split.
      * intros [= <-]. by exists r.
      * by intros (r' & [= <-] & _ & _ & ->).
    + intros w. split; done.
    + intros e. by left.
Qed.

Lemma get_uri_log net uri log :
  pypi.get_uri net uri log
  = (log ++ [uri], snd (pypi.get_uri net uri log)).
Proof.
  unfold pypi.get_uri. destruct (net uri) as [r|?]; [|done].
  destruct (_ =? 404)%N; [done|]. by destruct (negb _).
Qed.

(** X14.  The outcomes of [get_uri]: one request, for the URI; the
    response is returned exactly for status 200; [NotFound] is raised
    exactly for status 404 and [RemoteError] exactly for every other
    status, each with the URI and the response in its message; an
    exception of [requests.get] is passed on. *)
Theorem get_uri_outcome (net : network) (uri : string) (log : list string) :
  fst (pypi.get_uri net uri log) = log ++ [uri]
  /\ (forall r,
        snd (pypi.get_uri net uri log) = Got r
        <-> net uri = inl r /\ requests.status_code r = 200%N)
  /\ (forall msg,
        snd (pypi.get_uri net uri log) = Failed (Local (NotFound msg))
        <-> exists r, net uri = inl r /\ requests.status_code r = 404%N
              /\ msg = "Can't locate " +:+ uri +:+ ": " +:+ requests.repr r)
  /\ (forall msg,
        snd (pypi.get_uri net uri log) = Failed (RemoteError msg)
        <-> exists r, net uri = inl r /\ requests.status_code r <> 404%N
              /\ requests.status_code r <> 200%N
              /\ msg = "Unexpected response from " +:+ uri +:+ ": "
                       +:+ requests.repr r)
  /\ (forall what,
        snd (pypi.get_uri net uri log) = Failed (RequestException what)
        <-> net uri = inr what)
  /\ (forall e,
        snd (pypi.get_uri net uri log) = Failed (Local e) ->
        exists msg, e = NotFound msg).
Proof.
  pose proof (get_uri_cases net uri log _ _ (get_uri_log net uri log))
    as (_ & H200 & H404 & Hother & Hexn & Hlocal).
  split; [by rewrite get_uri_log|]. split; [exact H200|]. split; [exact H404|].
  split; [exact Hother|]. split; [exact Hexn|].
  intros e He. by destruct (Hlocal e) as [Hn|?]; [destruct (Hn He)|].
Qed.

(** X15.  What [PyPI.get_file] requests: for the empty package name
    nothing, it raises [IndexError]; otherwise the one URI
    [<server>packages/<version or source>/<package[0]>/<package>/<file>],
    whose body it returns exactly when the status is 200, and it fails
    exactly as [get_uri] fails for that URI. *)
Theorem pypi_get_file_request (net : network) (self : pypi.PyPI)
    (P F : string) (v : option string) (log : list string) :
  (P = ""
   /\ pypi.get_file net self P F v log = (log, Failed (Local IndexError)))
  \/ exists c rest uri,
       P = String c rest
       /\ uri = pypi.pypi_server self +:+ "packages/" +:+ default "source" v
                +:+ "/" +:+ String c "" +:+ "/" +:+ P +:+ "/" +:+ F
       /\ fst (pypi.get_file net self P F v log) = log ++ [uri]
       /\ (forall data,
             snd (pypi.get_file net self P F v log) = Got data
             <-> exists r, net uri = inl r /\ requests.status_code r = 200%N
                   /\ data = requests.content r)
       /\ (forall e,
             snd (pypi.get_file net self P F v log) = Failed e
             <-> snd (pypi.get_uri net uri log) = Failed e).
Proof.
  destruct P as [|c rest]; [left; split; [done|]; by destruct v|].
  right. exists c, rest.
  set (P := String c rest).
  set (uri := pypi.pypi_server self +:+ "packages/" +:+ default "source" v
              +:+ "/" +:+ String c "" +:+ "/" +:+ P +:+ "/" +:+ F).
  exists uri. split; [done|]. split; [done|].
  assert (pypi.get_file net self P F v log
          = match pypi.get_uri net uri log with
            | (log, Got r) => (log, Got (requests.content r))
            | (log, Failed e) => (log, Failed e)
            end) as ->.
  { unfold pypi.get_file, uri, P. destruct v as [v|]; simpl.
    - done.
    - done. }
  rewrite get_uri_log.
  destruct (snd (pypi.get_uri net uri log)) as [r|e] eqn:Hres; simpl.
  - split; [done|].
    split; [|intros ?; split; congruence].
    pose proof (get_uri_cases net uri log _ _ (get_uri_log net uri log))
      as (_ & Hgot & _).
    rewrite Hres in Hgot. intros data. split.
    + intros [= <-]. exists r. destruct (proj1 (Hgot r) eq_refl) as [Hn Hs].
      split; [done|]. split; done.
    + intros (r' & Hn & Hs & ->).
      pose proof (proj2 (Hgot r') (conj Hn Hs)) as [= ->]. done.
  - split; [done|].
    split; [|intros ?; split; congruence].
    pose proof (get_uri_cases net uri log _ _ (get_uri_log net uri log))
      as (_ & Hgot & _).
    rewrite Hres in Hgot. intros data. split; [done|].
    intros (r' & Hn & Hs & ->).
    by pose proof (proj2 (Hgot r') (conj Hn Hs)).
Qed.

(** X17.  The index and the store shard alike: where [get_file_path]
    raises, [PyPI.get_file] without a version raises the same exception
    and requests nothing; otherwise the path of the store is
    [<root>/packages/<tail>] and the URI requested is
    [<server>packages/source/<tail>] for the same tail. *)
Theorem pypi_store_same_layout (net : network) (idx : pypi.PyPI)
    (self : DiskPackageStore) (P F : string) (log : list string) :
  match get_file_path self P F with
  | Raise e => pypi.get_file net idx P F None log = (log, Failed (Local e))
  | Return path =>
      exists tail,
        path = posixpath.join (prefix self) ("packages/" +:+ tail)
        /\ fst (pypi.get_file net idx P F None log)
           = log ++ [pypi.pypi_server idx +:+ "packages/source/" +:+ tail]
  end.
Proof.
  destruct P as [|c rest]; [done|]. simpl.
  exists (String c "" +:+ "/" +:+ String c rest +:+ "/" +:+ F).
  split; [done|]. unfold pypi.get_file. simpl. rewrite get_uri_log.
  by destruct (snd _).
Qed.

(** X16.  What [get_simple_package_info] requests: the one URI
    [<server>simple/<package>/], also for the empty package name; it
    returns the body exactly when the status is 200 and fails exactly as
    [get_uri] fails for that URI. *)
Theorem pypi_simple_request (net : network) (self : pypi.PyPI) (P : string)
    (log : list string) :
  fst (pypi.get_simple_package_info net self P log)
  = log ++ [pypi.pypi_server self +:+ "simple/" +:+ P +:+ "/"]
  /\ (forall data,
        snd (pypi.get_simple_package_info net self P log) = Got data
        <-> exists r,
              net (pypi.pypi_server self +:+ "simple/" +:+ P +:+ "/") = inl r
              /\ requests.status_code r = 200%N
              /\ data = requests.content r)
  /\ (forall e,
        snd (pypi.get_simple_package_info net self P log) = Failed e
        <-> snd (pypi.get_uri net
                   (pypi.pypi_server self +:+ "simple/" +:+ P +:+ "/") log)
            = Failed e).
Proof.
  set (uri := pypi.pypi_server self +:+ "simple/" +:+ P +:+ "/").
  unfold pypi.get_simple_package_info. fold uri.
  rewrite get_uri_log.
  pose proof (get_uri_cases net uri log _ _ (get_uri_log net uri log))
    as (_ & Hgot & _).
  destruct (snd (pypi.get_uri net uri log)) as [r|e] eqn:Hres; simpl.
  - split; [done|].
    split; [|intros ?; split; congruence]. intros data. split.
    + intros [= <-]. exists r. destruct (proj1 (Hgot r) eq_refl) as [Hn Hs].
      split; [done|]. split; done.
    + intros (r' & Hn & Hs & ->).
      pose proof (proj2 (Hgot r') (conj Hn Hs)) as [= ->]. done.
  - split; [done|].
    split; [|intros ?; split; congruence]. intros data. split; [done|].
    intros (r' & Hn & Hs & ->).
    by pose proof (proj2 (Hgot r') (conj Hn Hs)).
Qed.

(** The three kinds of answer, on the sample servers. *)
Example get_file_from_index :
  pypi.get_file one_file_server localhost "Django" "Django-1.0.tar.gz" None []
  = (["http://localhost/packages/source/D/Django/Django-1.0.tar.gz"], Got hello).
Proof. vm_compute. reflexivity. Qed.

Example get_file_not_in_index :
  pypi.get_file one_file_server localhost "flask" "flask-0.1.tar.gz" (Some "2.7") []
  = (["http://localhost/packages/2.7/f/flask/flask-0.1.tar.gz"],
     Failed (Local (NotFound
        ("Can't locate http://localhost/packages/2.7/f/flask/flask-0.1.tar.gz"
         +:+ ": <Response [404]>")))).
Proof. vm_compute. reflexivity. Qed.

Example simple_page_from_broken_index :
  pypi.get_simple_package_info broken_server localhost "flask" []
  = (["http://localhost/simple/flask/"],
     Failed (RemoteError
        "Unexpected response from http://localhost/simple/flask/: <Response [503]>")).
Proof. vm_compute. reflexivity. Qed.
